(** * WhatsApp AI assistant: conversation state and request orchestration

    A shallow embedding of [app/db_manager.py], [app/llm_client.py],
    [app/llm_service.py] and the endpoints of [app/main.py].  Every
    [async def] becomes a function on an explicit world state that either
    returns a value or raises a Python exception: a coroutine run from its
    call to its return with no other task in between.  Where the claims
    speak of the life of the process, deliveries handled one after the
    other are a fold of such runs; deliveries that overlap are runs cut at
    the awaits of [_get_or_create_chat_history] and taken in turn.  The
    collaborators the code only calls (the SQL engine's sorter and faults,
    the file system, [mimetypes], the Gemini API, the WhatsApp sender, the
    clock) and Python's [str.strip] are fields of an environment record. *)

From stdpp Require Import gmap strings list sorting.
From Stdlib Require Import ZArith Ascii String List Lia.
From Stdlib Require Import Sorting.Sorted Sorting.Permutation Strings.Byte.

Open Scope string_scope.
Open Scope list_scope.
Open Scope Z_scope.

(** ** Python values and library functions used by the code *)

Module Py.

(** Exceptions the code raises, catches or lets through.  Everything that
    is neither an [HTTPException] nor a [ConnectionError] is only ever
    caught by [except Exception], so one constructor stands for it. *)
Inductive Exn :=
| HTTPException (status_code : Z) (detail : string)
| ConnectionError (msg : string)
| OtherException (what : string).

Inductive Res (A : Type) :=
| Ok (a : A)
| Raise (e : Exn).
Arguments Ok {A} a.
Arguments Raise {A} e.

(** Truth value of an [Optional[str]]: [None] and [""] are falsy. *)
Definition truthy (o : option string) : bool :=
  match o with
  | Some (String _ _) => true
  | _ => false
  end.

(** [str.strip] for text whose white space is ASCII (tab to carriage
    return, the four separators, the blank): on such text it is what
    Python computes.  The code's own calls of [strip] go through
    [str_strip] of the environment, which stands for Python's function on
    every text; this one is the sample environment's. *)
Definition ascii_isspace (c : ascii) : bool :=
  let n := Z.of_nat (nat_of_ascii c) in
  ((9 <=? n) && (n <=? 13)) || ((28 <=? n) && (n <=? 32)).

Fixpoint ascii_lstrip (s : string) : string :=
  match s with
  | String c s' => if ascii_isspace c then ascii_lstrip s' else s
  | EmptyString => EmptyString
  end.

(** [ascii_rstrip] drops the trailing run of white space: a character is
    kept when it is not white space or something kept follows it. *)
Fixpoint ascii_rstrip (s : string) : string :=
  match s with
  | EmptyString => EmptyString
  | String c s' =>
      match ascii_rstrip s' with
      | EmptyString => if ascii_isspace c then EmptyString else String c EmptyString
      | r => String c r
      end
  end.

Definition ascii_strip (s : string) : string := ascii_rstrip (ascii_lstrip s).

(** [str.lower] on the ASCII range. *)
Definition lower_char (c : ascii) : ascii :=
  let n := nat_of_ascii c in
  if ((65 <=? n) && (n <=? 90))%nat then ascii_of_nat (n + 32) else c.

Fixpoint lower (s : string) : string :=
  match s with
  | EmptyString => EmptyString
  | String c s' => String (lower_char c) (lower s')
  end.

(** [s.rfind(c)]: index of the last occurrence, [-1] when there is none.
    [i] is the index of the first character of [s]. *)
Fixpoint rfind_from (c : ascii) (s : string) (i : Z) : Z :=
  match s with
  | EmptyString => -1
  | String a s' =>
      let r := rfind_from c s' (i + 1) in
      if 0 <=? r then r else if Ascii.eqb a c then i else -1
  end.

Definition rfind (c : ascii) (s : string) : Z := rfind_from c s 0.

(** The slice [s[i:]] for an index within [0 .. len s]. *)
Definition slice_from (s : string) (i : Z) : string :=
  String.substring (Z.to_nat i) (String.length s - Z.to_nat i) s.

(** [os.path.basename] (posixpath). *)
Definition basename (p : string) : string :=
  slice_from p (rfind "/" p + 1).

(** The [while] loop of [genericpath._splitext]: is there a character
    other than the dot in [p[filenameIndex:dotIndex]]? *)
Fixpoint splitext_scan (p : string) (filenameIndex : Z) (todo : nat) : bool :=
  match todo with
  | O => false
  | S todo' =>
      match String.get (Z.to_nat filenameIndex) p with
      | Some c =>
          if Ascii.eqb c "." then splitext_scan p (filenameIndex + 1) todo'
          else true
      | None => true
      end
  end.

(** [os.path.splitext(p)[1]] (posixpath). *)
Definition splitext_ext (p : string) : string :=
  let sepIndex := rfind "/" p in
  let dotIndex := rfind "." p in
  if (sepIndex <? dotIndex)
     && splitext_scan p (sepIndex + 1) (Z.to_nat (dotIndex - (sepIndex + 1)))
  then slice_from p dotIndex
  else EmptyString.

(** [base64.b64encode(bs).decode('utf-8')]. *)
Definition b64_alphabet : string :=
  "ABCDEFGHIJKLMNOPQRSTUVWXYZabcdefghijklmnopqrstuvwxyz0123456789+/".

Definition b64_char (n : N) : ascii :=
  match String.get (N.to_nat n) b64_alphabet with
  | Some c => c
  | None => "="%char
  end.

Fixpoint b64encode (bs : list byte) : string :=
  match bs with
  | [] => EmptyString
  | [a] =>
      let x := Byte.to_N a in
      String (b64_char (x / 4))
        (String (b64_char ((x mod 4) * 16)) "==")
  | [a; b] =>
      let x := Byte.to_N a in
      let y := Byte.to_N b in
      String (b64_char (x / 4))
        (String (b64_char ((x mod 4) * 16 + y / 16))
           (String (b64_char ((y mod 16) * 4)) "="))
  | a :: b :: c :: rest =>
      let x := Byte.to_N a in
      let y := Byte.to_N b in
      let z := Byte.to_N c in
      String (b64_char (x / 4))
        (String (b64_char ((x mod 4) * 16 + y / 16))
           (String (b64_char ((y mod 16) * 4 + z / 64))
              (String (b64_char (z mod 64)) (b64encode rest))))
  end%N.

End Py.

(** ** Data: stored rows, model turns, inbound messages *)

Module DbManager.

(** A row of the [messages] table, as [get_history] hands it out
    ([dict(zip(column_names, row))]). *)
Record Row := {
  id : Z;
  sender_phone : string;
  role : string;
  message_id : option string;
  type : string;
  text_content : option string;
  local_file_path : option string;
  timestamp : Z
}.

(** [ConversationDBManager]: [_connection] is [None] or a connection; the
    table is kept in insertion (rowid) order; [last_id] is the
    AUTOINCREMENT counter. *)
Record ConversationDBManager := {
  _connection : bool;
  messages : list Row;
  last_id : Z
}.

End DbManager.

Module Genai.

(** A content part: the dictionaries [{"text": ..}],
    [{"inline_data": {"mime_type": .., "data": ..}}] and
    [{"file_data": {"mime_type": .., "file_uri": ..}}]. *)
Inductive Part :=
| Text (text : string)
| InlineData (mime_type : string) (data : string)
| FileData (mime_type : string) (file_uri : string).

(** A turn: [{"role": .., "parts": ..}] or the model's [Content]. *)
Record Content := { role : string; parts : list Part }.

Record Candidate := { content : Content }.

(** [block_reason]: [None] is a falsy value, [Some s] a truthy one that
    prints as [s]. *)
Record PromptFeedback := { block_reason : option (option string) }.

(** What the code probes of the response object (itself an object, so
    truthy).  An attribute that may be missing ([hasattr]) is an [option];
    [text] is a property that may raise.  [prompt_feedback = Some None] is
    a present but falsy value. *)
Record GenerateContentResponse := {
  text : Py.Res (option string);
  candidates : option (list Candidate);
  prompt_feedback : option (option PromptFeedback)
}.

(** The result of [genai.upload_file]. *)
Record File := { mime_type : string; uri : string }.

End Genai.

Module Models.

(** The fields of the webhook models that the core reads ([media_type] is
    the [type] of [ReceivedMediaInfo]). *)
Record ReceivedMediaInfo := {
  url : string;
  media_type : string;
  extension : string;
  filename : option string
}.

Record IncomingMessageData := {
  id : string;
  type : string;
  sender_phone : string;
  recipient_phone : string;
  body : option string;
  timestamp : Z;
  is_mine : bool;
  media : option ReceivedMediaInfo;
  local_file_path : option string
}.

End Models.

(** ** The world: durable store, session cache, and a log of the calls
    made to the outside *)

Inductive Event :=
| EvInsert (values : DbManager.Row)
| EvSelect (sender_phone : string) (limit : Z)
| EvUpload (path : string) (mime_type : string)
| EvGenerate (messages_to_send : list Genai.Content)
| EvSendText (number : string) (message : string).

Record World := {
  db : DbManager.ConversationDBManager;
  chat_histories : gmap string (list Genai.Content);
  trace : list Event
}.

(** The collaborators.  [order_by key desc] is the SQL engine's
    [ORDER BY key ASC|DESC]; the [_fails] fields say when the engine or
    the sender raises; [None] from the file system, the upload or the
    model call is a raised exception.  [str_strip] is Python's
    [str.strip], which removes the white space of Unicode at both ends of
    a text, whatever the encoding the model's strings stand for. *)
Record Env := {
  str_strip : string -> string;
  order_by : (DbManager.Row -> Z) -> bool -> list DbManager.Row -> list DbManager.Row;
  insert_fails : DbManager.Row -> bool;
  select_fails : string -> bool;
  guess_type : string -> option string;
  path_exists : string -> bool;
  path_getsize : string -> option Z;
  read_bytes : string -> option (list byte);
  upload_file : string -> string -> option Genai.File;
  generate_content_async : list Genai.Content -> option Genai.GenerateContentResponse;
  send_text_fails : string -> string -> bool;
  time_time : Z
}.

Definition set_db (d : DbManager.ConversationDBManager) (w : World) : World :=
  {| db := d; chat_histories := chat_histories w; trace := trace w |}.

Definition set_chat_histories (h : gmap string (list Genai.Content)) (w : World) : World :=
  {| db := db w; chat_histories := h; trace := trace w |}.

Definition log (e : Event) (w : World) : World :=
  {| db := db w; chat_histories := chat_histories w; trace := trace w ++ [e] |}.

(** A coroutine run to completion: a result or an exception, and the world
    it leaves (changes made before a raise stay). *)
Definition M (A : Type) : Type := World -> Py.Res A * World.

Definition ret {A} (a : A) : M A := fun w => (Py.Ok a, w).
Definition raise {A} (e : Py.Exn) : M A := fun w => (Py.Raise e, w).

Definition bind {A B} (c : M A) (k : A -> M B) : M B :=
  fun w =>
    match c w with
    | (Py.Ok a, w') => k a w'
    | (Py.Raise e, w') => (Py.Raise e, w')
    end.

(** [try: c except ...: h e]. *)
Definition try_except {A} (c : M A) (h : Py.Exn -> M A) : M A :=
  fun w =>
    match c w with
    | (Py.Ok a, w') => (Py.Ok a, w')
    | (Py.Raise e, w') => h e w'
    end.

Definition modify (f : World -> World) : M unit := fun w => (Py.Ok tt, f w).

Notation "'do' x <- c ; k" := (bind c (fun x => k))
  (at level 10, x name, c at level 100, k at level 200).
Notation "'run' c ; k" := (bind c (fun _ => k))
  (at level 10, c at level 100, k at level 200).

Definition lift {A} (r : Py.Res A) : M A := fun w => (r, w).

(** ** The code *)

Section Code.

Variable env : Env.

(** *** db_manager.py *)

Definition save_message (sender_phone role : string) (message_id : option string)
    (type : string) (text_content local_file_path : option string)
    (timestamp : Z) : M unit :=
  fun w =>
    let d := db w in
    if negb (DbManager._connection d)
    then (Py.Raise (Py.ConnectionError "Database not connected."), w)
    else
      let values :=
        {| DbManager.id := DbManager.last_id d + 1;
           DbManager.sender_phone := sender_phone;
           DbManager.role := role;
           DbManager.message_id := message_id;
           DbManager.type := type;
           DbManager.text_content := text_content;
           DbManager.local_file_path := local_file_path;
           DbManager.timestamp := timestamp |} in
      let w1 := log (EvInsert values) w in
      if insert_fails env values
      then (Py.Raise (Py.OtherException "sqlite3.Error"), w1)
      else
        (Py.Ok tt,
         set_db {| DbManager._connection := true;
                   DbManager.messages := DbManager.messages d ++ [values];
                   DbManager.last_id := DbManager.last_id d + 1 |} w1).

(** [LIMIT ?]: a negative limit means no limit in SQLite. *)
Definition sql_limit (limit : Z) (rows : list DbManager.Row) : list DbManager.Row :=
  if limit <? 0 then rows else firstn (Z.to_nat limit) rows.

(** [SELECT * FROM messages WHERE sender_phone = ?]. *)
Definition where_sender_phone (sender_phone : string) (rows : list DbManager.Row)
  : list DbManager.Row :=
  List.filter (fun r => String.eqb (DbManager.sender_phone r) sender_phone) rows.

Definition select_sql (sender_phone : string) (limit : Z) (table : list DbManager.Row)
  : list DbManager.Row :=
  let sub :=
    sql_limit limit
      (order_by env DbManager.timestamp true (where_sender_phone sender_phone table)) in
  order_by env DbManager.timestamp false sub.

Definition get_history (sender_phone : string) (limit : Z) : M (list DbManager.Row) :=
  fun w =>
    let d := db w in
    if negb (DbManager._connection d)
    then (Py.Raise (Py.ConnectionError "Database not connected."), w)
    else
      let w1 := log (EvSelect sender_phone limit) w in
      if select_fails env sender_phone
      then (Py.Raise (Py.OtherException "sqlite3.Error"), w1)
      else
        let rows := select_sql sender_phone limit (DbManager.messages d) in
        match rows with
        | [] => (Py.Ok [], w1)
        | _ => (Py.Ok rows, w1)
        end.

(** The default of the [limit] parameter. *)
Definition get_history_default_limit : Z := 20.

(** *** llm_client.py *)

Definition INLINE_FILE_SIZE_THRESHOLD_MB : Z := 4.
Definition INLINE_FILE_SIZE_THRESHOLD_BYTES : Z :=
  INLINE_FILE_SIZE_THRESHOLD_MB * 1024 * 1024.

Definition SUPPORTED_GENAI_MIMETYPES : list string :=
  [ "image/png"; "image/jpeg"; "image/webp"; "image/heic"; "image/heif";
    "audio/wav"; "audio/mp3"; "audio/aiff"; "audio/aac"; "audio/ogg"; "audio/flac";
    "video/mp4"; "video/mpeg"; "video/mov"; "video/avi"; "video/x-flv"; "video/mpg";
    "video/webm"; "video/wmv"; "video/3gpp";
    "text/plain"; "text/html"; "text/css"; "text/javascript"; "application/x-javascript";
    "text/x-python"; "application/x-python"; "text/x-java-source"; "text/x-java";
    "text/x-c"; "text/x-csrc"; "text/x-cpp"; "text/x-c++src"; "application/json";
    "text/markdown"; "text/csv"; "application/pdf"; "text/rtf"; "application/rtf";
    "text/xml"; "application/xml" ].

Definition supported (mime_type : string) : bool :=
  existsb (String.eqb mime_type) SUPPORTED_GENAI_MIMETYPES.

(** One pass of the [for turn in db_history] loop; [acc] is
    [genai_formatted_history]. *)
Definition format_turn (acc : list Genai.Content) (turn : DbManager.Row)
  : list Genai.Content :=
  let role := DbManager.role turn in
  let msg_type := DbManager.type turn in
  let text_content := DbManager.text_content turn in
  let genai_role := if String.eqb role "assistant" then "model" else "user" in
  let parts :=
    if String.eqb msg_type "text" && Py.truthy text_content
    then [Genai.Text (default "" text_content)]
    else [] in
  match parts with
  | [] => acc
  | _ => acc ++ [ {| Genai.role := genai_role; Genai.parts := parts |} ]
  end.

Definition _format_db_history_for_genai (db_history : list DbManager.Row)
  : list Genai.Content :=
  fold_left format_turn db_history [].

Definition _get_or_create_chat_history (sender_phone : string)
  : M (list Genai.Content) :=
  run (fun w =>
         match chat_histories w !! sender_phone with
         | Some _ => (Py.Ok tt, w)
         | None =>
             let '(formatted_history, w1) :=
               match get_history sender_phone get_history_default_limit w with
               | (Py.Ok db_history_rows, w') =>
                   match db_history_rows with
                   | [] => ([], w')
                   | _ => (_format_db_history_for_genai db_history_rows, w')
                   end
               | (Py.Raise _, w') => ([], w')
               end in
             (Py.Ok tt,
              set_chat_histories
                (<[sender_phone := formatted_history]> (chat_histories w1)) w1)
         end);
  fun w =>
    match chat_histories w !! sender_phone with
    | Some history => (Py.Ok history, w)
    | None => (Py.Raise (Py.OtherException "KeyError"), w)
    end.

(** [history.append(x)] on the list held in [chat_histories]: the list is
    shared with the cache, so the append shows there. *)
Definition history_append (sender_phone : string) (x : Genai.Content) : M unit :=
  modify (fun w =>
    set_chat_histories
      (alter (fun history => history ++ [x]) sender_phone (chat_histories w)) w).

(** First half of [_get_supported_mime_type]: [mimetypes.guess_type],
    then the extensions it may miss.  [None] is the "could not determine"
    exit. *)
Definition determine_mime_type (local_file_path : string) : option string :=
  let mime_type := guess_type env local_file_path in
  if negb (Py.truthy mime_type)
  then
    let ext := Py.lower (Py.splitext_ext local_file_path) in
    if String.eqb ext ".heic" then Some "image/heic"
    else if String.eqb ext ".heif" then Some "image/heif"
    else None
  else mime_type.

Definition _get_supported_mime_type (local_file_path : string) : Py.Res string :=
  match determine_mime_type local_file_path with
  | None =>
      Py.Raise (Py.HTTPException 415
        ("Could not determine MIME type for file: "
         ++ Py.basename local_file_path)%string)
  | Some mime_type =>
      if negb (supported mime_type)
      then Py.Raise (Py.HTTPException 415
             ("Unsupported file type: " ++ mime_type
              ++ ". Please provide a supported format.")%string)
      else Py.Ok mime_type
  end.

Definition _prepare_inline_file_part (local_file_path mime_type : string)
  : M Genai.Part :=
  match read_bytes env local_file_path with
  | Some file_bytes =>
      let base64_data := Py.b64encode file_bytes in
      ret (Genai.InlineData mime_type base64_data)
  | None =>
      raise (Py.HTTPException 500
               ("Failed to prepare inline file data for: "
                ++ Py.basename local_file_path)%string)
  end.

Definition _upload_file (local_file_path mime_type : string) : M Genai.Part :=
  run modify (log (EvUpload local_file_path mime_type));
  match upload_file env local_file_path mime_type with
  | Some uploaded_file =>
      ret (Genai.FileData (Genai.mime_type uploaded_file) (Genai.uri uploaded_file))
  | None =>
      raise (Py.HTTPException 500
               ("Failed to upload file: " ++ Py.basename local_file_path)%string)
  end.

Definition _process_file_for_api (local_file_path : string) : M Genai.Part :=
  if negb (path_exists env local_file_path)
  then raise (Py.HTTPException 404
                ("File not found: " ++ Py.basename local_file_path)%string)
  else
    try_except
      (do mime_type <- lift (_get_supported_mime_type local_file_path);
       do file_size <-
         lift (match path_getsize env local_file_path with
               | Some n => Py.Ok n
               | None => Py.Raise (Py.OtherException "OSError")
               end);
       if file_size <=? INLINE_FILE_SIZE_THRESHOLD_BYTES
       then _prepare_inline_file_part local_file_path mime_type
       else _upload_file local_file_path mime_type)
      (fun e =>
         match e with
         | Py.HTTPException _ _ => raise e
         | _ => raise (Py.HTTPException 500
                         ("Failed to process file "
                          ++ Py.basename local_file_path)%string)
         end).

(** The dictionary [llm_input_data] / [input_data]. *)
Record InputData := {
  in_type : string;
  in_text_content : option string;
  in_local_file_path : option string;
  in_mime_type : option string
}.

(** The body of the inner [try]: read [response.text] and
    [response.candidates[0].content]. *)
Definition read_response (response : Genai.GenerateContentResponse)
  : Py.Res (option string * Genai.Content) :=
  match Genai.text response with
  | Py.Raise e => Py.Raise e
  | Py.Ok ai_response_text =>
      match Genai.candidates response with
      | None => Py.Raise (Py.OtherException "AttributeError")
      | Some [] => Py.Raise (Py.OtherException "IndexError")
      | Some (c :: _) => Py.Ok (ai_response_text, Genai.content c)
      end
  end.

Definition generic_fallback : string :=
  "Sorry, I encountered an issue generating or understanding the response.".

(** The inner [except] block: the message returned when the response
    could not be read. *)
Definition unreadable_response_message (response : Genai.GenerateContentResponse)
  : string :=
  let no_candidates_branch :=
    match Genai.candidates response with
    | None | Some [] => "Sorry, I couldn't generate a response for that input."
    | Some (_ :: _) => generic_fallback
    end in
  match Genai.prompt_feedback response with
  | Some (Some feedback) =>
      match Genai.block_reason feedback with
      | Some block_reason =>
          match block_reason with
          | Some shown =>
              ("My response was blocked due to safety reasons (" ++ shown
               ++ "). Please modify your prompt or file.")%string
          | None => generic_fallback
          end
      | None => no_candidates_branch
      end
  | _ => no_candidates_branch
  end.

(** [input_parts] after the [if local_file_path:] block. *)
Definition attachment_parts (local_file_path : option string) : M (list Genai.Part) :=
  if Py.truthy local_file_path
  then do file_part_dict <- _process_file_for_api (default "" local_file_path);
       ret [file_part_dict]
  else ret [].

(** [input_parts] after the [if user_prompt_text:] block. *)
Definition with_text_part (user_prompt_text : option string)
    (input_parts : list Genai.Part) : list Genai.Part :=
  if Py.truthy user_prompt_text
  then input_parts ++ [Genai.Text (default "" user_prompt_text)]
  else input_parts.

(** The string returned is what the caller sends on: the model's text,
    trimmed, or one of the fixed sentences. *)
Definition process_user_message (sender_phone : string) (input_data : InputData)
  : M string :=
  let user_prompt_text := in_text_content input_data in
  let local_file_path := in_local_file_path input_data in
  if negb (Py.truthy user_prompt_text) && negb (Py.truthy local_file_path)
  then ret "Please provide a message or a file to process."
  else
    try_except
      (do history <- _get_or_create_chat_history sender_phone;
       do file_parts <- attachment_parts local_file_path;
       let input_parts := with_text_part user_prompt_text file_parts in
       match input_parts with
       | [] => raise (Py.HTTPException 500 "Internal error processing input.")
       | _ =>
           let current_user_content :=
             {| Genai.role := "user"; Genai.parts := input_parts |} in
           let messages_to_send := history ++ [current_user_content] in
           run modify (log (EvGenerate messages_to_send));
           do response <-
             lift (match generate_content_async env messages_to_send with
                   | Some r => Py.Ok r
                   | None => Py.Raise (Py.OtherException "generate_content_async")
                   end);
           match read_response response with
           | Py.Ok (ai_response_text, model_response_content) =>
               (* still inside the inner [try] *)
               run history_append sender_phone current_user_content;
               run history_append sender_phone model_response_content;
               (* after it: the final check on the text *)
               match ai_response_text with
               | None => ret "Sorry, I couldn't generate a meaningful response for that."
               | Some t =>
                   if String.eqb (str_strip env t) ""
                   then ret "Sorry, I couldn't generate a meaningful response for that."
                   else ret (str_strip env t)
               end
           | Py.Raise _ =>
               (* the inner [except] *)
               ret (unreadable_response_message response)
           end
       end)
      (fun e =>
         match e with
         | Py.HTTPException _ _ => raise e
         | _ => raise (Py.HTTPException 500
                         "An unexpected error occurred while processing your request.")
         end).

(** *** llm_service.py *)

(** The injected [whatsapp_text_sender]. *)
Definition send_text (number message : string) : M unit :=
  run modify (log (EvSendText number message));
  if send_text_fails env number message
  then raise (Py.OtherException "send_text")
  else ret tt.

Definition safety_guidelines_reply : string :=
  "I cannot respond to that prompt due to safety guidelines.".

(** Step 3 of [handle_incoming_message]: the dictionary for the client. *)
Definition prepare_llm_input (message_data : Models.IncomingMessageData)
  : InputData :=
  let mime_type :=
    match Models.media message_data with
    | Some m => Some (Models.media_type m)
    | None => None
    end in
  {| in_type := Models.type message_data;
     in_text_content := Models.body message_data;
     in_local_file_path := Models.local_file_path message_data;
     in_mime_type := mime_type |}.

Definition internal_error_reply : string :=
  "Sorry, I encountered an internal error.".

Definition handle_incoming_message (message_data : Models.IncomingMessageData)
  : M unit :=
  try_except
    (if Models.is_mine message_data then ret tt
     else
       let sender_phone := Models.sender_phone message_data in
       run try_except
             (save_message sender_phone "user"
                (Some (Models.id message_data))
                (Models.type message_data)
                (Models.body message_data)
                (Models.local_file_path message_data)
                (Models.timestamp message_data))
             (fun db_error => ret tt);
       let llm_input_data := prepare_llm_input message_data in
       do ai_response_text <- process_user_message sender_phone llm_input_data;
       if negb (Py.truthy (Some ai_response_text))
          || String.eqb ai_response_text safety_guidelines_reply
       then ret tt
       else
         run try_except
               (save_message sender_phone "assistant" None "text"
                  (Some ai_response_text) None (time_time env))
               (fun db_error => ret tt);
         try_except
           (send_text sender_phone ai_response_text)
           (fun send_error => ret tt))
    (fun e =>
       try_except
         (if negb (Models.is_mine message_data)
             && Py.truthy (Some (Models.sender_phone message_data))
          then send_text (Models.sender_phone message_data) internal_error_reply
          else ret tt)
         (fun final_error => ret tt)).

End Code.

(** ** What is assumed of the SQL engine, and what the spec says *)

(** [ORDER BY key ASC] puts [a] before [b] only when [key a <= key b];
    [DESC] the other way round.  Rows with equal keys come in an order the
    engine does not promise. *)
Definition key_le (key : DbManager.Row -> Z) (desc : bool) (a b : DbManager.Row) : Prop :=
  if desc then key b <= key a else key a <= key b.

Record order_by_spec (env : Env) : Prop := {
  order_by_perm : forall key desc rows, Permutation (order_by env key desc rows) rows;
  order_by_sorted :
    forall key desc rows, StronglySorted (key_le key desc) (order_by env key desc rows)
}.

(** The History Formatter in the spec's words: keep the rows with
    [type == "text"] and non-empty text, each as a single-text-part turn,
    [assistant] as [model] and every other role as [user]. *)
Definition spec_is_text_row (r : DbManager.Row) : bool :=
  String.eqb (DbManager.type r) "text"
  && match DbManager.text_content r with
     | Some t => negb (String.eqb t "")
     | None => false
     end.

Definition spec_model_turn (r : DbManager.Row) : Genai.Content :=
  {| Genai.role := if String.eqb (DbManager.role r) "assistant" then "model" else "user";
     Genai.parts := [Genai.Text (default "" (DbManager.text_content r))] |}.

Definition spec_format (rows : list DbManager.Row) : list Genai.Content :=
  map spec_model_turn (List.filter spec_is_text_row rows).

(** Calls of a given kind in a trace. *)
Definition is_select_for (sender_phone : string) (e : Event) : bool :=
  match e with
  | EvSelect p _ => String.eqb p sender_phone
  | _ => false
  end.

Definition selects_for (sender_phone : string) (t : list Event) : nat :=
  length (List.filter (is_select_for sender_phone) t).

Definition is_send (e : Event) : bool :=
  match e with EvSendText _ _ => true | _ => false end.

Definition is_assistant_insert (e : Event) : bool :=
  match e with
  | EvInsert values => String.eqb (DbManager.role values) "assistant"
  | _ => false
  end.

(** ** Collaborators to run the code on *)

Module Sample.

(** A stable insertion sort as the engine's [ORDER BY]. *)
Fixpoint insert_row (le : DbManager.Row -> DbManager.Row -> bool)
    (x : DbManager.Row) (l : list DbManager.Row) : list DbManager.Row :=
  match l with
  | [] => [x]
  | y :: l' => if le x y then x :: l else y :: insert_row le x l'
  end.

Definition sort_rows (le : DbManager.Row -> DbManager.Row -> bool)
    (l : list DbManager.Row) : list DbManager.Row :=
  fold_right (insert_row le) [] l.

Definition key_leb (key : DbManager.Row -> Z) (desc : bool)
    (a b : DbManager.Row) : bool :=
  if desc then key b <=? key a else key a <=? key b.

Definition stable_order_by (key : DbManager.Row -> Z) (desc : bool)
    (rows : list DbManager.Row) : list DbManager.Row :=
  sort_rows (key_leb key desc) rows.

(** [mimetypes.guess_type] on a few extensions. *)
Definition guess_by_extension (path : string) : option string :=
  let ext := Py.lower (Py.splitext_ext path) in
  if String.eqb ext ".png" then Some "image/png"
  else if String.eqb ext ".jpg" then Some "image/jpeg"
  else if String.eqb ext ".txt" then Some "text/plain"
  else if String.eqb ext ".pdf" then Some "application/pdf"
  else if String.eqb ext ".exe" then Some "application/x-msdownload"
  else None.

(** Files on disk: a 1,000,000-byte and a 5,000,000-byte PNG, a 10-byte
    file with an extension nobody knows, and a three-byte text file. *)
Definition small_png : list byte := repeat x00 (Z.to_nat 1000000).
Definition big_png : list byte := repeat x00 (Z.to_nat 5000000).
Definition ten_bytes : list byte :=
  [x30; x31; x32; x33; x34; x35; x36; x37; x38; x39].
Definition man_txt : list byte := [x4d; x61; x6e].

Definition files : list (string * (Z * list byte)) :=
  [ ("media/small.png", (1000000, small_png));
    ("media/big.png", (5000000, big_png));
    ("media/blob.zzz", (10, ten_bytes));
    ("media/man.txt", (3, man_txt)) ].

Fixpoint find_file (path : string) (fs : list (string * (Z * list byte)))
  : option (Z * list byte) :=
  match fs with
  | [] => None
  | (p, f) :: fs' => if String.eqb p path then Some f else find_file path fs'
  end.

Definition on_disk (path : string) : bool :=
  match find_file path files with Some _ => true | None => false end.
Definition size_on_disk (path : string) : option Z :=
  match find_file path files with Some f => Some (fst f) | None => None end.
Definition bytes_on_disk (path : string) : option (list byte) :=
  match find_file path files with Some f => Some (snd f) | None => None end.

Definition upload_ok (path mime_type : string) : option Genai.File :=
  Some {| Genai.mime_type := mime_type;
          Genai.uri := ("https://files.example/" ++ Py.basename path)%string |}.

Definition hello : Genai.Content :=
  {| Genai.role := "model"; Genai.parts := [Genai.Text "Hello!"] |}.

(** A model answering every request with [response]. *)
Definition env_with (response : option Genai.GenerateContentResponse)
    (fails : string -> bool) : Env :=
  {| str_strip := Py.ascii_strip;
     order_by := stable_order_by;
     insert_fails := fun _ => false;
     select_fails := fails;
     guess_type := guess_by_extension;
     path_exists := on_disk;
     path_getsize := size_on_disk;
     read_bytes := bytes_on_disk;
     upload_file := upload_ok;
     generate_content_async := fun _ => response;
     send_text_fails := fun _ _ => false;
     time_time := 1700000100 |}.

Definition good_response : Genai.GenerateContentResponse :=
  {| Genai.text := Py.Ok (Some "Hello!");
     Genai.candidates := Some [ {| Genai.content := hello |} ];
     Genai.prompt_feedback := Some (Some {| Genai.block_reason := Some None |}) |}.

(** Blocked for safety: reading [text] raises, there is no candidate. *)
Definition blocked_response : Genai.GenerateContentResponse :=
  {| Genai.text := Py.Raise (Py.OtherException "ValueError");
     Genai.candidates := Some [];
     Genai.prompt_feedback := Some (Some {| Genai.block_reason := Some (Some "SAFETY") |}) |}.

(** Nothing usable: no candidate and no block reason. *)
Definition empty_response : Genai.GenerateContentResponse :=
  {| Genai.text := Py.Raise (Py.OtherException "ValueError");
     Genai.candidates := Some [];
     Genai.prompt_feedback := Some None |}.

(** A candidate whose text is only white space. *)
Definition blank : Genai.Content :=
  {| Genai.role := "model"; Genai.parts := [Genai.Text "   "] |}.
Definition blank_response : Genai.GenerateContentResponse :=
  {| Genai.text := Py.Ok (Some "   ");
     Genai.candidates := Some [ {| Genai.content := blank |} ];
     Genai.prompt_feedback := Some (Some {| Genai.block_reason := Some None |}) |}.

Definition env : Env := env_with (Some good_response) (fun _ => false).

Definition row (id : Z) (sender_phone role type : string)
    (text_content : option string) (timestamp : Z) : DbManager.Row :=
  {| DbManager.id := id; DbManager.sender_phone := sender_phone;
     DbManager.role := role; DbManager.message_id := None;
     DbManager.type := type; DbManager.text_content := text_content;
     DbManager.local_file_path := None; DbManager.timestamp := timestamp |}.

Definition table : list DbManager.Row :=
  [ row 1 "15551234567" "user" "text" (Some "one") 100;
    row 2 "15551234567" "assistant" "text" (Some "two") 101;
    row 3 "4477" "user" "text" (Some "other chat") 102;
    row 4 "15551234567" "user" "image" None 103;
    row 5 "15551234567" "assistant" "text" (Some "") 104;
    row 6 "15551234567" "user" "text" (Some "six") 105 ].

Definition world (connected : bool) (rows : list DbManager.Row)
    (cache : gmap string (list Genai.Content)) : World :=
  {| db := {| DbManager._connection := connected;
              DbManager.messages := rows;
              DbManager.last_id := Z.of_nat (length rows) |};
     chat_histories := cache;
     trace := [] |}.

Definition fresh : World := world true [] ∅.

Definition message (sender_phone : string) (is_mine : bool)
    (body local_file_path : option string) : Models.IncomingMessageData :=
  {| Models.id := "wamid.1"; Models.type := "text";
     Models.sender_phone := sender_phone; Models.recipient_phone := "15550000000";
     Models.body := body; Models.timestamp := 1700000000;
     Models.is_mine := is_mine; Models.media := None;
     Models.local_file_path := local_file_path |}.

End Sample.

(** ** The life of the process *)

(** Webhook deliveries handled one after the other: each handler has
    returned before the next one starts, and each runs under the
    collaborators' behaviour at that time.  This is the serial case only;
    nothing in the code keeps deliveries apart, see below. *)
Definition run_messages (inbox : list (Env * Models.IncomingMessageData)) (w : World)
  : World :=
  fold_left (fun w' delivery =>
               snd (handle_incoming_message (fst delivery) (snd delivery) w'))
    inbox w.

(** *** Calls that overlap

    The server runs one task per delivery on one event loop, and the code
    has no lock: a task gives way to the others wherever it awaits.  In
    [_get_or_create_chat_history] that is inside [get_history], first
    after the [not in] test and the test of the connection, where it waits
    for the cursor, and then until the rows have come back.  The three
    functions below are [_get_or_create_chat_history] cut at these two
    points; run in a row they are that function
    ([get_or_create_in_steps]). *)

(** Where a call stands after the [not in] test. *)
Inductive Hydration :=
| Cached
| Refused (e : Py.Exn)
| AwaitingRows.

(** Up to the first await: the [not in] test and, on a miss, the test of
    the connection that opens [get_history]. *)
Definition get_or_create_test (sender_phone : string) : M Hydration :=
  fun w =>
    match chat_histories w !! sender_phone with
    | Some _ => (Py.Ok Cached, w)
    | None =>
        if negb (DbManager._connection (db w))
        then (Py.Ok (Refused (Py.ConnectionError "Database not connected.")), w)
        else (Py.Ok AwaitingRows, w)
    end.

(** From there until [get_history] has returned or raised: the SELECT is
    run on the store as it is by then. *)
Definition get_or_create_read (env : Env) (sender_phone : string) (waiting : Hydration)
  : M (option (Py.Res (list DbManager.Row))) :=
  match waiting with
  | Cached => ret None
  | Refused e => ret (Some (Py.Raise e))
  | AwaitingRows =>
      fun w =>
        let '(db_history_rows, w') :=
          get_history env sender_phone get_history_default_limit w in
        (Py.Ok (Some db_history_rows), w')
  end.

(** The rest: format what came back, assign it to
    [chat_histories[sender_phone]] whatever is there by then, and return
    the entry. *)
Definition get_or_create_store (sender_phone : string)
    (answer : option (Py.Res (list DbManager.Row))) : M (list Genai.Content) :=
  run (match answer with
       | None => ret tt
       | Some db_history_rows =>
           let formatted_history :=
             match db_history_rows with
             | Py.Ok [] => []
             | Py.Ok rows => _format_db_history_for_genai rows
             | Py.Raise _ => []
             end in
           modify (fun w =>
             set_chat_histories
               (<[sender_phone := formatted_history]> (chat_histories w)) w)
       end);
  fun w =>
    match chat_histories w !! sender_phone with
    | Some history => (Py.Ok history, w)
    | None => (Py.Raise (Py.OtherException "KeyError"), w)
    end.

(** Two calls for one conversation that overlap.  Both make the [not in]
    test before either has stored.  The first is then resumed, reads the
    store, stores and returns its history; after that the second is
    resumed.  The result is the history each call returned and, between
    them, the cache entry as it is when the second call reads the store. *)
Definition overlapping_calls (env1 env2 : Env) (sender_phone : string)
  : M (list Genai.Content * option (list Genai.Content) * list Genai.Content) :=
  do waiting1 <- get_or_create_test sender_phone;
  do waiting2 <- get_or_create_test sender_phone;
  do answer1 <- get_or_create_read env1 sender_phone waiting1;
  do history1 <- get_or_create_store sender_phone answer1;
  do entry <- (fun w => (Py.Ok (chat_histories w !! sender_phone), w));
  do answer2 <- get_or_create_read env2 sender_phone waiting2;
  do history2 <- get_or_create_store sender_phone answer2;
  ret (history1, entry, history2).

(** [preserves R c]: the world [c] leaves is related by [R] to the world
    it started from, whether it returns or raises. *)
Definition preserves (R : World -> World -> Prop) {A} (c : M A) : Prop :=
  forall w, R w (snd (c w)).

(** If the cache holds an entry for [p], it still does afterwards and the
    store was not read for [p] in between. *)
Definition keeps (p : string) (w w' : World) : Prop :=
  is_Some (chat_histories w !! p) ->
  is_Some (chat_histories w' !! p)
  /\ selects_for p (trace w') = selects_for p (trace w).

(** What reaches the user or is stored as the assistant's turn. *)
Definition is_reply (e : Event) : bool := is_send e || is_assistant_insert e.

Definition replies (t : list Event) : list Event := List.filter is_reply t.

(** Nothing was sent and no assistant turn was stored in between. *)
Definition quiet (w w' : World) : Prop := replies (trace w') = replies (trace w).

(** The session cache is as it was. *)
Definition same_cache (w w' : World) : Prop := chat_histories w' = chat_histories w.

(** ** More ways to relate the world after to the world before *)

(** [ensures P Q c]: whatever the world, [c] returns only values that
    satisfy [P] and raises only exceptions that satisfy [Q]. *)
Definition ensures {A} (P : A -> Prop) (Q : Py.Exn -> Prop) (c : M A) : Prop :=
  forall w,
    match fst (c w) with
    | Py.Ok a => P a
    | Py.Raise e => Q e
    end.

(** A coroutine that cannot raise. *)
Definition never_raises {A} (c : M A) : Prop :=
  ensures (fun _ => True) (fun _ => False) c.

(** An [HTTPException] whose status code is one of [codes]. *)
Definition http_error (codes : list Z) (e : Py.Exn) : Prop :=
  exists status_code detail,
    e = Py.HTTPException status_code detail /\ In status_code codes.

(** [try: c except Exception: log it]. *)
Definition swallow (c : M unit) : M unit := try_except c (fun _ => ret tt).

(** The durable store (connection, table, row counter) is as it was. *)
Definition same_db (w w' : World) : Prop := db w' = db w.

(** The messages handed to the sender. *)
Definition sends (t : list Event) : list Event := List.filter is_send t.

Definition same_sends (w w' : World) : Prop := sends (trace w') = sends (trace w).

(** The cache entries of every conversation but [p] are as they were. *)
Definition others_untouched (p : string) (w w' : World) : Prop :=
  forall q, q <> p -> chat_histories w' !! q = chat_histories w !! q.

(** A history held for [p] is still there, with turns added at its end at
    most. *)
Definition history_extended (p : string) (w w' : World) : Prop :=
  forall history,
    chat_histories w !! p = Some history ->
    exists more, chat_histories w' !! p = Some (history ++ more).

Definition is_upload (e : Event) : bool :=
  match e with EvUpload _ _ => true | _ => false end.

Definition is_generate (e : Event) : bool :=
  match e with EvGenerate _ => true | _ => false end.

Definition is_insert (e : Event) : bool :=
  match e with EvInsert _ => true | _ => false end.

Definition is_select (e : Event) : bool :=
  match e with EvSelect _ _ => true | _ => false end.

(** ** db_manager.py: the connection *)

(** What opening and closing the database file can do: each flag says
    that the call raises. *)
Record Sqlite := {
  makedirs_fails : bool;
  connect_fails : bool;
  create_table_fails : bool;
  close_fails : bool
}.

(** [self._connection = ...]; the table and its row counter live in the
    file and stay. *)
Definition set_connection (c : bool) : M unit :=
  modify (fun w =>
    set_db {| DbManager._connection := c;
              DbManager.messages := DbManager.messages (db w);
              DbManager.last_id := DbManager.last_id (db w) |} w).

(** [CREATE TABLE IF NOT EXISTS] and [CREATE INDEX IF NOT EXISTS]: the
    rows are as they were. *)
Definition _create_messages_table (sq : Sqlite) : M unit :=
  fun w =>
    if negb (DbManager._connection (db w))
    then (Py.Raise (Py.ConnectionError "Database not connected."), w)
    else if create_table_fails sq
         then (Py.Raise (Py.OtherException "sqlite3.Error"), w)
         else (Py.Ok tt, w).

(** [await self._connection.close()]. *)
Definition connection_close (sq : Sqlite) : M unit :=
  if close_fails sq then raise (Py.OtherException "close") else ret tt.

Definition connect (sq : Sqlite) : M unit :=
  fun w =>
    if DbManager._connection (db w) then (Py.Ok tt, w)
    else
      try_except
        (run (if makedirs_fails sq
              then raise (Py.OtherException "OSError") else ret tt);
         run (if connect_fails sq
              then raise (Py.OtherException "sqlite3.Error")
              else set_connection true);
         _create_messages_table sq)
        (fun e =>
           run (fun w' =>
                  if DbManager._connection (db w')
                  then connection_close sq w' else (Py.Ok tt, w'));
           run set_connection false;
           raise e)
        w.

Definition close (sq : Sqlite) : M unit :=
  fun w =>
    if DbManager._connection (db w)
    then (run connection_close sq; set_connection false) w
    else (Py.Ok tt, w).

(** An event of the SQL engine. *)
Definition is_sql (e : Event) : bool := is_insert e || is_select e.

(** With the store not connected: it is as it was, and the engine was not
    called. *)
Definition store_left_alone (w w' : World) : Prop :=
  DbManager._connection (db w) = false ->
  db w' = db w /\ List.filter is_sql (trace w') = List.filter is_sql (trace w).

(** A file system and an engine that do as asked. *)
Definition sqlite_ok : Sqlite :=
  {| makedirs_fails := false; connect_fails := false;
     create_table_fails := false; close_fails := false |}.

(** ** main.py: the webhook endpoint and the text sender *)

(** More of Python's string and path functions. *)
Module PyStr.

(** [c in chars]. *)
Definition among (chars : string) (c : ascii) : bool :=
  existsb (Ascii.eqb c) (list_ascii_of_string chars).

(** ["".join(c for c in s if keep c)]. *)
Fixpoint join_if (keep : ascii -> bool) (s : string) : string :=
  match s with
  | EmptyString => EmptyString
  | String c s' => if keep c then String c (join_if keep s') else join_if keep s'
  end.

(** [s.lstrip(chars)]. *)
Fixpoint lstrip (chars : string) (s : string) : string :=
  match s with
  | String c s' => if among chars c then lstrip chars s' else s
  | EmptyString => EmptyString
  end.

(** [s.rstrip(chars)]: a character is kept when it is not in [chars] or
    something kept follows it. *)
Fixpoint rstrip (chars : string) (s : string) : string :=
  match s with
  | EmptyString => EmptyString
  | String c s' =>
      match rstrip chars s' with
      | EmptyString => if among chars c then EmptyString else String c EmptyString
      | r => String c r
      end
  end.

(** [a or b] on strings. *)
Definition or_else (a b : string) : string :=
  match a with
  | EmptyString => b
  | _ => a
  end.

(** [os.path.splitext(p)[0]] (posixpath). *)
Definition splitext_root (p : string) : string :=
  let sepIndex := Py.rfind "/" p in
  let dotIndex := Py.rfind "." p in
  if (sepIndex <? dotIndex)
     && Py.splitext_scan p (sepIndex + 1) (Z.to_nat (dotIndex - (sepIndex + 1)))
  then String.substring 0 (Z.to_nat dotIndex) p
  else p.

Definition startswith_sep (p : string) : bool :=
  match p with
  | String c _ => Ascii.eqb c "/"
  | EmptyString => false
  end.

Fixpoint endswith_sep (p : string) : bool :=
  match p with
  | EmptyString => false
  | String c EmptyString => Ascii.eqb c "/"
  | String _ p' => endswith_sep p'
  end.

(** [os.path.join(a, b)] (posixpath). *)
Definition path_join (a b : string) : string :=
  if startswith_sep b then b
  else if match a with EmptyString => true | _ => endswith_sep a end
       then (a ++ b)%string
       else (a ++ "/" ++ b)%string.

(** The character occurs in the string. *)
Definition has_char (c : ascii) (s : string) : Prop :=
  In c (list_ascii_of_string s).

(** Every character of the string passes the test. *)
Definition all_chars (f : ascii -> bool) (s : string) : Prop :=
  forall c, has_char c s -> f c = true.

(** ["+" * k]. *)
Fixpoint plus_signs (k : nat) : string :=
  match k with
  | O => EmptyString
  | S k' => String "+" (plus_signs k')
  end.

End PyStr.

Module Main.

Record SendTextMessageRequest := { message : string; reply_to : option string }.

(** A call of [call_whatsapp_api]: the method, the endpoint and the JSON
    body as key and value pairs. *)
Record ApiCall := {
  method : string;
  endpoint : string;
  json : list (string * string)
}.

Record WebhookPayload := { type : string; data : Models.IncomingMessageData }.

Definition media_types : list string :=
  [ "image"; "video"; "document"; "sticker"; "audio" ].

(** [message_data.local_file_path = p]. *)
Definition set_local_file_path (p : option string)
    (message_data : Models.IncomingMessageData) : Models.IncomingMessageData :=
  {| Models.id := Models.id message_data;
     Models.type := Models.type message_data;
     Models.sender_phone := Models.sender_phone message_data;
     Models.recipient_phone := Models.recipient_phone message_data;
     Models.body := Models.body message_data;
     Models.timestamp := Models.timestamp message_data;
     Models.is_mine := Models.is_mine message_data;
     Models.media := Models.media message_data;
     Models.local_file_path := p |}.

Section Endpoints.

(** [api_response] is whatever [call_whatsapp_api] returns; the function
    may raise any exception. *)
Context {ApiResponse : Type}.
Variable call_whatsapp_api : ApiCall -> Py.Res ApiResponse.

(** [send_text_message]: the result with the calls made to the API
    server.  The dictionary returned on success is given by its
    [api_response]. *)
Definition send_text_message (number : string) (request_body : SendTextMessageRequest)
  : Py.Res ApiResponse * list ApiCall :=
  let cleaned_number_for_url := PyStr.lstrip "+" number in
  match cleaned_number_for_url with
  | EmptyString =>
      (Py.Raise (Py.HTTPException 400 "Invalid number format for sending."), [])
  | _ =>
      let payload := [ ("message", message request_body) ] in
      let payload :=
        if Py.truthy (reply_to request_body)
        then payload ++ [ ("reply_to", default "" (reply_to request_body)) ]
        else payload in
      let api_endpoint := ("/send-message/" ++ cleaned_number_for_url)%string in
      let call := {| method := "POST"; endpoint := api_endpoint; json := payload |} in
      match call_whatsapp_api call with
      | Py.Ok api_response => (Py.Ok api_response, [call])
      | Py.Raise (Py.HTTPException status_code detail) =>
          (Py.Raise (Py.HTTPException status_code detail), [call])
      | Py.Raise _ =>
          (Py.Raise (Py.HTTPException 500 "Internal server error during text send."),
           [call])
      end
  end.

(** [str.isalnum] of a character, [str(uuid.uuid4())],
    [settings.MEDIA_STORAGE_DIR], and whether the download of a URL into a
    path went through. *)
Variable isalnum : ascii -> bool.
Variable uuid4 : string.
Variable MEDIA_STORAGE_DIR : string.
Variable download : string -> string -> bool.

Definition original_filename (media : Models.ReceivedMediaInfo) : string :=
  if Py.truthy (Models.filename media) then default "" (Models.filename media)
  else ("file." ++ PyStr.or_else (Models.extension media) "bin")%string.

Definition safe_filename_base (media : Models.ReceivedMediaInfo) : string :=
  PyStr.or_else
    (PyStr.rstrip "._-"
       (PyStr.join_if (fun c => isalnum c || PyStr.among "_-" c)
          (PyStr.splitext_root (original_filename media))))
    uuid4.

Definition safe_extension (media : Models.ReceivedMediaInfo) : string :=
  PyStr.or_else
    (PyStr.lstrip "."
       (PyStr.join_if (fun c => isalnum c || Ascii.eqb c ".")
          (Py.splitext_ext (original_filename media))))
    (PyStr.or_else (Models.extension media) "bin").

Definition unique_filename (message_data : Models.IncomingMessageData)
    (media : Models.ReceivedMediaInfo) : string :=
  (Models.id message_data ++ "_" ++ safe_filename_base media ++ "."
   ++ safe_extension media)%string.

Definition download_path (message_data : Models.IncomingMessageData)
    (media : Models.ReceivedMediaInfo) : string :=
  PyStr.path_join MEDIA_STORAGE_DIR (unique_filename message_data media).

(** The media download block: the message as the handler gets it. *)
Definition after_download (message_data : Models.IncomingMessageData)
  : Models.IncomingMessageData :=
  match Models.media message_data with
  | Some media =>
      if existsb (String.eqb (Models.type message_data)) media_types
         && Py.truthy (Some (Models.url media))
      then
        let local_file_path := download_path message_data media in
        if download (Models.url media) local_file_path
        then set_local_file_path (Some local_file_path) message_data
        else set_local_file_path None message_data
      else message_data
  | None => message_data
  end.

Variable env : Env.

(** [receive_webhook]; [llm_service_ready] says that the service object
    exists.  The value returned is the fixed acknowledgement. *)
Definition receive_webhook (llm_service_ready : bool) (payload : WebhookPayload)
  : M unit :=
  if negb llm_service_ready
  then raise (Py.HTTPException 503 "LLM Service not ready.")
  else
    run (if String.eqb (type payload) "message_received"
         then
           let message_data := data payload in
           if negb (Models.is_mine message_data)
           then
             try_except
               (handle_incoming_message env (after_download message_data))
               (fun service_error => ret tt)
           else ret tt
         else ret tt);
    ret tt.

End Endpoints.

End Main.

(** Sample collaborators of the endpoints. *)
Module MainSample.

(** [str.isalnum] on the ASCII letters and digits. *)
Definition isalnum (c : ascii) : bool :=
  let n := nat_of_ascii c in
  ((48 <=? n)%nat && (n <=? 57)%nat)
  || ((65 <=? n)%nat && (n <=? 90)%nat)
  || ((97 <=? n)%nat && (n <=? 122)%nat).

Definition uuid4 : string := "0f8fad5b-d9cb-469f-a165-70867728950e".

Definition photo : Models.ReceivedMediaInfo :=
  {| Models.url := "http://localhost:3000/media/wamid.7";
     Models.media_type := "image/jpeg";
     Models.extension := "jpg";
     Models.filename := Some "holiday photo (1).jpg" |}.

(** An image message without a caption. *)
Definition image_message (id : string) (local_file_path : option string)
  : Models.IncomingMessageData :=
  {| Models.id := id; Models.type := "image";
     Models.sender_phone := "15551234567"; Models.recipient_phone := "15550000000";
     Models.body := None; Models.timestamp := 1700000000;
     Models.is_mine := false; Models.media := Some photo;
     Models.local_file_path := local_file_path |}.

(** An API server that accepts every call but the ones to one number. *)
Definition api (call : Main.ApiCall) : Py.Res string :=
  if String.eqb (Main.endpoint call) "/send-message/000"
  then Py.Raise (Py.OtherException "ReadTimeout")
  else Py.Ok "queued".

End MainSample.

(** ** Checks of the library functions *)

Example py_strip : Py.ascii_strip "  hi there  " = "hi there". Proof. reflexivity. Qed.
Example py_base : Py.basename "/a/b/c.tar.gz" = "c.tar.gz". Proof. reflexivity. Qed.
Example py_base2 : Py.basename "c.png" = "c.png". Proof. reflexivity. Qed.
Example py_ext1 : Py.splitext_ext "/a/b/c.tar.gz" = ".gz". Proof. reflexivity. Qed.
Example py_ext2 : Py.splitext_ext "/a.b/c" = "". Proof. reflexivity. Qed.
Example py_ext3 : Py.splitext_ext "/a/.bashrc" = "". Proof. reflexivity. Qed.
Example py_ext4 : Py.splitext_ext "/a/..x.HEIC" = ".HEIC". Proof. reflexivity. Qed.
Example py_ext5 : Py.splitext_ext "x.bin" = ".bin". Proof. reflexivity. Qed.
Example py_low : Py.lower ".HeIC" = ".heic". Proof. reflexivity. Qed.
Example py_b64a : Py.b64encode [x4d; x61; x6e] = "TWFu". Proof. reflexivity. Qed.
Example py_b64b : Py.b64encode [x4d; x61] = "TWE=". Proof. reflexivity. Qed.
Example py_b64c : Py.b64encode [x4d] = "TQ==". Proof. reflexivity. Qed.
Example py_b64d : Py.b64encode [xff; xfe; xfd; x00] = "//79AA==". Proof. reflexivity. Qed.

(** ** The History Store Adapter *)

Section OrderBy.

Variable key : DbManager.Row -> Z.
Variable desc : bool.

Lemma insert_row_perm x l :
  Permutation (Sample.insert_row (Sample.key_leb key desc) x l) (x :: l).
Proof.
  induction l as [|y l IH]; simpl; [reflexivity|].
  destruct (Sample.key_leb key desc x y); [reflexivity|].
  rewrite IH. apply perm_swap.
Qed.

Lemma leb_key_le a b :
  Sample.key_leb key desc a b = true <-> key_le key desc a b.
Proof. unfold Sample.key_leb, key_le. destruct desc; apply Z.leb_le. Qed.

Lemma leb_total a b :
  Sample.key_leb key desc a b = false -> key_le key desc b a.
Proof.
  unfold Sample.key_leb, key_le. destruct desc; intros H; apply Z.leb_gt in H; lia.
Qed.

Lemma key_le_trans a b c :
  key_le key desc a b -> key_le key desc b c -> key_le key desc a c.
Proof. unfold key_le. destruct desc; lia. Qed.

Lemma insert_row_sorted x l :
  StronglySorted (key_le key desc) l ->
  StronglySorted (key_le key desc) (Sample.insert_row (Sample.key_leb key desc) x l).
Proof.
  induction 1 as [|y l Hs IH Hy]; simpl.
  - repeat constructor.
  - destruct (Sample.key_leb key desc x y) eqn:E.
    + apply leb_key_le in E. constructor; [by constructor|].
      constructor; [done|].
      eapply Forall_impl; [|exact Hy]. intros z Hz. by eapply key_le_trans.
    + apply leb_total in E. constructor; [done|].
      rewrite (insert_row_perm x l). by constructor.
Qed.

Lemma stable_order_by_perm rows :
  Permutation (Sample.stable_order_by key desc rows) rows.
Proof.
  unfold Sample.stable_order_by, Sample.sort_rows.
  induction rows as [|r rows IH]; simpl; [reflexivity|].
  etransitivity; [apply insert_row_perm|]. by constructor.
Qed.

Lemma stable_order_by_sorted rows :
  StronglySorted (key_le key desc) (Sample.stable_order_by key desc rows).
Proof.
  unfold Sample.stable_order_by, Sample.sort_rows.
  induction rows as [|r rows IH]; simpl; [constructor|].
  by apply insert_row_sorted.
Qed.

End OrderBy.

Lemma sample_order_by_spec response fails :
  order_by_spec (Sample.env_with response fails).
Proof.
  split; intros; [apply stable_order_by_perm | apply stable_order_by_sorted].
Qed.

Lemma sql_limit_split limit rows :
  0 <= limit ->
  rows = sql_limit limit rows ++ skipn (Z.to_nat limit) rows.
Proof.
  intros H. unfold sql_limit.
  destruct (limit <? 0) eqn:E; [apply Z.ltb_lt in E; lia|].
  symmetry. apply firstn_skipn.
Qed.

Lemma sql_limit_length limit rows :
  0 <= limit <= Z.of_nat (length rows) ->
  Z.of_nat (length (sql_limit limit rows)) = limit.
Proof.
  intros H. unfold sql_limit.
  destruct (limit <? 0) eqn:E; [apply Z.ltb_lt in E; lia|].
  rewrite length_firstn. lia.
Qed.

Lemma get_history_connected env w sender_phone limit :
  DbManager._connection (db w) = true ->
  select_fails env sender_phone = false ->
  get_history env sender_phone limit w
  = (Py.Ok (select_sql env sender_phone limit (DbManager.messages (db w))),
     log (EvSelect sender_phone limit) w).
Proof.
  intros Hc Hs. unfold get_history. rewrite Hc, Hs. simpl.
  by destruct (select_sql _ _ _ _).
Qed.

(** C3: when the table holds more than [limit] rows of a conversation,
    [get_history] returns exactly [limit] rows of that conversation; no row
    left out is more recent than a row returned (so these are the last
    [limit] by time stamp, not the first written); and the rows come oldest
    first. *)
Theorem get_history_most_recent env w sender_phone limit :
  order_by_spec env ->
  DbManager._connection (db w) = true ->
  select_fails env sender_phone = false ->
  0 <= limit
    < Z.of_nat (length (where_sender_phone sender_phone (DbManager.messages (db w)))) ->
  exists rows older,
    get_history env sender_phone limit w
      = (Py.Ok rows, log (EvSelect sender_phone limit) w)
    /\ Z.of_nat (length rows) = limit
    /\ Permutation (rows ++ older)
         (where_sender_phone sender_phone (DbManager.messages (db w)))
    /\ (forall r, In r rows -> DbManager.sender_phone r = sender_phone)
    /\ (forall r o, In r rows -> In o older ->
          DbManager.timestamp o <= DbManager.timestamp r)
    /\ StronglySorted
         (fun a b => DbManager.timestamp a <= DbManager.timestamp b) rows.
Proof.
  intros [Hperm Hsorted] Hc Hs Hlim.
  set (conv := where_sender_phone sender_phone (DbManager.messages (db w))) in *.
  set (newest_first := order_by env DbManager.timestamp true conv).
  set (sub := sql_limit limit newest_first).
  set (older := skipn (Z.to_nat limit) newest_first).
  assert (Hsplit : newest_first = sub ++ older)
    by (apply sql_limit_split; lia).
  assert (Hlen : length newest_first = length conv)
    by (apply Permutation_length, Hperm).
  assert (Hrows : Permutation (order_by env DbManager.timestamp false sub) sub)
    by apply Hperm.
  exists (order_by env DbManager.timestamp false sub), older.
  split; [by rewrite get_history_connected|].
  split.
  { rewrite (Permutation_length Hrows). apply sql_limit_length. lia. }
  split.
  { rewrite Hrows, <- Hsplit. apply Hperm. }
  split.
  { intros r Hr.
    assert (Hin : In r conv).
    { eapply Permutation_in; [apply (Hperm DbManager.timestamp true)|].
      fold newest_first. rewrite Hsplit. apply in_or_app. left.
      eapply Permutation_in; [exact Hrows | exact Hr]. }
    apply filter_In in Hin. destruct Hin as [_ Hin].
    by apply String.eqb_eq in Hin. }
  split.
  { intros r o Hr Ho.
    pose proof (Hsorted DbManager.timestamp true conv) as Hs1.
    fold newest_first in Hs1. rewrite Hsplit in Hs1.
    apply (StronglySorted_app_1_elem_of (key_le DbManager.timestamp true)
             sub older r o Hs1).
    - apply list_elem_of_In. eapply Permutation_in; [exact Hrows | exact Hr].
    - by apply list_elem_of_In. }
  apply (Hsorted DbManager.timestamp false sub).
Qed.

Lemma get_history_most_recent_witness :
  exists rows older,
    get_history Sample.env "15551234567" 3 (Sample.world true Sample.table ∅)
      = (Py.Ok rows,
         log (EvSelect "15551234567" 3) (Sample.world true Sample.table ∅))
    /\ Z.of_nat (length rows) = 3
    /\ Permutation (rows ++ older)
         (where_sender_phone "15551234567" Sample.table)
    /\ (forall r, In r rows -> DbManager.sender_phone r = "15551234567")
    /\ (forall r o, In r rows -> In o older ->
          DbManager.timestamp o <= DbManager.timestamp r)
    /\ StronglySorted
         (fun a b => DbManager.timestamp a <= DbManager.timestamp b) rows.
Proof.
  apply (get_history_most_recent Sample.env (Sample.world true Sample.table ∅)
           "15551234567" 3).
  - apply sample_order_by_spec.
  - reflexivity.
  - reflexivity.
  - split; [lia | vm_compute; reflexivity].
Defined.

(** The rows returned are not the first [limit] rows written: on the
    sample table the three newest rows of the conversation are 4, 5, 6. *)
Example get_history_sample :
  fst (get_history Sample.env "15551234567" 3 (Sample.world true Sample.table ∅))
  = Py.Ok [ Sample.row 4 "15551234567" "user" "image" None 103;
            Sample.row 5 "15551234567" "assistant" "text" (Some "") 104;
            Sample.row 6 "15551234567" "user" "text" (Some "six") 105 ]
  /\ firstn 3 (where_sender_phone "15551234567" Sample.table)
     = [ Sample.row 1 "15551234567" "user" "text" (Some "one") 100;
         Sample.row 2 "15551234567" "assistant" "text" (Some "two") 101;
         Sample.row 4 "15551234567" "user" "image" None 103 ].
Proof. split; reflexivity. Qed.

(** A negative [limit] is SQLite's "no limit": every row comes back. *)
Example get_history_negative_limit :
  fst (get_history Sample.env "4477" (-1) (Sample.world true Sample.table ∅))
  = Py.Ok [ Sample.row 3 "4477" "user" "text" (Some "other chat") 102 ].
Proof. reflexivity. Qed.

(** Before [connect], or after [close], the read raises. *)
Example get_history_not_connected :
  get_history Sample.env "4477" 20 (Sample.world false Sample.table ∅)
  = (Py.Raise (Py.ConnectionError "Database not connected."),
     Sample.world false Sample.table ∅).
Proof. reflexivity. Qed.

(** ** The History Formatter *)

Lemma format_turn_spec acc turn :
  format_turn acc turn
  = if spec_is_text_row turn then acc ++ [spec_model_turn turn] else acc.
Proof.
  unfold format_turn, spec_is_text_row, spec_model_turn.
  destruct (String.eqb (DbManager.type turn) "text"); simpl; [|done].
  destruct (DbManager.text_content turn) as [t|]; simpl; [|done].
  by destruct t.
Qed.

Lemma format_loop_spec rows : forall acc,
  fold_left format_turn rows acc = acc ++ spec_format rows.
Proof.
  unfold spec_format.
  induction rows as [|r rows IH]; intros acc; simpl.
  - by rewrite app_nil_r.
  - rewrite IH, format_turn_spec.
    destruct (spec_is_text_row r); simpl; [|done].
    by rewrite <- app_assoc.
Qed.

(** C5: the History Formatter returns exactly the rows with
    [type == "text"] and non-empty [text_content], in input order, each as
    a turn with one text part, [assistant] mapped to [model] and every
    other role to [user]; it is a total function, so the other rows are
    dropped without error. *)
Theorem format_db_history_is_spec_format (db_history : list DbManager.Row) :
  _format_db_history_for_genai db_history = spec_format db_history.
Proof. unfold _format_db_history_for_genai. by rewrite format_loop_spec. Qed.

Example format_sample :
  _format_db_history_for_genai Sample.table
  = [ {| Genai.role := "user"; Genai.parts := [Genai.Text "one"] |};
      {| Genai.role := "model"; Genai.parts := [Genai.Text "two"] |};
      {| Genai.role := "user"; Genai.parts := [Genai.Text "other chat"] |};
      {| Genai.role := "user"; Genai.parts := [Genai.Text "six"] |} ].
Proof. reflexivity. Qed.

(** A role other than [assistant], here [system], is sent as [user]. *)
Example format_other_role :
  _format_db_history_for_genai [ Sample.row 1 "4477" "system" "text" (Some "x") 1 ]
  = [ {| Genai.role := "user"; Genai.parts := [Genai.Text "x"] |} ].
Proof. reflexivity. Qed.

(** ** The Conversation Session Cache *)

Lemma selects_for_snoc p t e :
  selects_for p (t ++ [e])
  = (selects_for p t + if is_select_for p e then 1 else 0)%nat.
Proof.
  unfold selects_for. rewrite filter_app, length_app. simpl.
  by destruct (is_select_for p e).
Qed.

Lemma replies_snoc t e :
  replies (t ++ [e]) = replies t ++ (if is_reply e then [e] else []).
Proof. unfold replies. rewrite filter_app. simpl. by destruct (is_reply e). Qed.

#[local] Instance keeps_preorder p : PreOrder (keeps p).
Proof.
  split.
  - by intros w H.
  - intros a b c Hab Hbc H. destruct (Hab H) as [H1 H2].
    destruct (Hbc H1) as [H3 H4]. split; [done | congruence].
Qed.

#[local] Instance quiet_preorder : PreOrder quiet.
Proof.
  split.
  - by intros w.
  - intros a b c Hab Hbc. unfold quiet in *. congruence.
Qed.

#[local] Instance same_cache_preorder : PreOrder same_cache.
Proof.
  split.
  - by intros w.
  - intros a b c Hab Hbc. unfold same_cache in *. congruence.
Qed.

(** How [preserves] goes through the control structure, for any preorder
    on worlds. *)
Section Preserves.

Context (R : World -> World -> Prop) `{!PreOrder R}.

Lemma preserves_ret {A} (a : A) : preserves R (ret a).
Proof. intros w. simpl. reflexivity. Qed.

Lemma preserves_raise {A} e : preserves R (@raise A e).
Proof. intros w. simpl. reflexivity. Qed.

Lemma preserves_lift {A} (r : Py.Res A) : preserves R (lift r).
Proof. intros w. simpl. reflexivity. Qed.

Lemma preserves_bind {A B} (c : M A) (k : A -> M B) :
  preserves R c -> (forall a, preserves R (k a)) -> preserves R (bind c k).
Proof.
  intros Hc Hk w. unfold bind. pose proof (Hc w) as H1.
  destruct (c w) as [[a|e] w']; simpl in *; [|done].
  etransitivity; [exact H1 | apply Hk].
Qed.

Lemma preserves_try_except {A} (c : M A) (h : Py.Exn -> M A) :
  preserves R c -> (forall e, preserves R (h e)) -> preserves R (try_except c h).
Proof.
  intros Hc Hh w. unfold try_except. pose proof (Hc w) as H1.
  destruct (c w) as [[a|e] w']; simpl in *; [done|].
  etransitivity; [exact H1 | apply Hh].
Qed.

End Preserves.

Section Keeps.

Variable p : string.

Lemma keeps_log e : is_select_for p e = false -> preserves (keeps p) (modify (log e)).
Proof.
  intros He w H. simpl. split; [done|].
  rewrite selects_for_snoc, He. lia.
Qed.

Lemma keeps_history_append q x : preserves (keeps p) (history_append q x).
Proof.
  intros w H. simpl. split; [|done].
  rewrite lookup_alter. case_decide; [subst|done].
  destruct H as [h ->]. by eexists.
Qed.

Lemma keeps_save_message env sp role mid ty txt path ts :
  preserves (keeps p) (save_message env sp role mid ty txt path ts).
Proof.
  intros w H. unfold save_message.
  destruct (negb _); [done|].
  destruct (insert_fails _ _); simpl; (split; [done|]);
    rewrite selects_for_snoc; simpl; lia.
Qed.

Lemma keeps_send_text env number message :
  preserves (keeps p) (send_text env number message).
Proof.
  unfold send_text. apply preserves_bind; [apply _ | by apply keeps_log |].
  intros _. destruct (send_text_fails _ _ _);
    [apply preserves_raise | apply preserves_ret]; apply _.
Qed.

Lemma keeps_get_or_create env q :
  preserves (keeps p) (_get_or_create_chat_history env q).
Proof.
  intros w H. unfold _get_or_create_chat_history, bind.
  destruct (chat_histories w !! q) as [h|] eqn:Hq.
  - rewrite Hq. done.
  - assert (Hne : q <> p) by (intros ->; rewrite Hq in H; by destruct H).
    unfold get_history.
    destruct (negb _); simpl.
    + rewrite lookup_insert_eq. simpl. split; [|done].
      by rewrite lookup_insert_ne.
    + assert (Hsel : is_select_for p (EvSelect q get_history_default_limit) = false)
        by (simpl; by apply String.eqb_neq).
      destruct (select_fails env q); simpl.
      * rewrite lookup_insert_eq. simpl. split; [by rewrite lookup_insert_ne|].
        rewrite selects_for_snoc, Hsel. lia.
      * destruct (select_sql _ _ _ _); simpl;
          rewrite lookup_insert_eq; simpl;
          (split; [by rewrite lookup_insert_ne|]);
          rewrite selects_for_snoc, Hsel; lia.
Qed.

End Keeps.

Section Quiet.

Lemma quiet_log e : is_reply e = false -> preserves quiet (modify (log e)).
Proof. intros He w. unfold quiet. simpl. rewrite replies_snoc, He. apply app_nil_r. Qed.

Lemma quiet_history_append q x : preserves quiet (history_append q x).
Proof. by intros w. Qed.

(** Storing a turn of any role but [assistant]. *)
Lemma quiet_save_message env sp role mid ty txt path ts :
  String.eqb role "assistant" = false ->
  preserves quiet (save_message env sp role mid ty txt path ts).
Proof.
  intros Hrole w. unfold save_message, quiet.
  destruct (negb _); [done|].
  destruct (insert_fails _ _); simpl;
    rewrite replies_snoc; unfold is_reply; simpl; rewrite Hrole; apply app_nil_r.
Qed.

Lemma quiet_get_or_create env q :
  preserves quiet (_get_or_create_chat_history env q).
Proof.
  intros w. unfold _get_or_create_chat_history, bind, quiet.
  destruct (chat_histories w !! q) as [h|] eqn:Hq.
  - by rewrite Hq.
  - unfold get_history.
    destruct (negb _); simpl.
    + by rewrite lookup_insert_eq.
    + destruct (select_fails env q); simpl;
        [|destruct (select_sql _ _ _ _); simpl];
        rewrite lookup_insert_eq; simpl; rewrite replies_snoc; apply app_nil_r.
Qed.

End Quiet.

Create HintDb preserves.

#[local] Hint Resolve keeps_history_append keeps_save_message keeps_send_text
  keeps_get_or_create quiet_history_append quiet_get_or_create : preserves.

(** Walk down a coroutine: sequencing, handlers and branches. *)
Ltac preserves_step :=
  match goal with
  | |- preserves _ (bind _ _) => apply preserves_bind; [apply _ | | intros ?]
  | |- preserves _ (try_except _ _) => apply preserves_try_except; [apply _ | | intros ?]
  | |- preserves _ (ret _) => apply preserves_ret; apply _
  | |- preserves _ (raise _) => apply preserves_raise; apply _
  | |- preserves _ (lift _) => apply preserves_lift; apply _
  | |- preserves (keeps _) (modify (log _)) => apply keeps_log; reflexivity
  | |- preserves quiet (modify (log _)) => apply quiet_log; reflexivity
  | |- preserves _ (if ?b then _ else _) => destruct b
  | |- preserves _ (match ?x with _ => _ end) => destruct x
  | |- preserves _ _ => solve [auto with preserves]
  end.

Lemma keeps_process_file p env path :
  preserves (keeps p) (_process_file_for_api env path).
Proof.
  unfold _process_file_for_api, _prepare_inline_file_part, _upload_file.
  repeat preserves_step.
Qed.

Lemma quiet_process_file env path : preserves quiet (_process_file_for_api env path).
Proof.
  unfold _process_file_for_api, _prepare_inline_file_part, _upload_file.
  repeat preserves_step.
Qed.

Lemma same_cache_process_file env path :
  preserves same_cache (_process_file_for_api env path).
Proof.
  assert (Hlog : forall e, preserves same_cache (modify (log e))) by (by intros e w).
  unfold _process_file_for_api, _prepare_inline_file_part, _upload_file.
  repeat preserves_step; apply Hlog.
Qed.

Lemma keeps_attachment_parts p env path : preserves (keeps p) (attachment_parts env path).
Proof.
  pose proof (keeps_process_file p env) as Hfile.
  unfold attachment_parts. repeat preserves_step; try apply Hfile.
Qed.

Lemma quiet_attachment_parts env path : preserves quiet (attachment_parts env path).
Proof.
  pose proof (quiet_process_file env) as Hfile.
  unfold attachment_parts. repeat preserves_step; try apply Hfile.
Qed.

Lemma same_cache_attachment_parts env path :
  preserves same_cache (attachment_parts env path).
Proof.
  pose proof (same_cache_process_file env) as Hfile.
  unfold attachment_parts. repeat preserves_step; try apply Hfile.
Qed.

Lemma keeps_process_user_message p env sender_phone input_data :
  preserves (keeps p) (process_user_message env sender_phone input_data).
Proof.
  pose proof (keeps_attachment_parts p env) as Hfile.
  unfold process_user_message.
  repeat preserves_step; try apply Hfile.
Qed.

(** The Model Request Orchestrator sends nothing and stores nothing. *)
Lemma quiet_process_user_message env sender_phone input_data :
  preserves quiet (process_user_message env sender_phone input_data).
Proof.
  pose proof (quiet_attachment_parts env) as Hfile.
  unfold process_user_message.
  repeat preserves_step; try apply Hfile.
Qed.

Lemma keeps_handle p env message_data :
  preserves (keeps p) (handle_incoming_message env message_data).
Proof.
  pose proof (keeps_process_user_message p env) as Hpum.
  unfold handle_incoming_message.
  repeat preserves_step; try apply Hpum.
Qed.

(** Once the cache holds an entry for a conversation, no delivery handled
    after that removes it or reads the store for that conversation. *)
Lemma cached_never_reread p inbox : forall w,
  is_Some (chat_histories w !! p) ->
  is_Some (chat_histories (run_messages inbox w) !! p)
  /\ selects_for p (trace (run_messages inbox w)) = selects_for p (trace w).
Proof.
  unfold run_messages.
  induction inbox as [|[env md] inbox IH]; intros w H; simpl; [done|].
  destruct (keeps_handle p env md w H) as [H1 H2].
  destruct (IH _ H1) as [H3 H4]. split; [done | congruence].
Qed.

Lemma get_or_create_cached env sender_phone w history :
  chat_histories w !! sender_phone = Some history ->
  _get_or_create_chat_history env sender_phone w = (Py.Ok history, w).
Proof.
  intros H. unfold _get_or_create_chat_history, bind. by rewrite H, H.
Qed.

(** The first access: what is loaded, and the world it leaves. *)
Lemma get_or_create_fresh env sender_phone w :
  chat_histories w !! sender_phone = None ->
  let read := get_history env sender_phone get_history_default_limit w in
  let loaded :=
    match fst read with
    | Py.Ok rows => _format_db_history_for_genai rows
    | Py.Raise _ => []
    end in
  _get_or_create_chat_history env sender_phone w
  = (Py.Ok loaded,
     set_chat_histories (<[sender_phone := loaded]> (chat_histories w)) (snd read))
  /\ chat_histories (snd read) = chat_histories w
  /\ db (snd read) = db w
  /\ (selects_for sender_phone (trace (snd read))
      <= S (selects_for sender_phone (trace w)))%nat.
Proof.
  intros H. simpl.
  assert (Hread : chat_histories
                    (snd (get_history env sender_phone get_history_default_limit w))
                  = chat_histories w
                  /\ db (snd (get_history env sender_phone get_history_default_limit w))
                     = db w
                  /\ (selects_for sender_phone
                        (trace (snd (get_history env sender_phone
                                       get_history_default_limit w)))
                      <= S (selects_for sender_phone (trace w)))%nat).
  { unfold get_history. destruct (negb _); simpl; [by auto|].
    destruct (select_fails _ _); simpl;
      [|destruct (select_sql _ _ _ _); simpl];
      rewrite selects_for_snoc; simpl; rewrite String.eqb_refl;
      repeat split; lia. }
  destruct Hread as (Hc & Hd & Hs). repeat split; try done.
  unfold _get_or_create_chat_history, bind. rewrite H.
  destruct (get_history env sender_phone get_history_default_limit w)
    as [[rows|e] w1]; simpl in *.
  - destruct rows; simpl; rewrite lookup_insert_eq; by rewrite Hc.
  - rewrite lookup_insert_eq. by rewrite Hc.
Qed.

(** The three pieces run in a row, with no other task in between, are
    [_get_or_create_chat_history]. *)
Lemma get_or_create_in_steps env sender_phone w :
  _get_or_create_chat_history env sender_phone w
  = (do waiting <- get_or_create_test sender_phone;
     do answer <- get_or_create_read env sender_phone waiting;
     get_or_create_store sender_phone answer) w.
Proof.
  unfold _get_or_create_chat_history, get_or_create_test, get_or_create_read,
    get_or_create_store, bind, ret, modify.
  destruct (chat_histories w !! sender_phone) as [history|] eqn:Hw; [done|].
  unfold get_history.
  destruct (DbManager._connection (db w)) eqn:Hc; cbn [negb]; [|done].
  cbv beta iota zeta. rewrite Hc. cbn [negb].
  destruct (select_fails env sender_phone); [done|].
  by destruct (select_sql env sender_phone get_history_default_limit
                 (DbManager.messages (db w))).
Qed.

(** C6, for calls that do not overlap: two accesses in a row, the second
    starting when the first has returned, return the same history and the
    second one changes nothing, whatever the store would answer by then;
    the two together read the store at most once; and an identifier that
    has an entry, empty or not, gets that entry back without any read, now
    and after any deliveries handled one after the other. *)
Theorem get_or_create_idempotent env1 env2 sender_phone w :
  let first := _get_or_create_chat_history env1 sender_phone w in
  let second := _get_or_create_chat_history env2 sender_phone (snd first) in
  (exists history,
      fst first = Py.Ok history /\ second = (Py.Ok history, snd first))
  /\ (selects_for sender_phone (trace (snd second))
      <= S (selects_for sender_phone (trace w)))%nat
  /\ (forall history,
        chat_histories w !! sender_phone = Some history ->
        first = (Py.Ok history, w)
        /\ forall inbox,
             selects_for sender_phone (trace (run_messages inbox w))
             = selects_for sender_phone (trace w)).
Proof.
  simpl.
  assert (Hfirst : exists history,
             fst (_get_or_create_chat_history env1 sender_phone w) = Py.Ok history
             /\ chat_histories (snd (_get_or_create_chat_history env1 sender_phone w))
                  !! sender_phone = Some history
             /\ (selects_for sender_phone
                   (trace (snd (_get_or_create_chat_history env1 sender_phone w)))
                 <= S (selects_for sender_phone (trace w)))%nat).
  { destruct (chat_histories w !! sender_phone) as [h|] eqn:Hw.
    - exists h. rewrite (get_or_create_cached _ _ _ _ Hw). simpl.
      repeat split; [done | lia].
    - destruct (get_or_create_fresh env1 sender_phone w Hw) as (-> & _ & _ & Hs).
      eexists. simpl. split; [reflexivity|]. split; [|exact Hs].
      by rewrite lookup_insert_eq. }
  destruct Hfirst as (history & Hres & Hcache & Hs).
  split; [|split].
  - exists history. split; [done|]. by apply get_or_create_cached.
  - by rewrite (get_or_create_cached _ _ _ _ Hcache).
  - intros h Hw. split; [by apply get_or_create_cached|].
    intros inbox. by apply cached_never_reread.
Qed.

(** An empty entry is not refilled although the table has rows for the
    conversation. *)
Lemma get_or_create_idempotent_witness :
  let w := Sample.world true Sample.table {[ "15551234567" := [] ]} in
  _get_or_create_chat_history Sample.env "15551234567" w = (Py.Ok [], w)
  /\ forall inbox,
       selects_for "15551234567" (trace (run_messages inbox w))
       = selects_for "15551234567" (trace w).
Proof.
  apply (proj2 (proj2 (get_or_create_idempotent Sample.env Sample.env "15551234567"
                         (Sample.world true Sample.table {[ "15551234567" := [] ]})))
           []).
  reflexivity.
Defined.

(** C6 as stated fails for calls that overlap.  Both calls test the cache
    before either has stored.  The first then loads the three text turns
    of the sample conversation and stores them; the second, resumed when
    that entry exists, reads the store again and assigns what it read over
    the entry: the store is read twice for the one identifier, the second
    time for an identifier that has an entry. *)
Lemma overlapping_calls_hydrate_twice :
  let stored_turns :=
    [ {| Genai.role := "user"; Genai.parts := [Genai.Text "one"] |};
      {| Genai.role := "model"; Genai.parts := [Genai.Text "two"] |};
      {| Genai.role := "user"; Genai.parts := [Genai.Text "six"] |} ] in
  let out :=
    overlapping_calls Sample.env Sample.env "15551234567"
      (Sample.world true Sample.table ∅) in
  fst out = Py.Ok (stored_turns, Some stored_turns, stored_turns)
  /\ trace (snd out) = [EvSelect "15551234567" 20; EvSelect "15551234567" 20]
  /\ selects_for "15551234567" (trace (snd out)) = 2%nat.
Proof. repeat split; reflexivity. Qed.

(** The first access of the sample conversation loads its three text
    turns and reads the store once. *)
Example get_or_create_sample :
  let out := _get_or_create_chat_history Sample.env "15551234567"
               (Sample.world true Sample.table ∅) in
  fst out
  = Py.Ok [ {| Genai.role := "user"; Genai.parts := [Genai.Text "one"] |};
            {| Genai.role := "model"; Genai.parts := [Genai.Text "two"] |};
            {| Genai.role := "user"; Genai.parts := [Genai.Text "six"] |} ]
  /\ trace (snd out) = [EvSelect "15551234567" 20].
Proof. split; reflexivity. Qed.

(** C10, for calls that do not overlap: when the first access finds no
    entry and the read of the store raises, the error is swallowed, an
    empty history is stored and returned, and the store itself is
    untouched; from then on every access that starts afterwards returns
    the empty history without a read, and no delivery handled after that,
    one after the other, reads the store for that identifier, so whatever
    the table holds for the conversation does not reach the model. *)
Theorem hydration_failure_discards_history env sender_phone w e :
  chat_histories w !! sender_phone = None ->
  fst (get_history env sender_phone get_history_default_limit w) = Py.Raise e ->
  exists w',
    _get_or_create_chat_history env sender_phone w = (Py.Ok [], w')
    /\ chat_histories w' = <[sender_phone := []]> (chat_histories w)
    /\ db w' = db w
    /\ (forall env', _get_or_create_chat_history env' sender_phone w' = (Py.Ok [], w'))
    /\ (forall inbox,
          selects_for sender_phone (trace (run_messages inbox w'))
          = selects_for sender_phone (trace w')).
Proof.
  intros Hw Hread.
  destruct (get_or_create_fresh env sender_phone w Hw) as (Hget & Hc & Hd & _).
  rewrite Hread in Hget.
  eexists. split; [exact Hget|]. simpl.
  assert (Hentry : (<[sender_phone := []]> (chat_histories w)
                      : gmap string (list Genai.Content)) !! sender_phone = Some [])
    by apply lookup_insert_eq.
  repeat split; try done.
  - intros env'. by apply get_or_create_cached.
  - intros inbox.
    apply (cached_never_reread sender_phone inbox
             (set_chat_histories (<[sender_phone := []]> (chat_histories w))
                (snd (get_history env sender_phone get_history_default_limit w)))).
    simpl. by rewrite Hentry.
Qed.

(** The store is up and holds the conversation, but the one read failed. *)
Lemma hydration_failure_discards_history_witness :
  exists w',
    _get_or_create_chat_history
      (Sample.env_with (Some Sample.good_response) (fun _ => true))
      "15551234567" (Sample.world true Sample.table ∅) = (Py.Ok [], w')
    /\ chat_histories w' = <["15551234567" := []]> ∅
    /\ db w' = db (Sample.world true Sample.table ∅)
    /\ (forall env', _get_or_create_chat_history env' "15551234567" w' = (Py.Ok [], w'))
    /\ (forall inbox,
          selects_for "15551234567" (trace (run_messages inbox w'))
          = selects_for "15551234567" (trace w')).
Proof.
  apply (hydration_failure_discards_history
           (Sample.env_with (Some Sample.good_response) (fun _ => true))
           "15551234567" (Sample.world true Sample.table ∅)
           (Py.OtherException "sqlite3.Error")).
  - reflexivity.
  - reflexivity.
Defined.

(** C10 as stated fails for calls that overlap.  Both calls test the
    cache before either has stored.  The read of the first raises and it
    stores the empty history; the second, resumed when that empty entry
    exists, consults the store all the same and assigns the three stored
    turns: the stored context is back in the cache. *)
Lemma overlapping_call_restores_history :
  let stored_turns :=
    [ {| Genai.role := "user"; Genai.parts := [Genai.Text "one"] |};
      {| Genai.role := "model"; Genai.parts := [Genai.Text "two"] |};
      {| Genai.role := "user"; Genai.parts := [Genai.Text "six"] |} ] in
  let out :=
    overlapping_calls
      (Sample.env_with (Some Sample.good_response) (fun _ => true)) Sample.env
      "15551234567" (Sample.world true Sample.table ∅) in
  fst out = Py.Ok ([], Some [], stored_turns)
  /\ trace (snd out) = [EvSelect "15551234567" 20; EvSelect "15551234567" 20]
  /\ chat_histories (snd out) !! "15551234567" = Some stored_turns.
Proof. repeat split; reflexivity. Qed.

(** The same happens when the store was never connected. *)
Example hydration_not_connected :
  let out := _get_or_create_chat_history Sample.env "15551234567"
               (Sample.world false Sample.table ∅) in
  fst out = Py.Ok [] /\ chat_histories (snd out) = {[ "15551234567" := [] ]}.
Proof. split; reflexivity. Qed.

(** ** The Attachment Processor *)

Lemma threshold_bytes : INLINE_FILE_SIZE_THRESHOLD_BYTES = 4194304.
Proof. reflexivity. Qed.

(** With the checks passed and the size known, the size alone picks the
    helper that builds the part. *)
Lemma process_file_known_size env path mime_type file_size :
  path_exists env path = true ->
  determine_mime_type env path = Some mime_type ->
  supported mime_type = true ->
  path_getsize env path = Some file_size ->
  (file_size <= 4194304 ->
   forall file_bytes w,
     read_bytes env path = Some file_bytes ->
     _process_file_for_api env path w
     = (Py.Ok (Genai.InlineData mime_type (Py.b64encode file_bytes)), w))
  /\ (4194304 < file_size ->
      forall uploaded w,
        upload_file env path mime_type = Some uploaded ->
        _process_file_for_api env path w
        = (Py.Ok (Genai.FileData (Genai.mime_type uploaded) (Genai.uri uploaded)),
           log (EvUpload path mime_type) w)).
Proof.
  intros Hex Hmime Hsup Hsize.
  unfold _process_file_for_api, _get_supported_mime_type.
  rewrite Hex, Hmime, Hsup, Hsize, threshold_bytes. simpl.
  unfold try_except, bind, lift. simpl.
  split.
  - intros Hle file_bytes w Hread.
    apply Z.leb_le in Hle. rewrite Hle.
    unfold _prepare_inline_file_part. by rewrite Hread.
  - intros Hgt uploaded w Hup.
    apply Z.leb_gt in Hgt. rewrite Hgt.
    unfold _upload_file, bind. simpl. by rewrite Hup.
Qed.

(** C4: for a file that exists, whose MIME type is determined and
    supported and whose size can be read, [_process_file_for_api] returns
    an inline part (the determined MIME type and the base64 of the bytes
    read) when the size is at most 4 MiB = 4,194,304 bytes, and otherwise
    uploads the file and returns a part that refers to the upload. *)
Theorem process_file_inline_or_upload env path mime_type file_size w :
  path_exists env path = true ->
  determine_mime_type env path = Some mime_type ->
  supported mime_type = true ->
  path_getsize env path = Some file_size ->
  INLINE_FILE_SIZE_THRESHOLD_BYTES = 4194304
  /\ (file_size <= 4194304 ->
      forall file_bytes,
        read_bytes env path = Some file_bytes ->
        _process_file_for_api env path w
        = (Py.Ok (Genai.InlineData mime_type (Py.b64encode file_bytes)), w))
  /\ (4194304 < file_size ->
      forall uploaded,
        upload_file env path mime_type = Some uploaded ->
        _process_file_for_api env path w
        = (Py.Ok (Genai.FileData (Genai.mime_type uploaded) (Genai.uri uploaded)),
           log (EvUpload path mime_type) w)).
Proof.
  intros Hex Hmime Hsup Hsize.
  destruct (process_file_known_size env path mime_type file_size
              Hex Hmime Hsup Hsize) as [Hinline Hupload].
  split; [reflexivity|]. split.
  - intros Hle file_bytes Hread. by apply Hinline.
  - intros Hgt uploaded Hup. by apply Hupload.
Qed.

(** The 5,000,000-byte PNG is uploaded, the 1,000,000-byte PNG goes
    inline. *)
Lemma process_file_inline_or_upload_witness :
  _process_file_for_api Sample.env "media/big.png" Sample.fresh
  = (Py.Ok (Genai.FileData "image/png" "https://files.example/big.png"),
     log (EvUpload "media/big.png" "image/png") Sample.fresh)
  /\ _process_file_for_api Sample.env "media/small.png" Sample.fresh
     = (Py.Ok (Genai.InlineData "image/png" (Py.b64encode Sample.small_png)),
        Sample.fresh).
Proof.
  split.
  - apply (proj2 (proj2 (process_file_inline_or_upload Sample.env "media/big.png"
                           "image/png" 5000000 Sample.fresh
                           eq_refl eq_refl eq_refl eq_refl))
             ltac:(lia)
             {| Genai.mime_type := "image/png";
                Genai.uri := "https://files.example/big.png" |}).
    reflexivity.
  - apply (proj1 (proj2 (process_file_inline_or_upload Sample.env "media/small.png"
                           "image/png" 1000000 Sample.fresh
                           eq_refl eq_refl eq_refl eq_refl))
             ltac:(lia) Sample.small_png).
    reflexivity.
Defined.

(** The sample files are as long as their sizes say. *)
Example sample_file_sizes :
  Z.of_nat (length Sample.small_png) = 1000000
  /\ Z.of_nat (length Sample.big_png) = 5000000
  /\ Z.of_nat (length Sample.ten_bytes) = 10.
Proof.
  unfold Sample.small_png, Sample.big_png.
  rewrite !repeat_length, !Z2Nat.id by discriminate.
  repeat split; reflexivity.
Qed.

(** At the threshold itself the file still goes inline. *)
Lemma process_file_at_threshold env path mime_type file_bytes w :
  path_exists env path = true ->
  determine_mime_type env path = Some mime_type ->
  supported mime_type = true ->
  path_getsize env path = Some 4194304 ->
  read_bytes env path = Some file_bytes ->
  _process_file_for_api env path w
  = (Py.Ok (Genai.InlineData mime_type (Py.b64encode file_bytes)), w).
Proof.
  intros Hex Hmime Hsup Hsize Hread.
  by apply (proj1 (process_file_known_size env path mime_type 4194304
                     Hex Hmime Hsup Hsize)).
Qed.

Example process_small_text_file :
  _process_file_for_api Sample.env "media/man.txt" Sample.fresh
  = (Py.Ok (Genai.InlineData "text/plain" "TWFu"), Sample.fresh).
Proof. reflexivity. Qed.

Lemma determined_or_not env path :
  match _get_supported_mime_type env path with
  | Py.Ok mime_type =>
      determine_mime_type env path = Some mime_type /\ supported mime_type = true
  | Py.Raise e =>
      (determine_mime_type env path = None
       \/ exists mime_type,
            determine_mime_type env path = Some mime_type
            /\ supported mime_type = false)
      /\ exists detail, e = Py.HTTPException 415 detail
  end.
Proof.
  unfold _get_supported_mime_type.
  destruct (determine_mime_type env path) as [m|]; simpl.
  - destruct (supported m) eqn:Hs; simpl; [done|].
    split; [right; by exists m | by eexists].
  - split; [by left | by eexists].
Qed.

(** The two checks of [_process_file_for_api], in their order. *)
Lemma process_file_checks env path :
  (path_exists env path = false ->
   forall w,
     _process_file_for_api env path w
     = (Py.Raise (Py.HTTPException 404 ("File not found: " ++ Py.basename path)%string),
        w))
  /\ (path_exists env path = true ->
      (determine_mime_type env path = None
       \/ exists mime_type,
            determine_mime_type env path = Some mime_type
            /\ supported mime_type = false) ->
      exists detail, forall w,
        _process_file_for_api env path w = (Py.Raise (Py.HTTPException 415 detail), w)).
Proof.
  unfold _process_file_for_api. split.
  - intros ->. done.
  - intros -> Hmime. cbn [negb].
    pose proof (determined_or_not env path) as H.
    destruct (_get_supported_mime_type env path) as [m|e] eqn:E.
    + destruct H as [H1 H2]. destruct Hmime as [Hn | (m' & Hm' & Hu)]; congruence.
    + destruct H as [_ [detail ->]]. exists detail. intros w.
      by unfold try_except, bind, lift.
Qed.

(** ** The Model Request Orchestrator *)

Lemma truthy_false (o : option string) :
  Py.truthy o = false <-> o = None \/ o = Some "".
Proof.
  destruct o as [[|c s]|]; simpl; split; intros H; try done; auto;
    destruct H; discriminate.
Qed.

Lemma get_or_create_returns env sender_phone w :
  exists history, fst (_get_or_create_chat_history env sender_phone w) = Py.Ok history.
Proof.
  destruct (chat_histories w !! sender_phone) as [h|] eqn:Hw.
  - exists h. by rewrite (get_or_create_cached _ _ _ _ Hw).
  - destruct (get_or_create_fresh env sender_phone w Hw) as (-> & _). by eexists.
Qed.

(** C9: with the text and the attachment path both absent or empty,
    [process_user_message] returns the fixed prompt-for-input message and
    leaves the world as it was: no exception, no model call, no change of
    the session cache (not even a first load). *)
Theorem no_input_short_circuit env sender_phone input_data w :
  (in_text_content input_data = None \/ in_text_content input_data = Some "") ->
  (in_local_file_path input_data = None \/ in_local_file_path input_data = Some "") ->
  process_user_message env sender_phone input_data w
  = (Py.Ok "Please provide a message or a file to process.", w).
Proof.
  intros Ht Hp. apply truthy_false in Ht, Hp.
  unfold process_user_message. by rewrite Ht, Hp.
Qed.

Lemma no_input_short_circuit_witness :
  process_user_message Sample.env "15551234567"
    {| in_type := "text"; in_text_content := Some "";
       in_local_file_path := None; in_mime_type := None |}
    (Sample.world true Sample.table ∅)
  = (Py.Ok "Please provide a message or a file to process.",
     Sample.world true Sample.table ∅).
Proof.
  apply no_input_short_circuit; [by right | by left].
Defined.

(** A failure of the attachment goes through [process_user_message]
    unchanged, after the session history was fetched. *)
Lemma process_user_message_file_error env sender_phone input_data path status detail :
  in_local_file_path input_data = Some path ->
  path <> "" ->
  (forall w, _process_file_for_api env path w
             = (Py.Raise (Py.HTTPException status detail), w)) ->
  forall w,
    process_user_message env sender_phone input_data w
    = (Py.Raise (Py.HTTPException status detail),
       snd (_get_or_create_chat_history env sender_phone w)).
Proof.
  intros Hpath Hne Hfile w.
  assert (Htruthy : Py.truthy (Some path) = true) by (by destruct path).
  unfold process_user_message. rewrite Hpath, Htruthy, andb_false_r.
  unfold try_except, bind at 1.
  destruct (get_or_create_returns env sender_phone w) as [h Hh].
  destruct (_get_or_create_chat_history env sender_phone w) as [r w1].
  simpl in Hh. subst r. simpl.
  unfold bind at 1. unfold attachment_parts. rewrite Htruthy.
  unfold bind at 1. simpl. by rewrite Hfile.
Qed.

(** ** The Message Dispatch Orchestrator *)

(** C8: a self-sent message is dropped at once.  The world after is the
    world before: no row written, no model call, no change of the session
    cache, nothing sent. *)
Theorem self_sent_is_ignored env message_data w :
  Models.is_mine message_data = true ->
  handle_incoming_message env message_data w = (Py.Ok tt, w).
Proof. intros H. unfold handle_incoming_message, try_except. by rewrite H. Qed.

Lemma self_sent_is_ignored_witness :
  handle_incoming_message Sample.env
    (Sample.message "15551234567" true (Some "Hello") None)
    (Sample.world true Sample.table ∅)
  = (Py.Ok tt, Sample.world true Sample.table ∅).
Proof. apply self_sent_is_ignored. reflexivity. Defined.

(** Step 2 never stops the handling and sends nothing. *)
Lemma save_incoming_ok env sp mid ty txt path ts w :
  exists w1,
    try_except (save_message env sp "user" mid ty txt path ts) (fun _ => ret tt) w
    = (Py.Ok tt, w1)
    /\ quiet w w1.
Proof.
  assert (Hq : preserves quiet
                 (try_except (save_message env sp "user" mid ty txt path ts)
                    (fun _ => ret tt)))
    by (repeat preserves_step; by apply quiet_save_message).
  specialize (Hq w).
  exists (snd (try_except (save_message env sp "user" mid ty txt path ts)
                 (fun _ => ret tt) w)).
  split; [|done].
  unfold try_except, save_message.
  destruct (negb _); [done|]. by destruct (insert_fails _ _).
Qed.

(** Step 8: what [handle_incoming_message] does when the client raises. *)
Lemma handle_client_raises env message_data w :
  Models.is_mine message_data = false ->
  exists w1,
    quiet w w1
    /\ forall e w2,
         process_user_message env (Models.sender_phone message_data)
           (prepare_llm_input message_data) w1 = (Py.Raise e, w2) ->
         fst (handle_incoming_message env message_data w) = Py.Ok tt
         /\ replies (trace (snd (handle_incoming_message env message_data w)))
            = replies (trace w2)
              ++ match Models.sender_phone message_data with
                 | "" => []
                 | number => [EvSendText number internal_error_reply]
                 end.
Proof.
  intros Hmine.
  destruct (save_incoming_ok env (Models.sender_phone message_data)
              (Some (Models.id message_data)) (Models.type message_data)
              (Models.body message_data) (Models.local_file_path message_data)
              (Models.timestamp message_data) w) as (w1 & Hsave & Hq).
  exists w1. split; [done|]. intros e w2 Hpum.
  assert (Hh : handle_incoming_message env message_data w
               = (Py.Ok tt,
                  match Models.sender_phone message_data with
                  | "" => w2
                  | number => log (EvSendText number internal_error_reply) w2
                  end)).
  { unfold handle_incoming_message. rewrite Hmine.
    unfold try_except at 1. unfold bind at 1. rewrite Hsave.
    unfold bind at 1. rewrite Hpum. simpl.
    destruct (Models.sender_phone message_data) as [|c number]; simpl; [done|].
    unfold try_except, send_text, bind. simpl.
    by destruct (send_text_fails _ _ _). }
  rewrite Hh. simpl. split; [done|].
  destruct (Models.sender_phone message_data) as [|c number]; simpl.
  - by rewrite app_nil_r.
  - by rewrite replies_snoc.
Qed.

(** C7, as the code has it: [_process_file_for_api] first fails with 404
    (file not found) when the path does not exist, and otherwise with 415
    (unsupported media) when the MIME type is not determined or not
    supported; when such a failure reaches [handle_incoming_message], it
    returns normally, stores no assistant turn, and sends the generic
    apology, once, if the sender's number is non-empty, and sends nothing
    if it is empty. *)
Theorem file_failure_apology env message_data path w :
  (path_exists env path = false ->
   _process_file_for_api env path w
   = (Py.Raise (Py.HTTPException 404 ("File not found: " ++ Py.basename path)%string), w))
  /\ (path_exists env path = true ->
      (determine_mime_type env path = None
       \/ exists mime_type,
            determine_mime_type env path = Some mime_type
            /\ supported mime_type = false) ->
      exists detail,
        _process_file_for_api env path w = (Py.Raise (Py.HTTPException 415 detail), w))
  /\ (Models.is_mine message_data = false ->
      Models.local_file_path message_data = Some path ->
      path <> "" ->
      (path_exists env path = false
       \/ determine_mime_type env path = None
       \/ exists mime_type,
            determine_mime_type env path = Some mime_type
            /\ supported mime_type = false) ->
      let out := handle_incoming_message env message_data w in
      fst out = Py.Ok tt
      /\ replies (trace (snd out))
         = replies (trace w)
           ++ match Models.sender_phone message_data with
              | "" => []
              | number => [EvSendText number internal_error_reply]
              end).
Proof.
  destruct (process_file_checks env path) as [Hmissing Hmime].
  split; [|split].
  - intros Hex. by apply Hmissing.
  - intros Hex Hbad. destruct (Hmime Hex Hbad) as [detail Hd]. by exists detail.
  - intros Hmine Hpath Hne Hfail.
    assert (Hraise : exists status detail, forall w',
               _process_file_for_api env path w'
               = (Py.Raise (Py.HTTPException status detail), w')).
    { destruct (path_exists env path) eqn:Hex.
      - destruct Hfail as [Hf | Hbad]; [discriminate|].
        destruct (Hmime eq_refl Hbad) as [detail Hd]. by exists 415, detail.
      - eexists _, _. by apply Hmissing. }
    destruct Hraise as (status & detail & Hraise).
    destruct (handle_client_raises env message_data w Hmine) as (w1 & Hq1 & Hh).
    pose proof (process_user_message_file_error env
                  (Models.sender_phone message_data)
                  (prepare_llm_input message_data) path status detail
                  Hpath Hne Hraise w1) as Hpum.
    destruct (Hh _ _ Hpum) as [Hok Hreplies].
    split; [done|]. simpl. rewrite Hreplies. f_equal.
    pose proof (quiet_get_or_create env (Models.sender_phone message_data) w1) as Hq2.
    unfold quiet in *. congruence.
Qed.

(** The 10-byte file with the unknown extension: 415, and the apology. *)
Lemma file_failure_apology_witness :
  (exists detail,
      _process_file_for_api Sample.env "media/blob.zzz" Sample.fresh
      = (Py.Raise (Py.HTTPException 415 detail), Sample.fresh))
  /\ fst (handle_incoming_message Sample.env
            (Sample.message "15551234567" false None (Some "media/blob.zzz"))
            Sample.fresh) = Py.Ok tt
  /\ replies (trace (snd (handle_incoming_message Sample.env
                            (Sample.message "15551234567" false None
                               (Some "media/blob.zzz"))
                            Sample.fresh)))
     = [EvSendText "15551234567" "Sorry, I encountered an internal error."].
Proof.
  destruct (file_failure_apology Sample.env
              (Sample.message "15551234567" false None (Some "media/blob.zzz"))
              "media/blob.zzz" Sample.fresh) as (_ & H415 & Hhandle).
  split.
  - apply H415; [reflexivity | left; reflexivity].
  - apply Hhandle; [reflexivity | reflexivity | discriminate | right; left; reflexivity].
Defined.

(** C7 as stated fails for a message whose sender number is empty: the
    attachment is refused with 415, the handler returns normally, and no
    apology is sent. *)
Lemma file_failure_without_sender_sends_nothing :
  _process_file_for_api Sample.env "media/blob.zzz" Sample.fresh
  = (Py.Raise (Py.HTTPException 415 "Could not determine MIME type for file: blob.zzz"),
     Sample.fresh)
  /\ fst (handle_incoming_message Sample.env
            (Sample.message "" false None (Some "media/blob.zzz")) Sample.fresh)
     = Py.Ok tt
  /\ List.filter is_send
       (trace (snd (handle_incoming_message Sample.env
                      (Sample.message "" false None (Some "media/blob.zzz"))
                      Sample.fresh)))
     = [].
Proof. repeat split; reflexivity. Qed.

(** A missing file: 404, before the MIME type is looked at. *)
Example missing_file_is_404 :
  _process_file_for_api Sample.env "media/gone.zzz" Sample.fresh
  = (Py.Raise (Py.HTTPException 404 "File not found: gone.zzz"), Sample.fresh).
Proof. reflexivity. Qed.

(** The extensions [mimetypes] may miss are recognised by hand. *)
Example heic_is_determined :
  determine_mime_type Sample.env "media/IMG_0001.HEIC" = Some "image/heic"
  /\ _get_supported_mime_type Sample.env "media/setup.exe"
     = Py.Raise (Py.HTTPException 415
         "Unsupported file type: application/x-msdownload. Please provide a supported format.").
Proof. split; reflexivity. Qed.

(** What [process_user_message] does once the history is fetched, the
    attachment (if any) is processed and the model has answered: the two
    turns are appended as soon as the text and the first candidate's
    content can be read, before the text is looked at; an unreadable
    response leaves the cache alone. *)
Lemma process_message_answered env sender_phone input_data history file_parts w_f
    response w :
  fst (_get_or_create_chat_history env sender_phone w) = Py.Ok history ->
  attachment_parts env (in_local_file_path input_data)
    (snd (_get_or_create_chat_history env sender_phone w))
  = (Py.Ok file_parts, w_f) ->
  let input_parts := with_text_part (in_text_content input_data) file_parts in
  input_parts <> [] ->
  let user_turn := {| Genai.role := "user"; Genai.parts := input_parts |} in
  let w1 := log (EvGenerate (history ++ [user_turn])) w_f in
  generate_content_async env (history ++ [user_turn]) = Some response ->
  process_user_message env sender_phone input_data w
  = match read_response response with
    | Py.Ok (ai_response_text, model_turn) =>
        (Py.Ok
           match ai_response_text with
           | Some t =>
               if String.eqb (str_strip env t) ""
               then "Sorry, I couldn't generate a meaningful response for that."
               else str_strip env t
           | None => "Sorry, I couldn't generate a meaningful response for that."
           end,
         set_chat_histories
           (alter (fun h => h ++ [model_turn]) sender_phone
              (alter (fun h => h ++ [user_turn]) sender_phone (chat_histories w1)))
           w1)
    | Py.Raise _ => (Py.Ok (unreadable_response_message response), w1)
    end.
Proof.
  intros Hh Hatt input_parts Hparts user_turn w1 Hgen.
  assert (Hsome : negb (Py.truthy (in_text_content input_data))
                  && negb (Py.truthy (in_local_file_path input_data)) = false).
  { destruct (Py.truthy (in_text_content input_data)) eqn:Ht; [done|].
    destruct (Py.truthy (in_local_file_path input_data)) eqn:Hp; [done|].
    exfalso. apply Hparts. subst input_parts.
    unfold with_text_part. rewrite Ht.
    unfold attachment_parts in Hatt. rewrite Hp in Hatt. by injection Hatt as <- _. }
  unfold process_user_message. rewrite Hsome.
  unfold try_except, bind at 1.
  destruct (_get_or_create_chat_history env sender_phone w) as [r w0].
  simpl in Hh, Hatt. subst r.
  unfold bind at 1. rewrite Hatt.
  fold input_parts. destruct input_parts as [|part parts] eqn:Hip; [done|].
  fold user_turn. unfold bind at 1. simpl.
  unfold bind at 1. unfold lift. rewrite Hgen.
  destruct (read_response response) as [[t model_turn]|e]; [|done].
  unfold history_append, bind, modify, set_chat_histories. simpl.
  destruct t as [t|]; [|done].
  by destruct (String.eqb (str_strip env t) "").
Qed.

(** No message for an unreadable response is empty or the one reply the
    dispatcher keeps back. *)
Lemma unreadable_response_message_passes response :
  unreadable_response_message response <> ""
  /\ unreadable_response_message response <> safety_guidelines_reply.
Proof.
  unfold unreadable_response_message, generic_fallback, safety_guidelines_reply.
  destruct (Genai.prompt_feedback response) as [[[[[shown|]|]]|]|];
    destruct (Genai.candidates response) as [[|c cs]|];
    split; discriminate.
Qed.

(** C1 as stated fails on an answer without candidates: the apology
    sentence is stored as the assistant's turn and sent. *)
Lemma empty_answer_is_sent :
  replies (trace (snd (handle_incoming_message
                         (Sample.env_with (Some Sample.empty_response)
                            (fun _ => false))
                         (Sample.message "15551234567" false (Some "Hello") None)
                         Sample.fresh)))
  = [ EvInsert {| DbManager.id := 2; DbManager.sender_phone := "15551234567";
                  DbManager.role := "assistant"; DbManager.message_id := None;
                  DbManager.type := "text";
                  DbManager.text_content :=
                    Some "Sorry, I couldn't generate a response for that input.";
                  DbManager.local_file_path := None;
                  DbManager.timestamp := 1700000100 |};
      EvSendText "15551234567"
        "Sorry, I couldn't generate a response for that input." ].
Proof. reflexivity. Qed.

(** The three kinds of failed answer, run: each time one assistant row is
    stored and one message is sent. *)
Example failed_answers_run :
  let answered response :=
    replies (trace (snd (handle_incoming_message
                           (Sample.env_with (Some response) (fun _ => false))
                           (Sample.message "15551234567" false (Some "Hello") None)
                           Sample.fresh))) in
  let stored text :=
    EvInsert {| DbManager.id := 2; DbManager.sender_phone := "15551234567";
                DbManager.role := "assistant"; DbManager.message_id := None;
                DbManager.type := "text"; DbManager.text_content := Some text;
                DbManager.local_file_path := None;
                DbManager.timestamp := 1700000100 |} in
  let blocked :=
    "My response was blocked due to safety reasons (SAFETY). Please modify your prompt or file." in
  let no_candidates := "Sorry, I couldn't generate a response for that input." in
  let not_meaningful := "Sorry, I couldn't generate a meaningful response for that." in
  answered Sample.blocked_response
  = [stored blocked; EvSendText "15551234567" blocked]
  /\ answered Sample.empty_response
     = [stored no_candidates; EvSendText "15551234567" no_candidates]
  /\ answered Sample.blank_response
     = [stored not_meaningful; EvSendText "15551234567" not_meaningful].
Proof. repeat split; reflexivity. Qed.

(** The dispatcher does keep silent, but only for an answer that is
    exactly the safety-guidelines sentence. *)
Example safety_guidelines_sentence_is_dropped :
  let said :=
    {| Genai.role := "model";
       Genai.parts := [Genai.Text "I cannot respond to that prompt due to safety guidelines."] |} in
  let response :=
    {| Genai.text := Py.Ok (Some "I cannot respond to that prompt due to safety guidelines.");
       Genai.candidates := Some [ {| Genai.content := said |} ];
       Genai.prompt_feedback := Some None |} in
  replies (trace (snd (handle_incoming_message
                         (Sample.env_with (Some response) (fun _ => false))
                         (Sample.message "15551234567" false (Some "Hello") None)
                         Sample.fresh)))
  = [].
Proof. reflexivity. Qed.

(** Scenario A: a greeting from a new conversation. *)
Example greeting_is_answered :
  let out := handle_incoming_message Sample.env
               (Sample.message "15551234567" false (Some "Hello") None)
               Sample.fresh in
  fst out = Py.Ok tt
  /\ map DbManager.role (DbManager.messages (db (snd out))) = ["user"; "assistant"]
  /\ List.filter is_send (trace (snd out)) = [EvSendText "15551234567" "Hello!"].
Proof. repeat split; reflexivity. Qed.






(** A successful exchange: the answer is trimmed and both turns are kept. *)
Example successful_answer_is_appended :
  let out :=
    process_user_message Sample.env "15551234567"
      {| in_type := "text"; in_text_content := Some "Hello";
         in_local_file_path := None; in_mime_type := None |}
      (Sample.world true [] {[ "15551234567" := [] ]}) in
  fst out = Py.Ok "Hello!"
  /\ chat_histories (snd out) !! "15551234567"
     = Some [ {| Genai.role := "user"; Genai.parts := [Genai.Text "Hello"] |};
              Sample.hello ].
Proof. split; reflexivity. Qed.

(** With an attachment, its part comes before the text part. *)
Example attachment_part_comes_first :
  trace (snd (process_user_message Sample.env "15551234567"
                {| in_type := "document"; in_text_content := Some "What is this?";
                   in_local_file_path := Some "media/man.txt";
                   in_mime_type := Some "text/plain" |}
                (Sample.world true [] {[ "15551234567" := [] ]})))
  = [ EvGenerate
        [ {| Genai.role := "user";
             Genai.parts := [ Genai.InlineData "text/plain" "TWFu";
                              Genai.Text "What is this?" ] |} ] ].
Proof. reflexivity. Qed.

(** * Further properties of the code *)

(** ** What a coroutine may return and raise *)

Section Ensures.

Context {A : Type} (P : A -> Prop) (Q : Py.Exn -> Prop).

Lemma ensures_ret (a : A) : P a -> ensures P Q (ret a).
Proof. by intros H w. Qed.

Lemma ensures_raise e : Q e -> ensures P Q (@raise A e).
Proof. by intros H w. Qed.

Lemma ensures_weaken (P' : A -> Prop) (Q' : Py.Exn -> Prop) (c : M A) :
  ensures P' Q' c ->
  (forall a, P' a -> P a) -> (forall e, Q' e -> Q e) ->
  ensures P Q c.
Proof.
  intros Hc HP HQ w. specialize (Hc w).
  destruct (fst (c w)); auto.
Qed.

Lemma ensures_bind {B} (PB : B -> Prop) (c : M B) (k : B -> M A) :
  ensures PB Q c -> (forall b, PB b -> ensures P Q (k b)) -> ensures P Q (bind c k).
Proof.
  intros Hc Hk w. unfold bind. specialize (Hc w).
  destruct (c w) as [[b|e] w']; simpl in *; [|done].
  apply (Hk b Hc w').
Qed.

Lemma ensures_try_except (Q' : Py.Exn -> Prop) (c : M A) (h : Py.Exn -> M A) :
  ensures P Q' c -> (forall e, Q' e -> ensures P Q (h e)) ->
  ensures P Q (try_except c h).
Proof.
  intros Hc Hh w. unfold try_except. specialize (Hc w).
  destruct (c w) as [[a|e] w']; simpl in *; [done|].
  apply (Hh e Hc w').
Qed.

End Ensures.

Lemma never_raises_any {A} (P : A -> Prop) (Q : Py.Exn -> Prop) (c : M A) :
  never_raises c -> (forall a, P a) -> ensures P Q c.
Proof. intros Hc HP. eapply ensures_weaken; [exact Hc | auto | done]. Qed.

Lemma never_raises_bind {A B} (c : M A) (k : A -> M B) :
  never_raises c -> (forall a, never_raises (k a)) -> never_raises (bind c k).
Proof.
  intros Hc Hk. unfold never_raises in *.
  eapply ensures_bind; [exact Hc | intros a _; apply Hk].
Qed.

Lemma swallow_never_raises c : never_raises (swallow c).
Proof.
  intros w. unfold swallow, try_except. by destruct (c w) as [[a|e] w'].
Qed.

Lemma get_or_create_never_raises env sender_phone :
  never_raises (_get_or_create_chat_history env sender_phone).
Proof.
  intros w. destruct (get_or_create_returns env sender_phone w) as [h ->]. done.
Qed.

Lemma history_append_never_raises sender_phone x :
  never_raises (history_append sender_phone x).
Proof. by intros w. Qed.

Lemma log_never_raises e : never_raises (modify (log e)).
Proof. by intros w. Qed.

(** ** What the Attachment Processor returns and raises *)

(** The part built for a file is never a text part, and the only
    exceptions that leave [_process_file_for_api] are [HTTPException]s
    with status 404, 415 or 500. *)
Lemma process_file_outcome env path :
  ensures (fun part => match part with Genai.Text _ => False | _ => True end)
    (http_error [404; 415; 500]) (_process_file_for_api env path).
Proof.
  intros w. unfold _process_file_for_api.
  destruct (path_exists env path); simpl;
    [|eexists _, _; split; [reflexivity | simpl; auto]].
  unfold try_except, bind, lift.
  pose proof (determined_or_not env path) as Hm.
  destruct (_get_supported_mime_type env path) as [m|e]; simpl.
  - destruct (path_getsize env path) as [n|]; simpl;
      [|eexists _, _; split; [reflexivity | simpl; auto]].
    destruct (n <=? INLINE_FILE_SIZE_THRESHOLD_BYTES).
    + unfold _prepare_inline_file_part.
      destruct (read_bytes env path); simpl;
        [done | eexists _, _; split; [reflexivity | simpl; auto]].
    + unfold _upload_file, bind. simpl.
      destruct (upload_file env path m); simpl;
        [done | eexists _, _; split; [reflexivity | simpl; auto]].
  - destruct Hm as [_ [detail ->]]. simpl.
    eexists _, _; split; [reflexivity | simpl; auto].
Qed.

Lemma attachment_parts_outcome env path :
  ensures (fun _ => True) (http_error [404; 415; 500]) (attachment_parts env path).
Proof.
  unfold attachment_parts. destruct (Py.truthy path); [|by apply ensures_ret].
  eapply ensures_bind; [apply process_file_outcome|].
  intros part _. by apply ensures_ret.
Qed.

(** ** What the Model Request Orchestrator returns and raises *)

Lemma process_user_message_outcome env sender_phone input_data :
  ensures (fun reply => reply <> "") (http_error [404; 415; 500])
    (process_user_message env sender_phone input_data).
Proof.
  unfold process_user_message.
  destruct (negb _ && negb _); [by apply ensures_ret|].
  apply (ensures_try_except _ _
           (fun e => match e with
                     | Py.HTTPException status_code _ => In status_code [404; 415; 500]
                     | _ => True
                     end)).
  - eapply (ensures_bind _ _ (fun _ => True));
      [apply never_raises_any; [apply get_or_create_never_raises | done]|].
    intros history _.
    eapply ensures_bind.
    { eapply ensures_weaken; [apply attachment_parts_outcome | done |].
      intros e (s & d & -> & Hs). exact Hs. }
    intros file_parts _. simpl.
    destruct (with_text_part _ file_parts) as [|part parts];
      [apply ensures_raise; simpl; auto|].
    eapply (ensures_bind _ _ (fun _ => True));
      [apply never_raises_any; [apply log_never_raises | done]|].
    intros _ _.
    eapply (ensures_bind _ _ (fun _ => True)).
    { intros w. unfold lift. simpl. by destruct (generate_content_async _ _). }
    intros response _.
    destruct (read_response response) as [[t model_turn]|e].
    + eapply (ensures_bind _ _ (fun _ => True));
      [apply never_raises_any; [apply history_append_never_raises | done]|].
      intros _ _.
      eapply (ensures_bind _ _ (fun _ => True));
      [apply never_raises_any; [apply history_append_never_raises | done]|].
      intros _ _.
      destruct t as [t|]; [|by apply ensures_ret].
      destruct (String.eqb (str_strip env t) "") eqn:E; apply ensures_ret; [done|].
      by apply String.eqb_neq.
    + apply ensures_ret. apply unreadable_response_message_passes.
  - intros [status_code detail|msg|what] He.
    + apply ensures_raise. by exists status_code, detail.
    + apply ensures_raise. eexists _, _. split; [reflexivity | simpl; auto].
    + apply ensures_raise. eexists _, _. split; [reflexivity | simpl; auto].
Qed.

(** X1: every exception that leaves [process_user_message] is an
    [HTTPException] with status 404, 415 or 500: what the attachment
    raised goes through as it is, anything else (a failed model call
    included) is wrapped into a 500. *)
Theorem process_user_message_raises_http_only env sender_phone input_data w e :
  fst (process_user_message env sender_phone input_data w) = Py.Raise e ->
  exists status_code detail,
    e = Py.HTTPException status_code detail
    /\ (status_code = 404 \/ status_code = 415 \/ status_code = 500).
Proof.
  intros H. pose proof (process_user_message_outcome env sender_phone input_data w) as Ho.
  rewrite H in Ho. destruct Ho as (s & d & -> & Hs).
  exists s, d. split; [done|]. simpl in Hs. intuition.
Qed.

Lemma process_user_message_raises_http_only_witness :
  exists status_code detail,
    Py.HTTPException 500 "An unexpected error occurred while processing your request."
    = Py.HTTPException status_code detail
    /\ (status_code = 404 \/ status_code = 415 \/ status_code = 500).
Proof.
  apply (process_user_message_raises_http_only
           (Sample.env_with None (fun _ => false)) "15551234567"
           {| in_type := "text"; in_text_content := Some "Hello";
              in_local_file_path := None; in_mime_type := None |}
           Sample.fresh).
  reflexivity.
Defined.

(** X2: the text [process_user_message] returns is never empty, so the
    emptiness test of the dispatcher never fires. *)
Theorem process_user_message_never_empty env sender_phone input_data w reply :
  fst (process_user_message env sender_phone input_data w) = Py.Ok reply ->
  reply <> "".
Proof.
  intros H. pose proof (process_user_message_outcome env sender_phone input_data w) as Ho.
  by rewrite H in Ho.
Qed.

Lemma process_user_message_never_empty_witness : "Hello!" <> "".
Proof.
  apply (process_user_message_never_empty Sample.env "15551234567"
           {| in_type := "text"; in_text_content := Some "Hello";
              in_local_file_path := None; in_mime_type := None |}
           Sample.fresh "Hello!").
  reflexivity.
Defined.

(** ** Frames: what each step leaves alone *)

#[local] Instance same_db_preorder : PreOrder same_db.
Proof.
  split; [by intros w|]. intros a b c Hab Hbc. unfold same_db in *. congruence.
Qed.

#[local] Instance same_sends_preorder : PreOrder same_sends.
Proof.
  split; [by intros w|]. intros a b c Hab Hbc. unfold same_sends in *. congruence.
Qed.

#[local] Instance others_untouched_preorder p : PreOrder (others_untouched p).
Proof.
  split; [by intros w q Hq|].
  intros a b c Hab Hbc q Hq. rewrite (Hbc q Hq). by apply Hab.
Qed.

#[local] Instance history_extended_preorder p : PreOrder (history_extended p).
Proof.
  split.
  - intros w h Hh. exists []. by rewrite app_nil_r.
  - intros a b c Hab Hbc h Hh.
    destruct (Hab h Hh) as [m1 H1]. destruct (Hbc _ H1) as [m2 H2].
    exists (m1 ++ m2). by rewrite app_assoc.
Qed.

Lemma sends_snoc t e : sends (t ++ [e]) = sends t ++ (if is_send e then [e] else []).
Proof. unfold sends. rewrite filter_app. simpl. by destruct (is_send e). Qed.

Lemma same_cache_others p w w' : same_cache w w' -> others_untouched p w w'.
Proof. intros H q _. by rewrite H. Qed.

Lemma same_cache_extended p w w' : same_cache w w' -> history_extended p w w'.
Proof. intros H h Hh. exists []. by rewrite H, app_nil_r. Qed.

Section Frames.

Variable env : Env.

Lemma same_db_log e : preserves same_db (modify (log e)).
Proof. by intros w. Qed.

Lemma same_sends_log e : is_send e = false -> preserves same_sends (modify (log e)).
Proof. intros He w. unfold same_sends. simpl. rewrite sends_snoc, He. apply app_nil_r. Qed.

Lemma same_cache_log e : preserves same_cache (modify (log e)).
Proof. by intros w. Qed.

Lemma others_untouched_log p e : preserves (others_untouched p) (modify (log e)).
Proof. by intros w q Hq. Qed.

Lemma history_extended_log p e : preserves (history_extended p) (modify (log e)).
Proof. intros w. by apply same_cache_extended. Qed.

Lemma same_db_history_append q x : preserves same_db (history_append q x).
Proof. by intros w. Qed.

Lemma same_sends_history_append q x : preserves same_sends (history_append q x).
Proof. by intros w. Qed.

Lemma others_untouched_history_append p x :
  preserves (others_untouched p) (history_append p x).
Proof. intros w q Hq. simpl. by rewrite lookup_alter_ne. Qed.

Lemma history_extended_history_append p q x :
  preserves (history_extended p) (history_append q x).
Proof.
  intros w h Hh. simpl. rewrite lookup_alter. case_decide.
  - subst. rewrite Hh. simpl. by exists [x].
  - exists []. by rewrite app_nil_r.
Qed.

Lemma same_sends_save_message sp role mid ty txt path ts :
  preserves same_sends (save_message env sp role mid ty txt path ts).
Proof.
  intros w. unfold save_message, same_sends.
  destruct (negb _); [done|].
  destruct (insert_fails _ _); simpl; rewrite sends_snoc; apply app_nil_r.
Qed.

Lemma same_cache_save_message sp role mid ty txt path ts :
  preserves same_cache (save_message env sp role mid ty txt path ts).
Proof.
  intros w. unfold save_message, same_cache.
  destruct (negb _); [done|]. by destruct (insert_fails _ _).
Qed.

Lemma same_db_send_text number message : preserves same_db (send_text env number message).
Proof.
  intros w. unfold send_text, bind, same_db. simpl.
  by destruct (send_text_fails _ _ _).
Qed.

Lemma same_cache_send_text number message :
  preserves same_cache (send_text env number message).
Proof.
  intros w. unfold send_text, bind, same_cache. simpl.
  by destruct (send_text_fails _ _ _).
Qed.

(** The fetch of the session history, in one equation per field. *)
Lemma get_or_create_frame q w :
  let w' := snd (_get_or_create_chat_history env q w) in
  db w' = db w
  /\ sends (trace w') = sends (trace w)
  /\ (forall p, p <> q -> chat_histories w' !! p = chat_histories w !! p)
  /\ (forall h, chat_histories w !! q = Some h -> chat_histories w' = chat_histories w).
Proof.
  simpl. destruct (chat_histories w !! q) as [h|] eqn:Hq.
  - rewrite (get_or_create_cached _ _ _ _ Hq). simpl. by repeat split.
  - destruct (get_or_create_fresh env q w Hq) as (-> & Hc & Hd & _). simpl.
    repeat split; try done.
    + unfold get_history. destruct (negb _); simpl; [done|].
      destruct (select_fails _ _); simpl;
        [|destruct (select_sql _ _ _ _); simpl];
        rewrite sends_snoc; apply app_nil_r.
    + intros p Hp. by rewrite lookup_insert_ne.
Qed.

Lemma same_db_get_or_create q : preserves same_db (_get_or_create_chat_history env q).
Proof. intros w. apply get_or_create_frame. Qed.

Lemma same_sends_get_or_create q :
  preserves same_sends (_get_or_create_chat_history env q).
Proof. intros w. apply get_or_create_frame. Qed.

Lemma others_untouched_get_or_create p :
  preserves (others_untouched p) (_get_or_create_chat_history env p).
Proof. intros w q Hq. by apply get_or_create_frame. Qed.

Lemma history_extended_get_or_create p q :
  preserves (history_extended p) (_get_or_create_chat_history env q).
Proof.
  intros w h Hh.
  destruct (get_or_create_frame q w) as (_ & _ & Hothers & Hsame).
  exists []. rewrite app_nil_r.
  destruct (decide (p = q)) as [->|Hne].
  - by rewrite (Hsame h Hh).
  - by rewrite (Hothers p Hne).
Qed.

End Frames.

#[local] Hint Resolve same_db_log same_cache_log others_untouched_log
  history_extended_log same_db_history_append same_sends_history_append
  others_untouched_history_append history_extended_history_append
  same_sends_save_message same_cache_save_message same_db_send_text
  same_cache_send_text same_db_get_or_create same_sends_get_or_create
  others_untouched_get_or_create history_extended_get_or_create : preserves.

#[local] Hint Extern 1 (preserves same_sends (modify (log _))) =>
  apply same_sends_log; reflexivity : preserves.

Ltac frame_file :=
  unfold attachment_parts, _process_file_for_api, _prepare_inline_file_part,
    _upload_file;
  repeat preserves_step.

Lemma same_db_attachment_parts env path : preserves same_db (attachment_parts env path).
Proof. frame_file. Qed.

Lemma same_sends_attachment_parts env path :
  preserves same_sends (attachment_parts env path).
Proof. frame_file. Qed.

Lemma others_untouched_attachment_parts p env path :
  preserves (others_untouched p) (attachment_parts env path).
Proof. frame_file. Qed.

Lemma history_extended_attachment_parts p env path :
  preserves (history_extended p) (attachment_parts env path).
Proof. frame_file. Qed.

#[local] Hint Resolve same_db_attachment_parts same_sends_attachment_parts
  others_untouched_attachment_parts history_extended_attachment_parts : preserves.

Lemma same_db_process_user_message env sender_phone input_data :
  preserves same_db (process_user_message env sender_phone input_data).
Proof. unfold process_user_message. repeat preserves_step. Qed.

Lemma same_sends_process_user_message env sender_phone input_data :
  preserves same_sends (process_user_message env sender_phone input_data).
Proof. unfold process_user_message. repeat preserves_step. Qed.

Lemma others_untouched_process_user_message env sender_phone input_data :
  preserves (others_untouched sender_phone)
    (process_user_message env sender_phone input_data).
Proof. unfold process_user_message. repeat preserves_step. Qed.

Lemma history_extended_process_user_message p env sender_phone input_data :
  preserves (history_extended p) (process_user_message env sender_phone input_data).
Proof. unfold process_user_message. repeat preserves_step. Qed.

(** ** The Dispatch Orchestrator, step by step *)

Lemma swallow_ok c w : fst (swallow c w) = Py.Ok tt.
Proof.
  unfold swallow, try_except. destruct (c w) as [[[]|e] w']; reflexivity.
Qed.

Lemma preserves_swallow R `{!PreOrder R} c : preserves R c -> preserves R (swallow c).
Proof.
  intros Hc. unfold swallow. apply preserves_try_except; [apply _ | exact Hc |].
  intros e. apply preserves_ret. apply _.
Qed.

(** The handler for a message that is not self-sent, as a case analysis
    on what the client did. *)
Lemma handle_steps env message_data w :
  Models.is_mine message_data = false ->
  let sender_phone := Models.sender_phone message_data in
  let w1 :=
    snd (swallow (save_message env sender_phone "user"
                    (Some (Models.id message_data)) (Models.type message_data)
                    (Models.body message_data) (Models.local_file_path message_data)
                    (Models.timestamp message_data)) w) in
  handle_incoming_message env message_data w
  = match process_user_message env sender_phone (prepare_llm_input message_data) w1 with
    | (Py.Ok reply, w2) =>
        (Py.Ok tt,
         if negb (Py.truthy (Some reply)) || String.eqb reply safety_guidelines_reply
         then w2
         else snd (swallow (send_text env sender_phone reply)
                     (snd (swallow (save_message env sender_phone "assistant" None
                                      "text" (Some reply) None (time_time env)) w2))))
    | (Py.Raise _, w2) =>
        (Py.Ok tt,
         snd (swallow (if Py.truthy (Some sender_phone)
                       then send_text env sender_phone internal_error_reply
                       else ret tt) w2))
    end.
Proof.
  intros Hmine. lazy zeta.
  unfold handle_incoming_message. rewrite Hmine. lazy beta iota zeta.
  unfold try_except at 1. unfold bind at 1.
  fold (swallow (save_message env (Models.sender_phone message_data) "user"
                   (Some (Models.id message_data)) (Models.type message_data)
                   (Models.body message_data) (Models.local_file_path message_data)
                   (Models.timestamp message_data))).
  pose proof (swallow_ok
                (save_message env (Models.sender_phone message_data) "user"
                   (Some (Models.id message_data)) (Models.type message_data)
                   (Models.body message_data) (Models.local_file_path message_data)
                   (Models.timestamp message_data)) w) as Hsave.
  destruct (swallow _ w) as [r w1]. simpl in Hsave. subst r. lazy beta iota zeta.
  unfold bind at 1. cbn [snd].
  destruct (process_user_message env (Models.sender_phone message_data)
              (prepare_llm_input message_data) w1) as [[reply|e] w2].
  - destruct (negb (Py.truthy (Some reply)) || String.eqb reply safety_guidelines_reply);
      [reflexivity|].
    unfold bind at 1.
    fold (swallow (save_message env (Models.sender_phone message_data) "assistant"
                     None "text" (Some reply) None (time_time env))).
    pose proof (swallow_ok
                  (save_message env (Models.sender_phone message_data) "assistant"
                     None "text" (Some reply) None (time_time env)) w2) as Hs2.
    destruct (swallow _ w2) as [r w3]. simpl in Hs2. subst r. lazy beta iota zeta.
    cbn [snd].
    fold (swallow (send_text env (Models.sender_phone message_data) reply)).
    pose proof (swallow_ok (send_text env (Models.sender_phone message_data) reply) w3)
      as Hs3.
    destruct (swallow _ w3) as [r w4]. simpl in Hs3. by subst r.
  - cbn [negb andb].
    fold (swallow (if Py.truthy (Some (Models.sender_phone message_data))
                   then send_text env (Models.sender_phone message_data)
                          internal_error_reply
                   else ret tt)).
    pose proof (swallow_ok
                  (if Py.truthy (Some (Models.sender_phone message_data))
                   then send_text env (Models.sender_phone message_data)
                          internal_error_reply
                   else ret tt) w2) as Hs.
    destruct (swallow _ w2) as [r w3]. simpl in Hs. by subst r.
Qed.

(** X3: [handle_incoming_message] returns normally whatever the message, the
    store, the model and the sender do: every exception is caught inside. *)
Theorem handle_never_raises env message_data w :
  fst (handle_incoming_message env message_data w) = Py.Ok tt.
Proof.
  destruct (Models.is_mine message_data) eqn:Hmine.
  - unfold handle_incoming_message, try_except. by rewrite Hmine.
  - rewrite (handle_steps env message_data w Hmine).
    by destruct (process_user_message _ _ _ _) as [[reply|e] w2].
Qed.

Lemma swallow_send_text env number message w :
  let w' := snd (swallow (send_text env number message) w) in
  w' = log (EvSendText number message) w.
Proof.
  unfold swallow, try_except, send_text, bind. simpl.
  by destruct (send_text_fails _ _ _).
Qed.

(** Saving a row either leaves the store as it was or appends exactly that
    row, numbered after the last one. *)
Lemma swallow_save_message env sp role mid ty txt path ts w :
  let w' := snd (swallow (save_message env sp role mid ty txt path ts) w) in
  let values :=
    {| DbManager.id := DbManager.last_id (db w) + 1;
       DbManager.sender_phone := sp; DbManager.role := role;
       DbManager.message_id := mid; DbManager.type := ty;
       DbManager.text_content := txt; DbManager.local_file_path := path;
       DbManager.timestamp := ts |} in
  chat_histories w' = chat_histories w
  /\ sends (trace w') = sends (trace w)
  /\ (db w' = db w
      \/ db w' = {| DbManager._connection := DbManager._connection (db w);
                    DbManager.messages := DbManager.messages (db w) ++ [values];
                    DbManager.last_id := DbManager.last_id (db w) + 1 |}).
Proof.
  unfold swallow, try_except, save_message. simpl.
  destruct (DbManager._connection (db w)) eqn:Hc; simpl; [|by auto].
  destruct (insert_fails _ _); simpl; rewrite sends_snoc, app_nil_r; auto.
Qed.

(** X4: one inbound message makes the handler call the sender at most
    once, and only with the number the message came from. *)
Theorem handle_sends_at_most_once env message_data w :
  let out := handle_incoming_message env message_data w in
  sends (trace (snd out)) = sends (trace w)
  \/ exists message,
       sends (trace (snd out))
       = sends (trace w) ++ [EvSendText (Models.sender_phone message_data) message].
Proof.
  simpl. destruct (Models.is_mine message_data) eqn:Hmine.
  { left. unfold handle_incoming_message, try_except. by rewrite Hmine. }
  rewrite (handle_steps env message_data w Hmine).
  set (sp := Models.sender_phone message_data).
  destruct (swallow_save_message env sp "user" (Some (Models.id message_data))
              (Models.type message_data) (Models.body message_data)
              (Models.local_file_path message_data)
              (Models.timestamp message_data) w) as (_ & Hs1 & _).
  set (w1 := snd (swallow _ w)) in *.
  pose proof (same_sends_process_user_message env sp
                (prepare_llm_input message_data) w1) as Hs2.
  unfold same_sends in Hs2.
  destruct (process_user_message env sp (prepare_llm_input message_data) w1)
    as [[reply|e] w2]; simpl in *.
  - destruct (negb _ || String.eqb reply safety_guidelines_reply).
    + left. congruence.
    + right. exists reply. rewrite swallow_send_text. simpl. rewrite sends_snoc. simpl.
      destruct (swallow_save_message env sp "assistant" None "text" (Some reply)
                  None (time_time env) w2) as (_ & Hs3 & _).
      congruence.
  - destruct sp as [|c number] eqn:Hsp; simpl.
    + left. congruence.
    + right. exists internal_error_reply.
      rewrite (swallow_send_text env (String c number) internal_error_reply w2).
      simpl. rewrite sends_snoc. simpl. congruence.
Qed.

(** X5: the handler only ever appends to the table: the rows that were
    there stay as they were and in place, at most two rows are added (the
    inbound turn, then the reply), both for the sender of the message and
    numbered after the last row, and the connection is left as it was. *)
Theorem handle_store_append_only env message_data w :
  let out := handle_incoming_message env message_data w in
  exists added,
    DbManager.messages (db (snd out)) = DbManager.messages (db w) ++ added
    /\ (length added <= 2)%nat
    /\ DbManager.last_id (db (snd out))
       = DbManager.last_id (db w) + Z.of_nat (length added)
    /\ DbManager._connection (db (snd out)) = DbManager._connection (db w)
    /\ Forall (fun r =>
                 DbManager.sender_phone r = Models.sender_phone message_data
                 /\ (DbManager.role r = "user" \/ DbManager.role r = "assistant")
                 /\ DbManager.last_id (db w) < DbManager.id r)
         added.
Proof.
  simpl. destruct (Models.is_mine message_data) eqn:Hmine.
  { exists []. unfold handle_incoming_message, try_except. rewrite Hmine. simpl.
    rewrite app_nil_r. repeat split; simpl; try done; lia. }
  rewrite (handle_steps env message_data w Hmine).
  set (sp := Models.sender_phone message_data).
  destruct (swallow_save_message env sp "user" (Some (Models.id message_data))
              (Models.type message_data) (Models.body message_data)
              (Models.local_file_path message_data)
              (Models.timestamp message_data) w) as (_ & _ & Hd1).
  set (w1 := snd (swallow _ w)) in *.
  pose proof (same_db_process_user_message env sp
                (prepare_llm_input message_data) w1) as Hd2.
  unfold same_db in Hd2.
  assert (Hstart : exists first,
             DbManager.messages (db w1) = DbManager.messages (db w) ++ first
             /\ (length first <= 1)%nat
             /\ DbManager.last_id (db w1)
                = DbManager.last_id (db w) + Z.of_nat (length first)
             /\ DbManager._connection (db w1) = DbManager._connection (db w)
             /\ Forall (fun r =>
                          DbManager.sender_phone r = sp
                          /\ (DbManager.role r = "user" \/ DbManager.role r = "assistant")
                          /\ DbManager.last_id (db w) < DbManager.id r)
                  first).
  { destruct Hd1 as [-> | ->].
    - exists []. rewrite app_nil_r. simpl. repeat split; simpl; try done; lia.
    - eexists [_]. simpl. repeat split; simpl; try lia; try done.
      constructor; [|constructor]. simpl. repeat split; [by left | lia]. }
  destruct Hstart as (first & Hm1 & Hl1 & Hi1 & Hc1 & Hf1).
  destruct (process_user_message env sp (prepare_llm_input message_data) w1)
    as [[reply|e] w2]; cbn [fst snd] in *.
  - destruct (negb _ || String.eqb reply safety_guidelines_reply).
    + exists first. rewrite Hd2. repeat split; try done. lia.
    + rewrite swallow_send_text. simpl.
      destruct (swallow_save_message env sp "assistant" None "text" (Some reply)
                  None (time_time env) w2) as (_ & _ & [-> | ->]).
      * exists first. rewrite Hd2. repeat split; try done. lia.
      * eexists (first ++ [_]). simpl. rewrite Hd2, Hm1, Hi1, Hc1, <- app_assoc.
        split; [done|]. split; [rewrite length_app; simpl; lia|].
        split; [rewrite length_app; simpl; lia|]. split; [done|].
        apply Forall_app. split; [done|].
        constructor; [|constructor]. simpl. repeat split; [by right | lia].
  - exists first.
    assert (Hd3 : db (snd (swallow (if Py.truthy (Some sp)
                                    then send_text env sp internal_error_reply
                                    else ret tt) w2)) = db w2).
    { destruct (Py.truthy (Some sp)); [by rewrite swallow_send_text | done]. }
    rewrite Hd3, Hd2. repeat split; try done. lia.
Qed.

(** X6: [process_user_message] leaves persistence and delivery to its
    caller: it never changes the store and never calls the sender. *)
Theorem process_user_message_no_store_no_send env sender_phone input_data w :
  let out := process_user_message env sender_phone input_data w in
  db (snd out) = db w /\ sends (trace (snd out)) = sends (trace w).
Proof.
  split.
  - apply same_db_process_user_message.
  - apply same_sends_process_user_message.
Qed.

(** ** The session cache over the life of the process *)

Lemma others_untouched_save_message p env sp role mid ty txt path ts :
  preserves (others_untouched p) (save_message env sp role mid ty txt path ts).
Proof. intros w. apply same_cache_others, same_cache_save_message. Qed.

Lemma others_untouched_send_text p env number message :
  preserves (others_untouched p) (send_text env number message).
Proof. intros w. apply same_cache_others, same_cache_send_text. Qed.

Lemma history_extended_save_message p env sp role mid ty txt path ts :
  preserves (history_extended p) (save_message env sp role mid ty txt path ts).
Proof. intros w. apply same_cache_extended, same_cache_save_message. Qed.

Lemma history_extended_send_text p env number message :
  preserves (history_extended p) (send_text env number message).
Proof. intros w. apply same_cache_extended, same_cache_send_text. Qed.

#[local] Hint Resolve others_untouched_save_message others_untouched_send_text
  history_extended_save_message history_extended_send_text
  others_untouched_process_user_message history_extended_process_user_message
  : preserves.

Lemma others_untouched_handle env message_data :
  preserves (others_untouched (Models.sender_phone message_data))
    (handle_incoming_message env message_data).
Proof. unfold handle_incoming_message. repeat preserves_step. Qed.

Lemma history_extended_handle p env message_data :
  preserves (history_extended p) (handle_incoming_message env message_data).
Proof. unfold handle_incoming_message. repeat preserves_step. Qed.

(** X7: handling a message of one conversation leaves the cached history
    of every other conversation exactly as it was. *)
Theorem handle_leaves_other_conversations env message_data w other :
  other <> Models.sender_phone message_data ->
  chat_histories (snd (handle_incoming_message env message_data w)) !! other
  = chat_histories w !! other.
Proof. intros Hne. by apply others_untouched_handle. Qed.

Lemma handle_leaves_other_conversations_witness :
  chat_histories
    (snd (handle_incoming_message Sample.env
            (Sample.message "15551234567" false (Some "Hello") None)
            (Sample.world true Sample.table {[ "4477" := [Sample.hello] ]})))
    !! "4477"
  = Some [Sample.hello].
Proof.
  refine (handle_leaves_other_conversations Sample.env
            (Sample.message "15551234567" false (Some "Hello") None)
            (Sample.world true Sample.table {[ "4477" := [Sample.hello] ]}) "4477" _).
  discriminate.
Defined.

(** X8: as long as deliveries are handled one after the other, each
    handler returning before the next starts, a cached history is never
    dropped, trimmed or rewritten: whatever messages are handled
    afterwards, the cache still holds it, with turns added at its end at
    most.  (For deliveries that overlap this does not hold: a call that made
    its [not in] test before the entry existed assigns what it read when it
    is resumed.) *)
Theorem cached_history_only_grows inbox : forall w sender_phone history,
  chat_histories w !! sender_phone = Some history ->
  exists more,
    chat_histories (run_messages inbox w) !! sender_phone = Some (history ++ more).
Proof.
  unfold run_messages.
  induction inbox as [|[env md] inbox IH]; intros w sp history Hh; simpl.
  - exists []. by rewrite app_nil_r.
  - destruct (history_extended_handle sp env md w history Hh) as [m1 H1].
    destruct (IH _ sp _ H1) as [m2 H2].
    exists (m1 ++ m2). by rewrite app_assoc.
Qed.

Lemma cached_history_only_grows_witness :
  exists more,
    chat_histories
      (run_messages
         [ (Sample.env, Sample.message "15551234567" false (Some "Hello") None);
           (Sample.env_with (Some Sample.blocked_response) (fun _ => false),
            Sample.message "15551234567" false (Some "Again") None) ]
         (Sample.world true [] {[ "15551234567" := [Sample.hello] ]}))
      !! "15551234567"
    = Some ([Sample.hello] ++ more).
Proof.
  apply (cached_history_only_grows
           [ (Sample.env, Sample.message "15551234567" false (Some "Hello") None);
             (Sample.env_with (Some Sample.blocked_response) (fun _ => false),
              Sample.message "15551234567" false (Some "Again") None) ]
           (Sample.world true [] {[ "15551234567" := [Sample.hello] ]})
           "15551234567" [Sample.hello]).
  reflexivity.
Defined.

(** ** Uploads *)

(** X9: [_process_file_for_api] uploads at most once, and only a file that
    exists, whose MIME type is determined and supported, and whose size is
    above the 4 MiB threshold; in every other case it makes no call to the
    upload service at all. *)
Theorem upload_only_large_supported_files env path w :
  let out := _process_file_for_api env path w in
  trace (snd out) = trace w
  \/ exists mime_type file_size,
       trace (snd out) = trace w ++ [EvUpload path mime_type]
       /\ path_exists env path = true
       /\ determine_mime_type env path = Some mime_type
       /\ supported mime_type = true
       /\ path_getsize env path = Some file_size
       /\ 4194304 < file_size.
Proof.
  simpl. unfold _process_file_for_api.
  destruct (path_exists env path) eqn:Hex; simpl; [|by left].
  unfold try_except, bind, lift.
  pose proof (determined_or_not env path) as Hm.
  destruct (_get_supported_mime_type env path) as [m|e]; simpl;
    [|destruct e; by left].
  destruct Hm as [Hdet Hsup].
  destruct (path_getsize env path) as [n|] eqn:Hsize; simpl; [|by left].
  destruct (n <=? INLINE_FILE_SIZE_THRESHOLD_BYTES) eqn:Hle.
  - left. unfold _prepare_inline_file_part. by destruct (read_bytes env path).
  - right. exists m, n. apply Z.leb_gt in Hle. rewrite threshold_bytes in Hle.
    split; [|by repeat split].
    unfold _upload_file, bind. simpl. by destruct (upload_file env path m).
Qed.

(** ** What the user gets when the model has answered *)

(** A save whose failure is swallowed: the INSERT is issued when the
    connection is up, and the row is in the table when the engine took
    it. *)
Lemma swallow_save_message_exact env sp role mid ty txt path ts w :
  let values :=
    {| DbManager.id := DbManager.last_id (db w) + 1;
       DbManager.sender_phone := sp; DbManager.role := role;
       DbManager.message_id := mid; DbManager.type := ty;
       DbManager.text_content := txt; DbManager.local_file_path := path;
       DbManager.timestamp := ts |} in
  let taken := DbManager._connection (db w) && negb (insert_fails env values) in
  let w' := snd (swallow (save_message env sp role mid ty txt path ts) w) in
  trace w' = trace w ++ (if DbManager._connection (db w) then [EvInsert values] else [])
  /\ DbManager._connection (db w') = DbManager._connection (db w)
  /\ DbManager.messages (db w')
     = DbManager.messages (db w) ++ (if taken then [values] else [])
  /\ DbManager.last_id (db w') = DbManager.last_id (db w) + (if taken then 1 else 0).
Proof.
  unfold swallow, try_except, save_message. simpl.
  destruct (DbManager._connection (db w)) eqn:Hc; simpl.
  - destruct (insert_fails _ _); simpl; rewrite ?app_nil_r, ?Z.add_0_r, ?Hc;
      repeat split; done.
  - rewrite !app_nil_r, Z.add_0_r. repeat split; done.
Qed.

(** C1, as the code has it: once the model has answered, the text that
    [process_user_message] returns is the trimmed answer or one of the
    fixed sentences, and [handle_incoming_message] keeps silent only when
    that text is empty or is the safety-guidelines sentence.  Otherwise it
    issues the INSERT of the text as the assistant's turn when the
    connection is up, the row is in the table when the engine took it, and
    the text is sent; the rows stored by the call are the inbound row and
    that row and no other.  The sentence returned for an answer that cannot
    be read or whose text is null or blank is never empty and never the
    safety-guidelines sentence, so such an answer is stored and sent. *)
Theorem reply_sent_unless_empty_or_guidelines env message_data file_parts response w :
  Models.is_mine message_data = false ->
  (forall w', exists w'',
      attachment_parts env (Models.local_file_path message_data) w'
      = (Py.Ok file_parts, w'')) ->
  with_text_part (Models.body message_data) file_parts <> [] ->
  (forall messages_to_send,
      generate_content_async env messages_to_send = Some response) ->
  let out := handle_incoming_message env message_data w in
  let sender_phone := Models.sender_phone message_data in
  let connected := DbManager._connection (db w) in
  let reply :=
    match read_response response with
    | Py.Ok (Some t, _) =>
        if String.eqb (str_strip env t) ""
        then "Sorry, I couldn't generate a meaningful response for that."
        else str_strip env t
    | Py.Ok (None, _) => "Sorry, I couldn't generate a meaningful response for that."
    | Py.Raise _ => unreadable_response_message response
    end in
  let sent := Py.truthy (Some reply) && negb (String.eqb reply safety_guidelines_reply) in
  let inbound :=
    {| DbManager.id := DbManager.last_id (db w) + 1;
       DbManager.sender_phone := sender_phone; DbManager.role := "user";
       DbManager.message_id := Some (Models.id message_data);
       DbManager.type := Models.type message_data;
       DbManager.text_content := Models.body message_data;
       DbManager.local_file_path := Models.local_file_path message_data;
       DbManager.timestamp := Models.timestamp message_data |} in
  let inbound_taken := connected && negb (insert_fails env inbound) in
  let assistant :=
    {| DbManager.id := DbManager.last_id (db w) + (if inbound_taken then 1 else 0) + 1;
       DbManager.sender_phone := sender_phone; DbManager.role := "assistant";
       DbManager.message_id := None; DbManager.type := "text";
       DbManager.text_content := Some reply; DbManager.local_file_path := None;
       DbManager.timestamp := time_time env |} in
  fst out = Py.Ok tt
  /\ replies (trace (snd out))
     = replies (trace w)
       ++ (if sent
           then (if connected then [EvInsert assistant] else [])
                ++ [EvSendText sender_phone reply]
           else [])
  /\ DbManager.messages (db (snd out))
     = DbManager.messages (db w)
       ++ (if inbound_taken then [inbound] else [])
       ++ (if sent && connected && negb (insert_fails env assistant)
           then [assistant] else [])
  /\ ((exists e, read_response response = Py.Raise e)
      \/ (exists t model_turn,
            read_response response = Py.Ok (t, model_turn)
            /\ (t = None \/ exists s, t = Some s /\ str_strip env s = "")) ->
      sent = true).
Proof.
  intros Hmine Hatt Hparts Hgen out sp connected reply sent inbound inbound_taken
    assistant.
  subst out. rewrite (handle_steps env message_data w Hmine). fold sp.
  destruct (swallow_save_message_exact env sp "user" (Some (Models.id message_data))
              (Models.type message_data) (Models.body message_data)
              (Models.local_file_path message_data) (Models.timestamp message_data) w)
    as (Ht1 & Hc1 & Hm1 & Hl1).
  fold inbound connected in Ht1, Hc1, Hm1, Hl1. fold inbound_taken in Hm1, Hl1.
  set (w1 := snd (swallow _ w)) in *.
  destruct (get_or_create_returns env sp w1) as [history Hhist].
  destruct (Hatt (snd (_get_or_create_chat_history env sp w1))) as [w_f Hf].
  pose proof (process_message_answered env sp (prepare_llm_input message_data)
                history file_parts w_f response w1 Hhist Hf Hparts (Hgen _)) as Hpum.
  pose proof (quiet_process_user_message env sp (prepare_llm_input message_data) w1)
    as Hq2.
  pose proof (same_db_process_user_message env sp (prepare_llm_input message_data) w1)
    as Hd2.
  assert (Hreply : fst (process_user_message env sp (prepare_llm_input message_data) w1)
                   = Py.Ok reply).
  { rewrite Hpum. subst reply.
    destruct (read_response response) as [[[t|] c]|e]; done. }
  destruct (process_user_message env sp (prepare_llm_input message_data) w1)
    as [r w2] eqn:E.
  cbn [fst snd] in Hreply, Hq2, Hd2. subst r. unfold quiet in Hq2. unfold same_db in Hd2.
  assert (Hr1 : replies (trace w1) = replies (trace w)).
  { rewrite Ht1. destruct connected; [|by rewrite app_nil_r].
    by rewrite replies_snoc, app_nil_r. }
  assert (Hsent : negb (Py.truthy (Some reply))
                  || String.eqb reply safety_guidelines_reply = negb sent).
  { subst sent. by destruct (Py.truthy (Some reply)), (String.eqb reply _). }
  rewrite Hsent. cbn [fst snd].
  split; [done|].
  assert (Hbad : (exists e, read_response response = Py.Raise e)
                 \/ (exists t model_turn,
                       read_response response = Py.Ok (t, model_turn)
                       /\ (t = None \/ exists s, t = Some s /\ str_strip env s = "")) ->
                 sent = true).
  { intros Hbad. subst sent reply.
    destruct Hbad as [[e ->] | (t & c & -> & Ht)].
    - destruct (unreadable_response_message_passes response) as [Hne1 Hne2].
      apply String.eqb_neq in Hne2. rewrite Hne2.
      by destruct (unreadable_response_message response).
    - destruct Ht as [-> | (s & -> & ->)]; reflexivity. }
  destruct sent; cbn [negb andb].
  - destruct (swallow_save_message_exact env sp "assistant" None "text" (Some reply)
                None (time_time env) w2) as (Ht3 & Hc3 & Hm3 & Hl3).
    rewrite Hd2, Hl1, Hc1 in Ht3, Hm3. fold assistant connected in Ht3, Hm3.
    set (w3 := snd (swallow _ w2)) in *.
    rewrite swallow_send_text. cbn [log trace db].
    split; [|split; [|done]].
    + rewrite replies_snoc, Ht3. cbn [is_reply is_send orb].
      destruct connected.
      * rewrite replies_snoc. cbn [is_reply is_send is_assistant_insert orb].
        cbn [assistant DbManager.role]. rewrite String.eqb_refl.
        rewrite Hq2, Hr1. by rewrite <- app_assoc.
      * rewrite app_nil_r, Hq2, Hr1. reflexivity.
    + rewrite Hm3, Hm1. by rewrite <- app_assoc.
  - split; [|split; [|done]].
    + rewrite app_nil_r. congruence.
    + rewrite app_nil_r, Hd2. exact Hm1.
Qed.

(** The answer without candidates of the sample model is stored and
    reaches the user. *)
Lemma reply_sent_unless_empty_or_guidelines_witness :
  let out :=
    handle_incoming_message
      (Sample.env_with (Some Sample.empty_response) (fun _ => false))
      (Sample.message "15551234567" false (Some "Hello") None) Sample.fresh in
  let reply := "Sorry, I couldn't generate a response for that input." in
  let inbound :=
    {| DbManager.id := 1; DbManager.sender_phone := "15551234567";
       DbManager.role := "user"; DbManager.message_id := Some "wamid.1";
       DbManager.type := "text"; DbManager.text_content := Some "Hello";
       DbManager.local_file_path := None; DbManager.timestamp := 1700000000 |} in
  let assistant :=
    {| DbManager.id := 2; DbManager.sender_phone := "15551234567";
       DbManager.role := "assistant"; DbManager.message_id := None;
       DbManager.type := "text"; DbManager.text_content := Some reply;
       DbManager.local_file_path := None; DbManager.timestamp := 1700000100 |} in
  fst out = Py.Ok tt
  /\ replies (trace (snd out)) = [EvInsert assistant; EvSendText "15551234567" reply]
  /\ DbManager.messages (db (snd out)) = [inbound; assistant].
Proof.
  destruct (reply_sent_unless_empty_or_guidelines
              (Sample.env_with (Some Sample.empty_response) (fun _ => false))
              (Sample.message "15551234567" false (Some "Hello") None)
              [] Sample.empty_response Sample.fresh
              eq_refl
              (fun w' => ex_intro _ w' eq_refl)
              ltac:(discriminate)
              (fun _ => eq_refl)) as (Hok & Hreplies & Hrows & _).
  exact (conj Hok (conj Hreplies Hrows)).
Defined.

(** ** Messages without content, and a model that cannot be reached *)

Lemma swallow_save_trace env sp role mid ty txt path ts w :
  let w' := snd (swallow (save_message env sp role mid ty txt path ts) w) in
  trace w' = trace w \/ exists values, trace w' = trace w ++ [EvInsert values].
Proof.
  unfold swallow, try_except, save_message. simpl.
  destruct (negb _); simpl; [by left|].
  destruct (insert_fails _ _); simpl; right; by eexists.
Qed.

(** The handler on a message that carries nothing to process. *)
Lemma handle_no_content env message_data w :
  Models.is_mine message_data = false ->
  (Models.body message_data = None \/ Models.body message_data = Some "") ->
  (Models.local_file_path message_data = None
   \/ Models.local_file_path message_data = Some "") ->
  let out := handle_incoming_message env message_data w in
  sends (trace (snd out))
  = sends (trace w)
    ++ [EvSendText (Models.sender_phone message_data)
          "Please provide a message or a file to process."]
  /\ List.filter is_generate (trace (snd out)) = List.filter is_generate (trace w)
  /\ chat_histories (snd out) = chat_histories w.
Proof.
  intros Hmine Hbody Hpath. apply truthy_false in Hbody, Hpath. simpl.
  rewrite (handle_steps env message_data w Hmine).
  set (sp := Models.sender_phone message_data).
  destruct (swallow_save_message env sp "user" (Some (Models.id message_data))
              (Models.type message_data) (Models.body message_data)
              (Models.local_file_path message_data)
              (Models.timestamp message_data) w) as (Hc1 & Hs1 & _).
  pose proof (swallow_save_trace env sp "user" (Some (Models.id message_data))
                (Models.type message_data) (Models.body message_data)
                (Models.local_file_path message_data)
                (Models.timestamp message_data) w) as Ht1.
  set (w1 := snd (swallow _ w)) in *.
  unfold process_user_message. simpl. rewrite Hbody, Hpath. simpl.
  destruct (swallow_save_message env sp "assistant" None "text"
              (Some "Please provide a message or a file to process.")
              None (time_time env) w1) as (Hc2 & Hs2 & _).
  pose proof (swallow_save_trace env sp "assistant" None "text"
                (Some "Please provide a message or a file to process.")
                None (time_time env) w1) as Ht2.
  set (w2 := snd (swallow _ w1)) in *.
  rewrite swallow_send_text. simpl. rewrite sends_snoc, filter_app. simpl.
  split; [congruence|]. split; [|congruence].
  rewrite app_nil_r.
  simpl in Ht1, Ht2.
  destruct Ht2 as [-> | [v2 ->]], Ht1 as [-> | [v1 ->]];
    rewrite ?filter_app; simpl; by rewrite ?app_nil_r.
Qed.

(** X10: a message with neither text nor attachment is answered with the
    fixed prompt-for-input sentence: it is sent to the sender, the model is
    not called and the session cache is not touched. *)
Theorem handle_empty_message env message_data w :
  Models.is_mine message_data = false ->
  (Models.body message_data = None \/ Models.body message_data = Some "") ->
  (Models.local_file_path message_data = None
   \/ Models.local_file_path message_data = Some "") ->
  let out := handle_incoming_message env message_data w in
  sends (trace (snd out))
  = sends (trace w)
    ++ [EvSendText (Models.sender_phone message_data)
          "Please provide a message or a file to process."]
  /\ List.filter is_generate (trace (snd out)) = List.filter is_generate (trace w)
  /\ chat_histories (snd out) = chat_histories w.
Proof. exact (handle_no_content env message_data w). Qed.

Lemma handle_empty_message_witness :
  let out :=
    handle_incoming_message Sample.env
      (Sample.message "15551234567" false None None)
      (Sample.world true Sample.table ∅) in
  sends (trace (snd out))
  = sends (trace (Sample.world true Sample.table ∅))
    ++ [EvSendText "15551234567" "Please provide a message or a file to process."]
  /\ List.filter is_generate (trace (snd out))
     = List.filter is_generate (trace (Sample.world true Sample.table ∅))
  /\ chat_histories (snd out) = chat_histories (Sample.world true Sample.table ∅).
Proof.
  apply (handle_empty_message Sample.env
           (Sample.message "15551234567" false None None)
           (Sample.world true Sample.table ∅)).
  - reflexivity.
  - by left.
  - by left.
Defined.

(** Once the history is fetched and the attachment processed, the request
    is logged before anything else can go wrong, and no later step removes
    it from the log. *)
Lemma process_message_reaches_model env sender_phone input_data history file_parts w_f w :
  fst (_get_or_create_chat_history env sender_phone w) = Py.Ok history ->
  attachment_parts env (in_local_file_path input_data)
    (snd (_get_or_create_chat_history env sender_phone w))
  = (Py.Ok file_parts, w_f) ->
  let input_parts := with_text_part (in_text_content input_data) file_parts in
  input_parts <> [] ->
  let user_turn := {| Genai.role := "user"; Genai.parts := input_parts |} in
  let out := process_user_message env sender_phone input_data w in
  trace (snd out) = trace w_f ++ [EvGenerate (history ++ [user_turn])]
  /\ (generate_content_async env (history ++ [user_turn]) = None ->
      out = (Py.Raise
               (Py.HTTPException 500
                  "An unexpected error occurred while processing your request."),
             log (EvGenerate (history ++ [user_turn])) w_f)).
Proof.
  intros Hh Hatt input_parts Hparts user_turn. simpl.
  destruct (generate_content_async env (history ++ [user_turn])) as [response|] eqn:Hgen.
  - rewrite (process_message_answered env sender_phone input_data history file_parts
               w_f response w Hh Hatt Hparts Hgen).
    split; [|done]. by destruct (read_response response) as [[t c]|e].
  - assert (Hsome : negb (Py.truthy (in_text_content input_data))
                    && negb (Py.truthy (in_local_file_path input_data)) = false).
    { destruct (Py.truthy (in_text_content input_data)) eqn:Ht; [done|].
      destruct (Py.truthy (in_local_file_path input_data)) eqn:Hp; [done|].
      exfalso. apply Hparts. subst input_parts.
      unfold with_text_part. rewrite Ht.
      unfold attachment_parts in Hatt. rewrite Hp in Hatt. by injection Hatt as <- _. }
    assert (Hout : process_user_message env sender_phone input_data w
                   = (Py.Raise
                        (Py.HTTPException 500
                           "An unexpected error occurred while processing your request."),
                      log (EvGenerate (history ++ [user_turn])) w_f)).
    { unfold process_user_message. rewrite Hsome.
      unfold try_except, bind at 1.
      destruct (_get_or_create_chat_history env sender_phone w) as [r w0].
      simpl in Hh, Hatt. subst r.
      unfold bind at 1. rewrite Hatt.
      fold input_parts. subst user_turn.
      destruct input_parts as [|part parts] eqn:Hip; [done|].
      unfold bind at 1. simpl.
      unfold bind at 1. unfold lift. by rewrite Hgen. }
    rewrite Hout. by split.
Qed.

(** X11: when the call to the model fails, [process_user_message] raises a
    500, the session history is not appended to, and the handler sends the
    generic apology to a sender with a non-empty number and stores no
    assistant turn. *)
Theorem model_failure_apology env message_data file_parts w :
  Models.is_mine message_data = false ->
  (forall w', exists w'',
      attachment_parts env (Models.local_file_path message_data) w'
      = (Py.Ok file_parts, w'')) ->
  with_text_part (Models.body message_data) file_parts <> [] ->
  (forall messages_to_send, generate_content_async env messages_to_send = None) ->
  let out := handle_incoming_message env message_data w in
  replies (trace (snd out))
  = replies (trace w)
    ++ match Models.sender_phone message_data with
       | "" => []
       | number => [EvSendText number internal_error_reply]
       end
  /\ forall history,
       chat_histories w !! Models.sender_phone message_data = Some history ->
       chat_histories (snd out) !! Models.sender_phone message_data = Some history.
Proof.
  intros Hmine Hatt Hparts Hgen. simpl.
  rewrite (handle_steps env message_data w Hmine).
  set (sp := Models.sender_phone message_data).
  destruct (swallow_save_message env sp "user" (Some (Models.id message_data))
              (Models.type message_data) (Models.body message_data)
              (Models.local_file_path message_data)
              (Models.timestamp message_data) w) as (Hc1 & _ & _).
  assert (Hq1 : preserves quiet
                  (swallow (save_message env sp "user" (Some (Models.id message_data))
                              (Models.type message_data) (Models.body message_data)
                              (Models.local_file_path message_data)
                              (Models.timestamp message_data))))
    by (apply preserves_swallow; [apply _ | by apply quiet_save_message]).
  specialize (Hq1 w).
  set (w1 := snd (swallow _ w)) in *.
  destruct (get_or_create_returns env sp w1) as [history Hhist].
  destruct (Hatt (snd (_get_or_create_chat_history env sp w1))) as [w_f Hf].
  destruct (process_message_reaches_model env sp (prepare_llm_input message_data)
              history file_parts w_f w1 Hhist Hf Hparts) as [_ Hfail].
  rewrite (Hfail (Hgen _)).
  pose proof (quiet_get_or_create env sp w1) as Hq2.
  pose proof (quiet_attachment_parts env (Models.local_file_path message_data)
                (snd (_get_or_create_chat_history env sp w1))) as Hq3.
  pose proof (same_cache_attachment_parts env (Models.local_file_path message_data)
                (snd (_get_or_create_chat_history env sp w1))) as Hc3.
  simpl in Hf. rewrite Hf in Hq3, Hc3. unfold quiet, same_cache in *. simpl in Hq3, Hc3.
  destruct (get_or_create_frame env sp w1) as (_ & _ & _ & Hc2).
  split.
  - assert (Hrw : replies (trace (log (EvGenerate
                     (history ++ [ {| Genai.role := "user";
                                      Genai.parts := with_text_part
                                        (in_text_content (prepare_llm_input message_data))
                                        file_parts |} ])) w_f))
                  = replies (trace w)).
    { simpl. rewrite replies_snoc. simpl. rewrite app_nil_r. congruence. }
    destruct sp as [|c number]; simpl.
    + rewrite app_nil_r. exact Hrw.
    + rewrite (swallow_send_text env (String c number) internal_error_reply).
      simpl. rewrite replies_snoc. simpl. f_equal. exact Hrw.
  - intros h Hh.
    assert (Hcache : chat_histories w_f = chat_histories w).
    { rewrite Hc3, (Hc2 h); [done|]. by rewrite Hc1. }
    destruct sp as [|c number]; simpl.
    + by rewrite Hcache.
    + rewrite (swallow_send_text env (String c number) internal_error_reply).
      simpl. by rewrite Hcache.
Qed.

Lemma model_failure_apology_witness :
  let out :=
    handle_incoming_message (Sample.env_with None (fun _ => false))
      (Sample.message "15551234567" false (Some "Hello") None)
      (Sample.world true [] {[ "15551234567" := [Sample.hello] ]}) in
  replies (trace (snd out))
  = replies (trace (Sample.world true [] {[ "15551234567" := [Sample.hello] ]}))
    ++ [EvSendText "15551234567" internal_error_reply]
  /\ forall history,
       chat_histories (Sample.world true [] {[ "15551234567" := [Sample.hello] ]})
         !! "15551234567" = Some history ->
       chat_histories (snd out) !! "15551234567" = Some history.
Proof.
  refine (model_failure_apology (Sample.env_with None (fun _ => false))
            (Sample.message "15551234567" false (Some "Hello") None) []
            (Sample.world true [] {[ "15551234567" := [Sample.hello] ]}) _ _ _ _).
  - reflexivity.
  - intros w'. exists w'. reflexivity.
  - discriminate.
  - reflexivity.
Defined.

(** ** More on the History Store Adapter *)

Lemma where_sender_phone_app sp l1 l2 :
  where_sender_phone sp (l1 ++ l2) = where_sender_phone sp l1 ++ where_sender_phone sp l2.
Proof. unfold where_sender_phone. apply filter_app. Qed.

Lemma sql_limit_all limit rows :
  limit < 0 \/ Z.of_nat (length rows) <= limit -> sql_limit limit rows = rows.
Proof.
  intros H. unfold sql_limit. destruct (limit <? 0) eqn:E; [done|].
  apply Z.ltb_ge in E. apply firstn_all2. lia.
Qed.

Lemma sql_limit_incl limit rows r : In r (sql_limit limit rows) -> In r rows.
Proof.
  unfold sql_limit. destruct (limit <? 0); [done|].
  intros H. rewrite <- (firstn_skipn (Z.to_nat limit) rows).
  apply in_or_app. by left.
Qed.

Lemma sql_limit_bound limit rows :
  0 <= limit -> Z.of_nat (length (sql_limit limit rows)) <= limit.
Proof.
  intros H. unfold sql_limit. destruct (limit <? 0) eqn:E; [apply Z.ltb_lt in E; lia|].
  rewrite length_firstn. lia.
Qed.

(** X12: whatever the table holds, [get_history] hands out only rows that
    are stored for the conversation asked for, never more than a
    non-negative [limit] of them, oldest first. *)
Theorem get_history_bounded_and_own_rows env w sender_phone limit rows :
  order_by_spec env ->
  fst (get_history env sender_phone limit w) = Py.Ok rows ->
  (0 <= limit -> Z.of_nat (length rows) <= limit)
  /\ (forall r, In r rows ->
        In r (DbManager.messages (db w)) /\ DbManager.sender_phone r = sender_phone)
  /\ StronglySorted (fun a b => DbManager.timestamp a <= DbManager.timestamp b) rows.
Proof.
  intros [Hperm Hsorted] Hget.
  unfold get_history in Hget.
  destruct (negb _); [done|]. destruct (select_fails _ _); [done|].
  assert (Hrows : rows = select_sql env sender_phone limit (DbManager.messages (db w))).
  { destruct (select_sql _ _ _ _) eqn:E; simpl in Hget; congruence. }
  clear Hget. subst rows. unfold select_sql.
  split; [|split].
  - intros Hl. rewrite (Permutation_length (Hperm _ _ _)). by apply sql_limit_bound.
  - intros r Hr.
    apply (Permutation_in _ (Hperm _ _ _)) in Hr.
    apply sql_limit_incl in Hr.
    apply (Permutation_in _ (Hperm _ _ _)) in Hr.
    apply filter_In in Hr. destruct Hr as [Hin Heq].
    split; [done | by apply String.eqb_eq].
  - apply (Hsorted DbManager.timestamp false).
Qed.

Lemma get_history_bounded_and_own_rows_witness :
  (0 <= 2 -> Z.of_nat (length [Sample.row 5 "15551234567" "assistant" "text" (Some "") 104;
                               Sample.row 6 "15551234567" "user" "text" (Some "six") 105])
             <= 2)
  /\ (forall r,
        In r [Sample.row 5 "15551234567" "assistant" "text" (Some "") 104;
              Sample.row 6 "15551234567" "user" "text" (Some "six") 105] ->
        In r (DbManager.messages (db (Sample.world true Sample.table ∅)))
        /\ DbManager.sender_phone r = "15551234567")
  /\ StronglySorted (fun a b => DbManager.timestamp a <= DbManager.timestamp b)
       [Sample.row 5 "15551234567" "assistant" "text" (Some "") 104;
        Sample.row 6 "15551234567" "user" "text" (Some "six") 105].
Proof.
  apply (get_history_bounded_and_own_rows Sample.env
           (Sample.world true Sample.table ∅) "15551234567" 2).
  - apply sample_order_by_spec.
  - reflexivity.
Defined.

Lemma select_sql_all env sender_phone limit table :
  order_by_spec env ->
  limit < 0 \/ Z.of_nat (length (where_sender_phone sender_phone table)) <= limit ->
  Permutation (select_sql env sender_phone limit table)
    (where_sender_phone sender_phone table)
  /\ StronglySorted (fun a b => DbManager.timestamp a <= DbManager.timestamp b)
       (select_sql env sender_phone limit table).
Proof.
  intros [Hperm Hsorted] Hl. unfold select_sql.
  rewrite sql_limit_all
    by (rewrite (Permutation_length (Hperm _ _ _)); exact Hl).
  split.
  - rewrite Hperm. apply Hperm.
  - apply (Hsorted DbManager.timestamp false).
Qed.

(** X13: when the conversation has no more rows than [limit] asks for (or
    [limit] is negative, which SQLite reads as no limit), [get_history]
    returns every row of the conversation, each once, oldest first. *)
Theorem get_history_all_when_few env w sender_phone limit :
  order_by_spec env ->
  DbManager._connection (db w) = true ->
  select_fails env sender_phone = false ->
  limit < 0
  \/ Z.of_nat (length (where_sender_phone sender_phone (DbManager.messages (db w))))
     <= limit ->
  exists rows,
    fst (get_history env sender_phone limit w) = Py.Ok rows
    /\ Permutation rows (where_sender_phone sender_phone (DbManager.messages (db w)))
    /\ StronglySorted (fun a b => DbManager.timestamp a <= DbManager.timestamp b) rows.
Proof.
  intros Hspec Hc Hs Hl.
  rewrite (get_history_connected env w sender_phone limit Hc Hs). simpl.
  eexists. split; [reflexivity|]. by apply select_sql_all.
Qed.

Lemma get_history_all_when_few_witness :
  exists rows,
    fst (get_history Sample.env "15551234567" 20 (Sample.world true Sample.table ∅))
    = Py.Ok rows
    /\ Permutation rows (where_sender_phone "15551234567" Sample.table)
    /\ StronglySorted (fun a b => DbManager.timestamp a <= DbManager.timestamp b) rows.
Proof.
  apply (get_history_all_when_few Sample.env (Sample.world true Sample.table ∅)
           "15551234567" 20).
  - apply sample_order_by_spec.
  - reflexivity.
  - reflexivity.
  - right. vm_compute. discriminate.
Defined.

(** X14: round trip through the store: a row saved with [save_message] comes
    back from [get_history] for its conversation with every field as it
    was given, together with the rows the conversation already had, as long
    as the conversation then has no more rows than [limit]. *)
Theorem save_then_get_history env w sender_phone role message_id type text_content
    local_file_path timestamp limit :
  order_by_spec env ->
  let values :=
    {| DbManager.id := DbManager.last_id (db w) + 1;
       DbManager.sender_phone := sender_phone; DbManager.role := role;
       DbManager.message_id := message_id; DbManager.type := type;
       DbManager.text_content := text_content;
       DbManager.local_file_path := local_file_path;
       DbManager.timestamp := timestamp |} in
  DbManager._connection (db w) = true ->
  insert_fails env values = false ->
  select_fails env sender_phone = false ->
  limit < 0
  \/ Z.of_nat (length (where_sender_phone sender_phone (DbManager.messages (db w)))) + 1
     <= limit ->
  let saved :=
    save_message env sender_phone role message_id type text_content
      local_file_path timestamp w in
  fst saved = Py.Ok tt
  /\ exists rows,
       fst (get_history env sender_phone limit (snd saved)) = Py.Ok rows
       /\ In values rows
       /\ Permutation rows
            (where_sender_phone sender_phone (DbManager.messages (db w)) ++ [values]).
Proof.
  intros Hspec values Hc Hins Hsel Hl. simpl.
  unfold save_message. rewrite Hc. simpl. fold values. rewrite Hins. simpl.
  split; [done|].
  set (w1 := set_db _ _).
  assert (Hwhere : where_sender_phone sender_phone (DbManager.messages (db w1))
                   = where_sender_phone sender_phone (DbManager.messages (db w))
                     ++ [values]).
  { subst w1. simpl. rewrite where_sender_phone_app. f_equal.
    unfold where_sender_phone. simpl. by rewrite String.eqb_refl. }
  destruct (select_sql_all env sender_phone limit (DbManager.messages (db w1)) Hspec)
    as [Hperm _].
  { rewrite Hwhere, length_app. simpl. lia. }
  rewrite (get_history_connected env w1 sender_phone limit eq_refl Hsel). simpl.
  eexists. split; [reflexivity|]. rewrite Hwhere in Hperm. split; [|done].
  eapply Permutation_in; [symmetry; exact Hperm|]. apply in_or_app. right. by left.
Qed.

Lemma save_then_get_history_witness :
  let values :=
    {| DbManager.id := 7; DbManager.sender_phone := "4477"; DbManager.role := "user";
       DbManager.message_id := Some "wamid.9"; DbManager.type := "text";
       DbManager.text_content := Some "hi"; DbManager.local_file_path := None;
       DbManager.timestamp := 50 |} in
  let saved :=
    save_message Sample.env "4477" "user" (Some "wamid.9") "text" (Some "hi") None 50
      (Sample.world true Sample.table ∅) in
  fst saved = Py.Ok tt
  /\ exists rows,
       fst (get_history Sample.env "4477" 20 (snd saved)) = Py.Ok rows
       /\ In values rows
       /\ Permutation rows (where_sender_phone "4477" Sample.table ++ [values]).
Proof.
  refine (save_then_get_history Sample.env (Sample.world true Sample.table ∅)
            "4477" "user" (Some "wamid.9") "text" (Some "hi") None 50 20 _ _ _ _ _).
  - apply sample_order_by_spec.
  - reflexivity.
  - reflexivity.
  - reflexivity.
  - right. vm_compute. discriminate.
Defined.

(** ** The first message of a conversation *)

Lemma order_by_singleton env key desc r :
  order_by_spec env -> order_by env key desc [r] = [r].
Proof.
  intros [Hperm _]. apply Permutation_length_1_inv. symmetry. apply Hperm.
Qed.

(** X15: the first text message of a conversation reaches the model twice in
    one request.  The handler stores the inbound row before it asks the
    client; the client, finding no cached history, loads the stored rows,
    among them the row just written; and then appends the same text as the
    new turn. *)
Theorem first_message_is_sent_twice env message_data user_text w :
  order_by_spec env ->
  Models.is_mine message_data = false ->
  Models.type message_data = "text" ->
  Models.body message_data = Some user_text ->
  user_text <> "" ->
  Py.truthy (Models.local_file_path message_data) = false ->
  let sender_phone := Models.sender_phone message_data in
  chat_histories w !! sender_phone = None ->
  where_sender_phone sender_phone (DbManager.messages (db w)) = [] ->
  DbManager._connection (db w) = true ->
  insert_fails env
    {| DbManager.id := DbManager.last_id (db w) + 1;
       DbManager.sender_phone := sender_phone; DbManager.role := "user";
       DbManager.message_id := Some (Models.id message_data);
       DbManager.type := "text"; DbManager.text_content := Some user_text;
       DbManager.local_file_path := Models.local_file_path message_data;
       DbManager.timestamp := Models.timestamp message_data |} = false ->
  select_fails env sender_phone = false ->
  let user_turn := {| Genai.role := "user"; Genai.parts := [Genai.Text user_text] |} in
  In (EvGenerate [user_turn; user_turn])
    (trace (snd (handle_incoming_message env message_data w))).
Proof.
  intros Hspec Hmine Htype Hbody Hne Hpath sp Hcache Hnone Hconn Hins Hsel user_turn.
  rewrite (handle_steps env message_data w Hmine). fold sp.
  set (values := {| DbManager.id := DbManager.last_id (db w) + 1;
                    DbManager.sender_phone := sp; DbManager.role := "user";
                    DbManager.message_id := Some (Models.id message_data);
                    DbManager.type := "text"; DbManager.text_content := Some user_text;
                    DbManager.local_file_path := Models.local_file_path message_data;
                    DbManager.timestamp := Models.timestamp message_data |}) in *.
  assert (Hw1 : snd (swallow (save_message env sp "user" (Some (Models.id message_data))
                                (Models.type message_data) (Models.body message_data)
                                (Models.local_file_path message_data)
                                (Models.timestamp message_data)) w)
                = set_db {| DbManager._connection := true;
                            DbManager.messages := DbManager.messages (db w) ++ [values];
                            DbManager.last_id := DbManager.last_id (db w) + 1 |}
                    (log (EvInsert values) w)).
  { unfold swallow, try_except, save_message. rewrite Hconn, Htype, Hbody. simpl.
    fold values. by rewrite Hins. }
  rewrite Hw1. set (w1 := set_db _ _).
  assert (Hfetch : fst (_get_or_create_chat_history env sp w1) = Py.Ok [user_turn]).
  { destruct (get_or_create_fresh env sp w1 Hcache) as (-> & _). simpl.
    rewrite (get_history_connected env w1 sp get_history_default_limit eq_refl Hsel).
    simpl. unfold select_sql. rewrite where_sender_phone_app, Hnone. simpl.
    unfold where_sender_phone. simpl. rewrite String.eqb_refl.
    rewrite (order_by_singleton env _ _ _ Hspec).
    unfold sql_limit, get_history_default_limit. simpl.
    rewrite (order_by_singleton env _ _ _ Hspec).
    unfold _format_db_history_for_genai, format_turn. simpl.
    destruct user_text; [done|]. simpl.
    by destruct (String.eqb sp "assistant"). }
  assert (Hatt : attachment_parts env (in_local_file_path (prepare_llm_input message_data))
                   (snd (_get_or_create_chat_history env sp w1))
                 = (Py.Ok [], snd (_get_or_create_chat_history env sp w1))).
  { unfold attachment_parts. simpl. by rewrite Hpath. }
  assert (Hparts : with_text_part (in_text_content (prepare_llm_input message_data)) []
                   = [Genai.Text user_text]).
  { unfold with_text_part. simpl. rewrite Hbody. by destruct user_text. }
  destruct (process_message_reaches_model env sp (prepare_llm_input message_data)
              [user_turn] [] _ w1 Hfetch Hatt) as [Htrace _].
  { by rewrite Hparts. }
  rewrite Hparts in Htrace. fold user_turn in Htrace. simpl in Htrace.
  assert (Hin : In (EvGenerate [user_turn; user_turn])
                  (trace (snd (process_user_message env sp
                                 (prepare_llm_input message_data) w1)))).
  { rewrite Htrace. apply in_or_app. right. by left. }
  destruct (process_user_message env sp (prepare_llm_input message_data) w1)
    as [[reply|e] w2]; cbn [fst snd] in *.
  - destruct (negb _ || String.eqb reply safety_guidelines_reply); [done|].
    rewrite swallow_send_text. simpl. apply in_or_app. left.
    destruct (swallow_save_trace env sp "assistant" None "text" (Some reply) None
                (time_time env) w2) as [-> | [v ->]]; [done|].
    apply in_or_app. by left.
  - destruct (Py.truthy (Some sp)); [|done].
    rewrite swallow_send_text. simpl. apply in_or_app. by left.
Qed.

Lemma first_message_is_sent_twice_witness :
  In (EvGenerate [ {| Genai.role := "user"; Genai.parts := [Genai.Text "Hello"] |};
                   {| Genai.role := "user"; Genai.parts := [Genai.Text "Hello"] |} ])
    (trace (snd (handle_incoming_message Sample.env
                   (Sample.message "15551234567" false (Some "Hello") None)
                   Sample.fresh))).
Proof.
  refine (first_message_is_sent_twice Sample.env
            (Sample.message "15551234567" false (Some "Hello") None)
            "Hello" Sample.fresh _ _ _ _ _ _ _ _ _ _ _).
  - apply sample_order_by_spec.
  - reflexivity.
  - reflexivity.
  - reflexivity.
  - discriminate.
  - reflexivity.
  - reflexivity.
  - reflexivity.
  - reflexivity.
  - reflexivity.
  - reflexivity.
Defined.

(** ** The connection to the store *)

Lemma db_eta (d : DbManager.ConversationDBManager) :
  {| DbManager._connection := DbManager._connection d;
     DbManager.messages := DbManager.messages d;
     DbManager.last_id := DbManager.last_id d |} = d.
Proof. by destruct d. Qed.

Lemma world_eta (w : World) :
  {| db := db w; chat_histories := chat_histories w; trace := trace w |} = w.
Proof. by destruct w. Qed.

Lemma close_result sq w :
  close_fails sq = false ->
  close sq w
  = (Py.Ok tt,
     if DbManager._connection (db w)
     then set_db {| DbManager._connection := false;
                    DbManager.messages := DbManager.messages (db w);
                    DbManager.last_id := DbManager.last_id (db w) |} w
     else w).
Proof.
  intros Hc. unfold close, connection_close. rewrite Hc.
  by destruct (DbManager._connection (db w)).
Qed.

(** X16: closing is idempotent.  A [close] that went through leaves a
    manager on which any further [close] returns normally and changes
    nothing; the same holds for a manager that was never connected. *)
Theorem close_twice sq sq' w :
  close_fails sq = false ->
  let closed := close sq w in
  fst closed = Py.Ok tt
  /\ DbManager._connection (db (snd closed)) = false
  /\ close sq' (snd closed) = (Py.Ok tt, snd closed).
Proof.
  intros Hc. simpl. rewrite (close_result sq w Hc). simpl.
  assert (Hclosed : DbManager._connection
                      (db (if DbManager._connection (db w)
                           then set_db {| DbManager._connection := false;
                                          DbManager.messages := DbManager.messages (db w);
                                          DbManager.last_id := DbManager.last_id (db w) |} w
                           else w)) = false)
    by (by destruct (DbManager._connection (db w)) eqn:E).
  split; [done|]. split; [done|].
  unfold close. by rewrite Hclosed.
Qed.

Lemma close_twice_witness :
  fst (close sqlite_ok (Sample.world true Sample.table ∅)) = Py.Ok tt
  /\ DbManager._connection
       (db (snd (close sqlite_ok (Sample.world true Sample.table ∅)))) = false
  /\ close sqlite_ok (snd (close sqlite_ok (Sample.world true Sample.table ∅)))
     = (Py.Ok tt, snd (close sqlite_ok (Sample.world true Sample.table ∅))).
Proof.
  apply (close_twice sqlite_ok sqlite_ok (Sample.world true Sample.table ∅)).
  reflexivity.
Defined.

(** X17: until [connect] has gone through, and again after [close], both
    operations of the store refuse to work: [save_message] and
    [get_history] raise the "not connected" error and change nothing. *)
Theorem closed_store_refuses env sq w sender_phone role message_id type text_content
    local_file_path timestamp limit :
  close_fails sq = false ->
  let w' := snd (close sq w) in
  save_message env sender_phone role message_id type text_content local_file_path
    timestamp w'
  = (Py.Raise (Py.ConnectionError "Database not connected."), w')
  /\ get_history env sender_phone limit w'
     = (Py.Raise (Py.ConnectionError "Database not connected."), w').
Proof.
  intros Hc. simpl.
  assert (Hclosed : DbManager._connection (db (snd (close sq w))) = false).
  { rewrite (close_result sq w Hc). simpl.
    by destruct (DbManager._connection (db w)) eqn:E. }
  unfold save_message, get_history. by rewrite Hclosed.
Qed.

Lemma closed_store_refuses_witness :
  let w' := snd (close sqlite_ok (Sample.world true Sample.table ∅)) in
  save_message Sample.env "4477" "user" None "text" (Some "hi") None 1 w'
  = (Py.Raise (Py.ConnectionError "Database not connected."), w')
  /\ get_history Sample.env "4477" 20 w'
     = (Py.Raise (Py.ConnectionError "Database not connected."), w').
Proof.
  apply (closed_store_refuses Sample.env sqlite_ok (Sample.world true Sample.table ∅)).
  reflexivity.
Defined.

(** X18: [close] followed by a [connect] that goes through gives back the
    manager as it was: the rows and the row counter survive the cycle. *)
Theorem reconnect_restores_store sq sq' w :
  DbManager._connection (db w) = true ->
  close_fails sq = false ->
  makedirs_fails sq' = false ->
  connect_fails sq' = false ->
  create_table_fails sq' = false ->
  let closed := close sq w in
  let reopened := connect sq' (snd closed) in
  fst closed = Py.Ok tt /\ reopened = (Py.Ok tt, w).
Proof.
  intros Hconn Hc Hm Hk Ht. simpl.
  rewrite (close_result sq w Hc), Hconn. simpl.
  split; [done|].
  unfold connect. simpl. rewrite Hm, Hk.
  unfold try_except, bind, _create_messages_table, set_connection. simpl.
  rewrite Ht. simpl. f_equal.
  unfold set_db. simpl. rewrite <- Hconn, db_eta. apply world_eta.
Qed.

Lemma reconnect_restores_store_witness :
  fst (close sqlite_ok (Sample.world true Sample.table ∅)) = Py.Ok tt
  /\ connect sqlite_ok (snd (close sqlite_ok (Sample.world true Sample.table ∅)))
     = (Py.Ok tt, Sample.world true Sample.table ∅).
Proof.
  apply (reconnect_restores_store sqlite_ok sqlite_ok
           (Sample.world true Sample.table ∅)); reflexivity.
Defined.

(** X19: a [connect] that fails, at whatever step, raises and leaves the
    manager unconnected with its table untouched (given that closing the
    half-open connection does not fail in turn); a [connect] on a connected
    manager does nothing, whatever the file system would do. *)
Theorem connect_failure_leaves_unconnected sq w :
  (DbManager._connection (db w) = true -> connect sq w = (Py.Ok tt, w))
  /\ (DbManager._connection (db w) = false ->
      makedirs_fails sq = true \/ connect_fails sq = true
      \/ create_table_fails sq = true ->
      close_fails sq = false ->
      exists e,
        fst (connect sq w) = Py.Raise e
        /\ DbManager._connection (db (snd (connect sq w))) = false
        /\ DbManager.messages (db (snd (connect sq w))) = DbManager.messages (db w)
        /\ DbManager.last_id (db (snd (connect sq w))) = DbManager.last_id (db w)).
Proof.
  split.
  - intros Hc. unfold connect. by rewrite Hc.
  - intros Hc Hfail Hclose. unfold connect. rewrite Hc.
    unfold try_except, bind, _create_messages_table, set_connection,
      connection_close, modify, raise, ret.
    rewrite Hclose.
    destruct (makedirs_fails sq); simpl; [rewrite Hc; simpl; by eexists|].
    destruct (connect_fails sq); simpl; [rewrite Hc; simpl; by eexists|].
    destruct (create_table_fails sq); simpl; [by eexists|].
    destruct Hfail as [? | [? | ?]]; discriminate.
Qed.

Lemma connect_failure_leaves_unconnected_witness :
  let sq := {| makedirs_fails := false; connect_fails := false;
               create_table_fails := true; close_fails := false |} in
  connect sq (Sample.world true Sample.table ∅)
  = (Py.Ok tt, Sample.world true Sample.table ∅)
  /\ exists e,
       fst (connect sq (Sample.world false Sample.table ∅)) = Py.Raise e
       /\ DbManager._connection
            (db (snd (connect sq (Sample.world false Sample.table ∅)))) = false
       /\ DbManager.messages (db (snd (connect sq (Sample.world false Sample.table ∅))))
          = Sample.table
       /\ DbManager.last_id (db (snd (connect sq (Sample.world false Sample.table ∅))))
          = 6.
Proof.
  split.
  - apply (proj1 (connect_failure_leaves_unconnected
                    {| makedirs_fails := false; connect_fails := false;
                       create_table_fails := true; close_fails := false |}
                    (Sample.world true Sample.table ∅))).
    reflexivity.
  - apply (proj2 (connect_failure_leaves_unconnected
                    {| makedirs_fails := false; connect_fails := false;
                       create_table_fails := true; close_fails := false |}
                    (Sample.world false Sample.table ∅))).
    + reflexivity.
    + right. right. reflexivity.
    + reflexivity.
Defined.

#[local] Instance store_left_alone_preorder : PreOrder store_left_alone.
Proof.
  split.
  - by intros w H.
  - intros a b c Hab Hbc H. destruct (Hab H) as [H1 H2].
    assert (Hb : DbManager._connection (db b) = false) by (by rewrite H1).
    destruct (Hbc Hb) as [H3 H4]. split; congruence.
Qed.

Section StoreLeftAlone.

Variable env : Env.

Lemma store_left_alone_log e :
  is_sql e = false -> preserves store_left_alone (modify (log e)).
Proof.
  intros He w H. simpl. split; [done|]. rewrite filter_app. simpl.
  rewrite He. apply app_nil_r.
Qed.

Lemma store_left_alone_history_append q x :
  preserves store_left_alone (history_append q x).
Proof. by intros w H. Qed.

Lemma store_left_alone_save_message sp role mid ty txt path ts :
  preserves store_left_alone (save_message env sp role mid ty txt path ts).
Proof. intros w H. unfold save_message. by rewrite H. Qed.

Lemma store_left_alone_send_text number message :
  preserves store_left_alone (send_text env number message).
Proof.
  intros w H. unfold send_text, bind. simpl.
  destruct (send_text_fails _ _ _); simpl; (split; [done|]);
    rewrite filter_app; simpl; apply app_nil_r.
Qed.

Lemma store_left_alone_get_or_create q :
  preserves store_left_alone (_get_or_create_chat_history env q).
Proof.
  intros w H. unfold _get_or_create_chat_history, bind.
  destruct (chat_histories w !! q) as [h|] eqn:Hq.
  - by rewrite Hq.
  - unfold get_history. rewrite H. simpl. by rewrite lookup_insert_eq.
Qed.

End StoreLeftAlone.

#[local] Hint Resolve store_left_alone_history_append store_left_alone_save_message
  store_left_alone_send_text store_left_alone_get_or_create : preserves.

#[local] Hint Extern 1 (preserves store_left_alone (modify (log _))) =>
  apply store_left_alone_log; reflexivity : preserves.

Lemma store_left_alone_handle env message_data :
  preserves store_left_alone (handle_incoming_message env message_data).
Proof.
  unfold handle_incoming_message, process_user_message.
  repeat preserves_step; frame_file.
Qed.

(** X20: without a connection to the store the handler still runs to its
    end, and it neither changes the store nor calls the SQL engine: every
    failed save and the failed load of the history are swallowed. *)
Theorem handle_without_store env message_data w :
  DbManager._connection (db w) = false ->
  let out := handle_incoming_message env message_data w in
  fst out = Py.Ok tt
  /\ db (snd out) = db w
  /\ List.filter is_sql (trace (snd out)) = List.filter is_sql (trace w).
Proof.
  intros Hc. simpl. split.
  - destruct (Models.is_mine message_data) eqn:Hmine.
    + unfold handle_incoming_message, try_except. by rewrite Hmine.
    + rewrite (handle_steps env message_data w Hmine).
      by destruct (process_user_message _ _ _ _) as [[reply|e] w2].
  - by apply store_left_alone_handle.
Qed.

Lemma handle_without_store_witness :
  let out :=
    handle_incoming_message Sample.env
      (Sample.message "15551234567" false (Some "Hello") None)
      (Sample.world false Sample.table ∅) in
  fst out = Py.Ok tt
  /\ db (snd out) = db (Sample.world false Sample.table ∅)
  /\ List.filter is_sql (trace (snd out))
     = List.filter is_sql (trace (Sample.world false Sample.table ∅)).
Proof.
  apply (handle_without_store Sample.env
           (Sample.message "15551234567" false (Some "Hello") None)
           (Sample.world false Sample.table ∅)).
  reflexivity.
Defined.

(** Run: the reply still goes out, from an empty history. *)
Example unconnected_store_run :
  trace (snd (handle_incoming_message Sample.env
                (Sample.message "15551234567" false (Some "Hello") None)
                (Sample.world false Sample.table ∅)))
  = [ EvGenerate [ {| Genai.role := "user"; Genai.parts := [Genai.Text "Hello"] |} ];
      EvSendText "15551234567" "Hello!" ].
Proof. reflexivity. Qed.

(** ** main.py: the text sender *)

Lemma lstrip_plus (number : string) :
  exists k,
    number = (PyStr.plus_signs k ++ PyStr.lstrip "+" number)%string
    /\ forall rest, PyStr.lstrip "+" number <> String "+" rest.
Proof.
  induction number as [|c number' IH].
  - by exists 0%nat.
  - cbn [PyStr.lstrip]. unfold PyStr.among. cbn [list_ascii_of_string existsb].
    rewrite orb_false_r.
    destruct (Ascii.eqb c "+") eqn:Hc.
    + apply Ascii.eqb_eq in Hc as ->.
      destruct IH as (k & Hk & Hrest). exists (S k).
      split; [|done]. exact (f_equal (String "+") Hk).
    + exists 0%nat. split; [done|].
      intros rest [= -> _]. by rewrite Ascii.eqb_refl in Hc.
Qed.

(** X21: the number is used with its leading plus signs removed, whatever
    their count.  When nothing is left the request is refused with a 400
    and the API server is not called; otherwise exactly one call is made, a
    POST to [/send-message/<number>] whose body carries the message text
    unchanged. *)
Theorem send_text_message_strips_plus {ApiResponse}
    (call_whatsapp_api : Main.ApiCall -> Py.Res ApiResponse) number request_body :
  let out := Main.send_text_message call_whatsapp_api number request_body in
  exists k rest,
    number = (PyStr.plus_signs k ++ rest)%string
    /\ (forall rest', rest <> String "+" rest')
    /\ match rest with
       | EmptyString =>
           out = (Py.Raise (Py.HTTPException 400 "Invalid number format for sending."),
                  [])
       | _ =>
           exists more,
             snd out
             = [ {| Main.method := "POST";
                    Main.endpoint := ("/send-message/" ++ rest)%string;
                    Main.json := ("message", Main.message request_body) :: more |} ]
       end.
Proof.
  simpl. destruct (lstrip_plus number) as (k & Hk & Hrest).
  exists k, (PyStr.lstrip "+" number). split; [done|]. split; [done|].
  unfold Main.send_text_message.
  destruct (PyStr.lstrip "+" number) as [|c rest]; [done|].
  exists (if Py.truthy (Main.reply_to request_body)
          then [("reply_to", default "" (Main.reply_to request_body))] else []).
  set (call := {| Main.method := "POST" |}).
  assert (call = {| Main.method := "POST";
                    Main.endpoint := ("/send-message/" ++ String c rest)%string;
                    Main.json :=
                      ("message", Main.message request_body)
                      :: (if Py.truthy (Main.reply_to request_body)
                          then [("reply_to", default "" (Main.reply_to request_body))]
                          else []) |}) as <-.
  { subst call. by destruct (Py.truthy (Main.reply_to request_body)). }
  by destruct (call_whatsapp_api call) as [r|[]].
Qed.

(** X22: whatever the API call does, the only exception that leaves
    [send_text_message] is an [HTTPException], and it returns normally only
    with the answer of an API call that went through. *)
Theorem send_text_message_raises_http_only {ApiResponse}
    (call_whatsapp_api : Main.ApiCall -> Py.Res ApiResponse) number request_body :
  let out := Main.send_text_message call_whatsapp_api number request_body in
  match fst out with
  | Py.Ok api_response =>
      exists call, snd out = [call] /\ call_whatsapp_api call = Py.Ok api_response
  | Py.Raise e => exists status_code detail, e = Py.HTTPException status_code detail
  end.
Proof.
  simpl. unfold Main.send_text_message.
  destruct (PyStr.lstrip "+" number) as [|c rest]; simpl; [by eauto|].
  set (call := {| Main.method := "POST" |}).
  destruct (call_whatsapp_api call) as [r|[]] eqn:Hcall; simpl; eauto.
Qed.

(** ** main.py: the name of a downloaded file *)

Lemma has_char_append c a b :
  PyStr.has_char c (a ++ b)%string <-> PyStr.has_char c a \/ PyStr.has_char c b.
Proof.
  unfold PyStr.has_char. induction a as [|x a IH]; simpl.
  - split; [by right|by intros [[]|]].
  - rewrite IH. tauto.
Qed.

Lemma join_if_chars keep s c :
  PyStr.has_char c (PyStr.join_if keep s) -> keep c = true /\ PyStr.has_char c s.
Proof.
  unfold PyStr.has_char. induction s as [|x s IH]; simpl; [done|].
  destruct (keep x) eqn:Hx; simpl.
  - intros [<-|H]; [by auto|]. destruct (IH H). auto.
  - intros H. destruct (IH H). auto.
Qed.

Lemma lstrip_chars chars s c :
  PyStr.has_char c (PyStr.lstrip chars s) -> PyStr.has_char c s.
Proof.
  unfold PyStr.has_char. induction s as [|x s IH]; simpl; [done|].
  destruct (PyStr.among chars x); simpl; auto.
Qed.

Lemma rstrip_chars chars s c :
  PyStr.has_char c (PyStr.rstrip chars s) -> PyStr.has_char c s.
Proof.
  unfold PyStr.has_char. induction s as [|x s IH]; simpl; [done|].
  destruct (PyStr.rstrip chars s) as [|y r].
  - destruct (PyStr.among chars x); simpl; [done|]. intros [<-|[]]. by left.
  - simpl in *. intros [<-|H]; auto.
Qed.

Lemma substring_whole s : String.substring 0 (String.length s) s = s.
Proof. induction s as [|x s IH]; simpl; by rewrite ?IH. Qed.

Lemma append_cons x a b : (String x a ++ b)%string = String x (a ++ b)%string.
Proof. reflexivity. Qed.

Lemma append_nil b : (EmptyString ++ b)%string = b.
Proof. reflexivity. Qed.

Lemma substring_after front s n :
  String.substring (String.length front) n (front ++ s) = String.substring 0 n s.
Proof.
  induction front as [|x front IH]; [by rewrite append_nil|].
  rewrite append_cons. exact IH.
Qed.

Lemma length_append_front front s :
  (String.length (front ++ s) - String.length front)%nat = String.length s.
Proof.
  induction front as [|x front IH]; [rewrite append_nil; simpl; lia|].
  rewrite append_cons. exact IH.
Qed.

(** What [rfind] finds: the last occurrence. *)
Lemma rfind_from_last c s i :
  0 <= i ->
  let r := Py.rfind_from c s i in
  (r = -1 /\ ~ PyStr.has_char c s)
  \/ exists front back,
       s = (front ++ String c back)%string
       /\ ~ PyStr.has_char c back
       /\ r = i + Z.of_nat (String.length front).
Proof.
  intros Hi. simpl. revert i Hi. induction s as [|x s IH]; intros i Hi; simpl.
  - left. split; [done|]. by intros [].
  - destruct (IH (i + 1) ltac:(lia)) as [[Hr Hno]|(front & back & -> & Hno & Hr)].
    + rewrite Hr. simpl. destruct (Ascii.eqb x c) eqn:Hx.
      * apply Ascii.eqb_eq in Hx as ->. right. exists EmptyString, s.
        repeat split; [done|]. simpl. lia.
      * left. split; [done|]. intros [->|H]; [|done].
        by rewrite Ascii.eqb_refl in Hx.
    + right. exists (String x front), back.
      assert ((0 <=? Py.rfind_from c (front ++ String c back) (i + 1)) = true) as ->.
      { apply Z.leb_le. rewrite Hr. lia. }
      repeat split; [done|]. rewrite Hr. simpl String.length. lia.
Qed.

(** The extension [splitext] gives is empty or a dot followed by
    characters other than the dot. *)
Lemma splitext_ext_shape p :
  Py.splitext_ext p = EmptyString
  \/ exists back, Py.splitext_ext p = String "." back /\ ~ PyStr.has_char "." back.
Proof.
  unfold Py.splitext_ext.
  destruct (_ && _) eqn:Hcond; [|by left].
  apply andb_prop in Hcond as [Hlt _]. apply Z.ltb_lt in Hlt.
  unfold Py.rfind in *.
  destruct (rfind_from_last "." p 0 ltac:(lia)) as [[Hr _]|(front & back & -> & Hno & Hr)].
  - exfalso.
    destruct (rfind_from_last "/" p 0 ltac:(lia)) as [[Hs _]|(f & b & _ & _ & Hs)]; lia.
  - right. exists back. split; [|done].
    rewrite Hr. unfold Py.slice_from.
    replace (Z.to_nat (0 + Z.of_nat (String.length front))) with (String.length front)
      by lia.
    rewrite substring_after, length_append_front. apply substring_whole.
Qed.

Lemma or_else_cases a b :
  (a <> EmptyString /\ PyStr.or_else a b = a) \/ (a = EmptyString /\ PyStr.or_else a b = b).
Proof. destruct a; [by right|by left]. Qed.

Section FileNames.

Variable isalnum : ascii -> bool.
Variable uuid4 : string.

Lemma safe_filename_base_cases media :
  Main.safe_filename_base isalnum uuid4 media = uuid4
  \/ (Main.safe_filename_base isalnum uuid4 media <> EmptyString
      /\ PyStr.all_chars (fun c => isalnum c || PyStr.among "_-" c)
           (Main.safe_filename_base isalnum uuid4 media)).
Proof.
  unfold Main.safe_filename_base.
  destruct (or_else_cases
              (PyStr.rstrip "._-"
                 (PyStr.join_if (fun c => isalnum c || PyStr.among "_-" c)
                    (PyStr.splitext_root (Main.original_filename media))))
              uuid4) as [[Hne ->]|[_ ->]]; [right|by left].
  split; [done|]. intros c Hc.
  by apply rstrip_chars, join_if_chars in Hc as [Hc _].
Qed.

Lemma safe_extension_cases media :
  Main.safe_extension isalnum media <> EmptyString
  /\ (Main.safe_extension isalnum media = PyStr.or_else (Models.extension media) "bin"
      \/ PyStr.all_chars isalnum (Main.safe_extension isalnum media)).
Proof.
  unfold Main.safe_extension.
  set (keep := fun c => isalnum c || Ascii.eqb c ".").
  destruct (splitext_ext_shape (Main.original_filename media))
    as [Hext|(back & Hext & Hno)]; rewrite Hext.
  - cbn [PyStr.join_if PyStr.lstrip PyStr.or_else].
    split; [by destruct (Models.extension media)|by left].
  - assert (PyStr.lstrip "." (PyStr.join_if keep (String "." back))
            = PyStr.lstrip "." (PyStr.join_if keep back)) as ->.
    { cbn [PyStr.join_if]. unfold keep at 1. rewrite Ascii.eqb_refl, orb_true_r.
      cbn [PyStr.lstrip]. unfold PyStr.among at 1.
      cbn [list_ascii_of_string existsb]. by rewrite Ascii.eqb_refl. }
    destruct (or_else_cases (PyStr.lstrip "." (PyStr.join_if keep back))
                (PyStr.or_else (Models.extension media) "bin")) as [[Hne ->]|[_ ->]].
    + split; [done|]. right. intros c Hc.
      apply lstrip_chars, join_if_chars in Hc as [Hkeep Hc].
      unfold keep in Hkeep. apply orb_prop in Hkeep as [Hkeep|Hdot]; [done|].
      apply Ascii.eqb_eq in Hdot as ->. by destruct Hno.
    + split; [|by left]. by destruct (Models.extension media).
Qed.

End FileNames.

Lemma startswith_sep_has_char s :
  PyStr.startswith_sep s = true -> PyStr.has_char "/" s.
Proof.
  destruct s as [|c s]; [done|]. simpl. intros Hc.
  apply Ascii.eqb_eq in Hc as ->. by left.
Qed.

(** X23: the two sanitised parts of the name under which a download is
    stored.  The base is the generated UUID or a non-empty string of
    alphanumeric characters, underscores and hyphens.  The extension is
    never empty, and it consists of alphanumeric characters only unless it
    falls back to the extension the payload declares (or to [bin]), which is
    used as it comes. *)
Theorem sanitised_name_parts isalnum uuid4 media :
  let base := Main.safe_filename_base isalnum uuid4 media in
  let ext := Main.safe_extension isalnum media in
  (base = uuid4
   \/ (base <> EmptyString
       /\ PyStr.all_chars (fun c => isalnum c || PyStr.among "_-" c) base))
  /\ ext <> EmptyString
  /\ (ext = PyStr.or_else (Models.extension media) "bin" \/ PyStr.all_chars isalnum ext).
Proof.
  simpl. split; [apply safe_filename_base_cases|apply safe_extension_cases].
Qed.

(** X24: when neither the message id, the declared extension nor the UUID
    contains a slash (and a slash does not count as alphanumeric), the name
    of the stored file contains none whatever the filename in the payload,
    and the file is written directly inside [MEDIA_STORAGE_DIR]. *)
Theorem download_path_in_storage_dir isalnum uuid4 MEDIA_STORAGE_DIR message_data media :
  isalnum "/"%char = false ->
  ~ PyStr.has_char "/" (Models.id message_data) ->
  ~ PyStr.has_char "/" uuid4 ->
  ~ PyStr.has_char "/" (Models.extension media) ->
  let name := Main.unique_filename isalnum uuid4 message_data media in
  ~ PyStr.has_char "/" name
  /\ Main.download_path isalnum uuid4 MEDIA_STORAGE_DIR message_data media
     = (MEDIA_STORAGE_DIR
        ++ (if match MEDIA_STORAGE_DIR with
               | EmptyString => true
               | _ => PyStr.endswith_sep MEDIA_STORAGE_DIR
               end
            then "" else "/")
        ++ name)%string.
Proof.
  intros Halnum Hid Huuid Hext name.
  assert (Hname : ~ PyStr.has_char "/" name).
  { subst name. unfold Main.unique_filename.
    rewrite !has_char_append. intros [H|[H|[H|[H|H]]]].
    - done.
    - by destruct H as [|[]].
    - destruct (safe_filename_base_cases isalnum uuid4 media) as [Hb|[_ Hb]].
      + by rewrite Hb in H.
      + apply Hb in H. by rewrite Halnum in H.
    - by destruct H as [|[]].
    - destruct (safe_extension_cases isalnum media) as [_ [He|He]].
      + rewrite He in H. destruct (Models.extension media); [|done].
        by destruct H as [|[|[|[]]]].
      + apply He in H. by rewrite Halnum in H. }
  split; [done|].
  unfold Main.download_path, PyStr.path_join. fold name.
  destruct (PyStr.startswith_sep name) eqn:Hstart.
  { by apply startswith_sep_has_char in Hstart. }
  by destruct (match MEDIA_STORAGE_DIR with
               | EmptyString => true
               | _ => PyStr.endswith_sep MEDIA_STORAGE_DIR
               end).
Qed.

Lemma download_path_in_storage_dir_witness :
  let message_data := MainSample.image_message "wamid.7" None in
  ~ PyStr.has_char "/"
      (Main.unique_filename MainSample.isalnum MainSample.uuid4 message_data
         MainSample.photo)
  /\ Main.download_path MainSample.isalnum MainSample.uuid4 "media_storage"
       message_data MainSample.photo
     = "media_storage/wamid.7_holidayphoto1.jpg".
Proof.
  refine (download_path_in_storage_dir MainSample.isalnum MainSample.uuid4
            "media_storage" (MainSample.image_message "wamid.7" None)
            MainSample.photo _ _ _ _).
  - reflexivity.
  - unfold PyStr.has_char. simpl. intuition discriminate.
  - unfold PyStr.has_char. simpl. intuition discriminate.
  - unfold PyStr.has_char. simpl. intuition discriminate.
Defined.

(** X25: the message id goes into the name as it comes.  When it starts
    with a slash, [os.path.join] drops [MEDIA_STORAGE_DIR] and the download
    is written to the path that the id begins. *)
Theorem absolute_message_id_overrides_storage_dir
    isalnum uuid4 MEDIA_STORAGE_DIR message_data media :
  PyStr.startswith_sep (Models.id message_data) = true ->
  Main.download_path isalnum uuid4 MEDIA_STORAGE_DIR message_data media
  = (Models.id message_data ++ "_" ++ Main.safe_filename_base isalnum uuid4 media
     ++ "." ++ Main.safe_extension isalnum media)%string.
Proof.
  intros Hid. unfold Main.download_path, PyStr.path_join, Main.unique_filename.
  destruct (Models.id message_data) as [|c id]; [done|].
  rewrite append_cons. cbn [PyStr.startswith_sep].
  simpl in Hid. by rewrite Hid.
Qed.

Lemma absolute_message_id_overrides_storage_dir_witness :
  Main.download_path MainSample.isalnum MainSample.uuid4 "media_storage"
    (MainSample.image_message "/tmp/wamid.7" None) MainSample.photo
  = "/tmp/wamid.7_holidayphoto1.jpg".
Proof.
  refine (absolute_message_id_overrides_storage_dir MainSample.isalnum
            MainSample.uuid4 "media_storage"
            (MainSample.image_message "/tmp/wamid.7" None) MainSample.photo _).
  reflexivity.
Defined.

(** ** main.py: the webhook endpoint *)

(** X26: once the service exists the webhook is always acknowledged,
    whatever the event and whatever happens while the message is handled;
    before that it is refused with a 503 and nothing is done. *)
Theorem receive_webhook_acknowledges
    isalnum uuid4 MEDIA_STORAGE_DIR download env llm_service_ready payload w :
  let out :=
    Main.receive_webhook isalnum uuid4 MEDIA_STORAGE_DIR download env
      llm_service_ready payload w in
  if llm_service_ready then fst out = Py.Ok tt
  else out = (Py.Raise (Py.HTTPException 503 "LLM Service not ready."), w).
Proof.
  simpl. unfold Main.receive_webhook.
  destruct llm_service_ready; [|done]. cbn [negb]. unfold bind.
  destruct (String.eqb (Main.type payload) "message_received"); [|done].
  destruct (negb (Models.is_mine (Main.data payload))); [|done].
  unfold try_except.
  by destruct (handle_incoming_message env _ w) as [[[]|e] w'].
Qed.

(** X27: an event of another type than [message_received], and a message
    sent from the connected account itself, are acknowledged without any
    effect: no row, no call to the model, no reply, no cache entry. *)
Theorem receive_webhook_ignores
    isalnum uuid4 MEDIA_STORAGE_DIR download env payload w :
  Main.type payload <> "message_received"
  \/ Models.is_mine (Main.data payload) = true ->
  Main.receive_webhook isalnum uuid4 MEDIA_STORAGE_DIR download env true payload w
  = (Py.Ok tt, w).
Proof.
  intros H. unfold Main.receive_webhook. cbn [negb]. unfold bind.
  destruct (String.eqb (Main.type payload) "message_received") eqn:Htype; [|done].
  apply String.eqb_eq in Htype. destruct H as [H|H]; [done|].
  by rewrite H.
Qed.

Lemma receive_webhook_ignores_witness :
  Main.receive_webhook MainSample.isalnum MainSample.uuid4 "media_storage"
    (fun _ _ => true) Sample.env true
    {| Main.type := "message_ack";
       Main.data := MainSample.image_message "wamid.7" None |}
    Sample.fresh
  = (Py.Ok tt, Sample.fresh).
Proof.
  apply (receive_webhook_ignores MainSample.isalnum MainSample.uuid4 "media_storage"
           (fun _ _ => true) Sample.env
           {| Main.type := "message_ack";
              Main.data := MainSample.image_message "wamid.7" None |}
           Sample.fresh).
  by left.
Defined.

(** X28: a media message whose download fails is handled without the
    attachment, also when the payload itself named a local file.  With no
    caption either, the sender gets the fixed prompt-for-input sentence,
    the model is not called and the session cache is not touched. *)
Theorem failed_download_is_answered_with_prompt
    isalnum uuid4 MEDIA_STORAGE_DIR download env payload media w :
  Main.type payload = "message_received" ->
  Models.is_mine (Main.data payload) = false ->
  Models.media (Main.data payload) = Some media ->
  In (Models.type (Main.data payload)) Main.media_types ->
  Models.url media <> "" ->
  download (Models.url media)
    (Main.download_path isalnum uuid4 MEDIA_STORAGE_DIR (Main.data payload) media)
  = false ->
  (Models.body (Main.data payload) = None \/ Models.body (Main.data payload) = Some "") ->
  let out :=
    Main.receive_webhook isalnum uuid4 MEDIA_STORAGE_DIR download env true payload w in
  fst out = Py.Ok tt
  /\ sends (trace (snd out))
     = sends (trace w)
       ++ [EvSendText (Models.sender_phone (Main.data payload))
             "Please provide a message or a file to process."]
  /\ List.filter is_generate (trace (snd out)) = List.filter is_generate (trace w)
  /\ chat_histories (snd out) = chat_histories w.
Proof.
  intros Htype Hmine Hmedia Hin Hurl Hdl Hbody out.
  assert (Hafter : Main.after_download isalnum uuid4 MEDIA_STORAGE_DIR download
                     (Main.data payload)
                   = Main.set_local_file_path None (Main.data payload)).
  { unfold Main.after_download. rewrite Hmedia.
    assert (existsb (String.eqb (Models.type (Main.data payload))) Main.media_types
            = true) as ->.
    { apply existsb_exists. exists (Models.type (Main.data payload)).
      split; [done|apply String.eqb_refl]. }
    assert (Py.truthy (Some (Models.url media)) = true) as ->.
    { by destruct (Models.url media). }
    cbn [andb]. by rewrite Hdl. }
  pose proof (handle_no_content env
                (Main.set_local_file_path None (Main.data payload)) w
                Hmine Hbody (or_introl eq_refl)) as Hhandle.
  subst out. unfold Main.receive_webhook. cbn [negb]. unfold bind.
  rewrite Htype, String.eqb_refl, Hmine, Hafter. cbn [negb]. unfold try_except.
  cbn zeta in Hhandle.
  destruct (handle_incoming_message env _ w) as [[[]|e] w']; by split.
Qed.

Lemma failed_download_is_answered_with_prompt_witness :
  let payload :=
    {| Main.type := "message_received";
       Main.data := MainSample.image_message "wamid.7" (Some "/etc/hostname") |} in
  let out :=
    Main.receive_webhook MainSample.isalnum MainSample.uuid4 "media_storage"
      (fun _ _ => false) Sample.env true payload Sample.fresh in
  fst out = Py.Ok tt
  /\ sends (trace (snd out))
     = sends (trace Sample.fresh)
       ++ [EvSendText "15551234567" "Please provide a message or a file to process."]
  /\ List.filter is_generate (trace (snd out))
     = List.filter is_generate (trace Sample.fresh)
  /\ chat_histories (snd out) = chat_histories Sample.fresh.
Proof.
  refine (failed_download_is_answered_with_prompt MainSample.isalnum MainSample.uuid4
            "media_storage" (fun _ _ => false) Sample.env
            {| Main.type := "message_received";
               Main.data := MainSample.image_message "wamid.7" (Some "/etc/hostname") |}
            MainSample.photo Sample.fresh _ _ _ _ _ _ _).
  - reflexivity.
  - reflexivity.
  - reflexivity.
  - simpl. by left.
  - discriminate.
  - reflexivity.
  - by left.
Defined.
